(** * indigo-services: the Plane and Railway agents and the webhook listener

    A shallow embedding of [plane-agent.js], [plane-ticket-creator.js],
    [webhook-listener.js], [railway-agent.js] and the webhook registration
    script, followed by the properties of the specification that were
    checked against it and by further properties read off the code.

    Conventions of the embedding.
    - A JavaScript string is a [string]; each character stands for one code
      unit in the range 0..255 (ASCII and Latin-1), which is where
      [toLowerCase], [trim] and [length] are modelled exactly.
    - A JavaScript value that came out of [JSON.parse] is a [JSON]; a value
      that may also be [undefined] is an [option JSON] with [None] for
      [undefined].
    - An [async] function is a computation [M W A]: it reads and updates
      the state of the outside world (the remote servers, type [W]), appends
      to a trace of observable events, and either returns or throws.
    - [console.log] output of the two API clients is diagnostic only and is
      left out of their traces; the webhook listener has no other effect than
      its console output, which is therefore recorded.  Where a printed line
      or a URL interpolates a value that came from outside, the conversion
      to a string is kept in every program, since it can throw. *)

From Stdlib Require Import String Ascii ZArith List Bool Lia.
From stdpp Require Import gmap strings list fin_maps pretty.

Local Open Scope string_scope.
Local Open Scope list_scope.
Local Open Scope Z_scope.

(** ** Part I. Definitions *)

(** *** JavaScript strings *)

Module JsString.

(** [String.prototype.toLowerCase] on one code unit below 256: A-Z and the
    Latin-1 capitals (U+00C0..U+00DE except the multiplication sign). *)
Definition lower_unit (c : ascii) : ascii :=
  let n := nat_of_ascii c in
  if (((65 <=? n) && (n <=? 90)) ||
      ((192 <=? n) && (n <=? 222) && negb (n =? 215)))%nat
  then ascii_of_nat (n + 32) else c.

Fixpoint toLowerCase (s : string) : string :=
  match s with
  | EmptyString => EmptyString
  | String c r => String (lower_unit c) (toLowerCase r)
  end.

(** [toUpperCase], used by the source on ASCII keys only. *)
Definition upper_unit (c : ascii) : ascii :=
  let n := nat_of_ascii c in
  if ((97 <=? n) && (n <=? 122))%nat then ascii_of_nat (n - 32) else c.

Fixpoint toUpperCase (s : string) : string :=
  match s with
  | EmptyString => EmptyString
  | String c r => String (upper_unit c) (toUpperCase r)
  end.

(** [s.includes(sub)] *)
Fixpoint includes (s sub : string) : bool :=
  String.prefix sub s ||
  match s with
  | EmptyString => false
  | String _ r => includes r sub
  end.

(** [s.split(sep)[0]] for a one-character separator: the text before the
    first [sep], or all of [s]. *)
Fixpoint split_first (sep : ascii) (s : string) : string :=
  match s with
  | EmptyString => EmptyString
  | String c r => if Ascii.eqb c sep then EmptyString
                  else String c (split_first sep r)
  end.

(** [s.split(sep).length] for a one-character separator. *)
Fixpoint split_length (sep : ascii) (s : string) : nat :=
  match s with
  | EmptyString => 1
  | String c r => if Ascii.eqb c sep then S (split_length sep r)
                  else split_length sep r
  end.

(** White space and line terminators below 256, as [trim] reads them. *)
Definition is_space (c : ascii) : bool :=
  let n := nat_of_ascii c in
  (((9 <=? n) && (n <=? 13)) || (n =? 32) || (n =? 160))%nat.

Fixpoint trimStart (s : string) : string :=
  match s with
  | EmptyString => EmptyString
  | String c r => if is_space c then trimStart r else s
  end.

Fixpoint trimEnd (s : string) : string :=
  match s with
  | EmptyString => EmptyString
  | String c r =>
      match trimEnd r with
      | EmptyString => if is_space c then EmptyString
                       else String c EmptyString
      | r' => String c r'
      end
  end.

Definition trim (s : string) : string := trimEnd (trimStart s).

(** [s.substring(0, n)] *)
Definition substring0 (n : nat) (s : string) : string := String.substring 0 n s.

(** The line feed of a multi-line template literal. *)
Definition nl : string := String (ascii_of_nat 10) EmptyString.

(** [l.join(sep)] on an array of strings *)
Definition join (sep : string) (l : list string) : string := String.concat sep l.

(** Whether the code unit [c] occurs in [s]. *)
Fixpoint has_unit (c : ascii) (s : string) : bool :=
  match s with
  | EmptyString => false
  | String d r => Ascii.eqb d c || has_unit c r
  end.

(** [s.replace(/\/$/, '')]: a slash at the very end of [s] is removed. *)
Fixpoint stripTrailingSlash (s : string) : string :=
  match s with
  | EmptyString => EmptyString
  | String c r =>
      match r with
      | EmptyString => if Ascii.eqb c "/" then EmptyString else s
      | _ => String c (stripTrailingSlash r)
      end
  end.

End JsString.

Import JsString.

(** *** JavaScript values *)

(** What [JSON.parse] can produce.  A number is carried by the text
    JavaScript prints for it (its [ToString]): the programs only test
    numbers for truthiness and interpolate them into strings. *)
#[warnings="-register-all"]
Inductive JSON : Type :=
| JNull
| JBool (b : bool)
| JNum (repr : string)
| JStr (s : string)
| JArr (items : list JSON)
| JObj (fields : gmap string JSON).

(** [undefined] is [None]. *)
Abbreviation Value := (option JSON).

Definition undefined : Value := None.

(** Truthiness, as [if (v)], [a && b] and [a || b] read a value. *)
Definition truthy (v : Value) : bool :=
  match v with
  | None => false
  | Some JNull => false
  | Some (JBool b) => b
  | Some (JNum r) => negb (String.eqb r "0")
  | Some (JStr s) => negb (String.eqb s "")
  | Some (JArr _) => true
  | Some (JObj _) => true
  end.

(** An object literal whose property values may be [undefined], as
    [JSON.stringify] and [res.json] serialise it: such properties are
    omitted. *)
Definition literal (props : list (string * Value)) : JSON :=
  JObj (list_to_map (omap (fun p => pair (fst p) <$> snd p) props)).

(** *** Errors and effects *)

(** A thrown value.  Every error in these programs is an [Error] object
    (created by [new Error], or raised by the runtime as a [TypeError] or
    [SyntaxError]), and the programs only read its [message]. *)
Inductive JsError := Error (message : string).

Definition message (e : JsError) : string :=
  match e with Error m => m end.

(** One HTTP exchange.  The authentication headers are fixed per client
    and left out; [body] is the value handed to [JSON.stringify]. *)
Record Request := mkRequest {
  url : string;
  method : option string;
  body : Value
}.

(** The [options] argument of [request], [apiRequest]. *)
Record Options := mkOptions {
  opt_method : option string;
  opt_body : Value
}.

Definition no_options : Options := mkOptions None None.

(** A received response: [json] is what [response.json()] resolves to, or the
    error it rejects with; [content_type] is
    [response.headers.get('content-type')]. *)
Record Response := mkResponse {
  status : Z;
  statusText : string;
  content_type : option string;
  text : string;
  json : JsError + JSON
}.

(** [response.ok] *)
Definition ok (r : Response) : bool := (200 <=? status r) && (status r <=? 299).

(** [await fetch(...)] either rejects (network failure) or resolves. *)
Inductive FetchResult :=
| Rejected (e : JsError)
| Resolved (r : Response).

(** Console lines of the webhook listener, by the statement that prints
    them. *)
Inductive ConsoleLine :=
| LogReceived (event_type : Value)
| LogEventData (data : Value)
| LogIssueCreated (name : Value)
| LogAnalysisGenerated
| LogIssueUpdated (name : Value)
| LogCommentCreated
| LogProjectCreated (name : Value)
| LogUnhandled (event_type : Value)
| LogProcessingError (e : JsError).

(** Observable events, in the order they happen. *)
Inductive Event :=
| EvFetch (req : Request)
| EvSleep (ms : Z)
| EvConsole (line : ConsoleLine).

(** Outcome of a computation: a returned value or a thrown error. *)
Inductive Res (A : Type) :=
| Ret (a : A)
| Throw (e : JsError).

Arguments Ret {A} a.
Arguments Throw {A} e.

(** [ToString(v)] for a JSON value, as a template literal applies it.  An
    array joins the texts of its elements with commas, printing [null] as
    the empty string, and fails where an element fails.  An object is
    printed by the [toString] it inherits, unless it has a [toString]
    property of its own: a parsed value is never callable, the inherited
    [valueOf] returns the object itself, and the conversion raises a
    [TypeError] (V8's wording). *)
Fixpoint json_toString (v : JSON) : Res string :=
  match v with
  | JNull => Ret "null"
  | JBool true => Ret "true"
  | JBool false => Ret "false"
  | JNum r => Ret r
  | JStr s => Ret s
  | JArr items =>
      (fix elements (l : list JSON) : Res string :=
         match l with
         | [] => Ret ""
         | x :: rest =>
             match (match x with JNull => Ret "" | _ => json_toString x end) with
             | Throw e => Throw e
             | Ret here =>
                 match rest with
                 | [] => Ret here
                 | _ => match elements rest with
                        | Throw e => Throw e
                        | Ret more => Ret (here +:+ "," +:+ more)
                        end
                 end
             end
         end) items
  | JObj fields =>
      match fields !! "toString" with
      | Some _ => Throw (Error "Cannot convert object to primitive value")
      | None => Ret "[object Object]"
      end
  end.

(** Template-literal interpolation [`${v}`] of a value that may be
    [undefined]. *)
Definition toString (v : Value) : Res string :=
  match v with
  | None => Ret "undefined"
  | Some j => json_toString j
  end.

(** Whether [v] can be interpolated without a [TypeError]. *)
Definition printable (v : Value) : bool :=
  match toString v with
  | Ret _ => true
  | Throw _ => false
  end.

Record Sys (W : Type) := mkSys {
  world : W;
  trace : list Event
}.

Arguments mkSys {W} world trace.
Arguments world {W} s.
Arguments trace {W} s.

Definition M (W A : Type) : Type := Sys W -> Res A * Sys W.

Definition ret {W A} (a : A) : M W A := fun s => (Ret a, s).

Definition throw {W A} (e : JsError) : M W A := fun s => (Throw e, s).

Definition bind {W A B} (m : M W A) (k : A -> M W B) : M W B :=
  fun s => match m s with
           | (Ret a, s') => k a s'
           | (Throw e, s') => (Throw e, s')
           end.

(** [try { m } catch (error) { handler error }] *)
Definition try_catch {W A} (m : M W A) (handler : JsError -> M W A) : M W A :=
  fun s => match m s with
           | (Ret a, s') => (Ret a, s')
           | (Throw e, s') => handler e s'
           end.

Definition emit {W} (ev : Event) : M W unit :=
  fun s => (Ret tt, mkSys (world s) (trace s ++ [ev])).

(** A pure step that may throw. *)
Definition lift {W A} (r : Res A) : M W A := fun s => (r, s).

Notation "'let*' x ':=' m 'in' k" := (bind m (fun x => k))
  (at level 10, x pattern, m at level 100, k at level 200).

(** [await new Promise(resolve => setTimeout(resolve, ms))] *)
Definition sleep {W} (ms : Z) : M W unit := emit (EvSleep ms).

(** [v[key]] for a property that no built-in prototype defines, on a value
    other than [undefined] and [null]: a primitive or an array has no such
    property. *)
Definition member (v : Value) (key : string) : Value :=
  match v with
  | Some (JObj o) => o !! key
  | _ => None
  end.

(** [v[key]] in general: reading from [undefined] or [null] raises a
    [TypeError] (V8's wording). *)
Definition prop (v : Value) (key : string) : Res Value :=
  match v with
  | None => Throw (Error ("Cannot read properties of undefined (reading '" +:+ key +:+ "')"))
  | Some JNull => Throw (Error ("Cannot read properties of null (reading '" +:+ key +:+ "')"))
  | Some _ => Ret (member v key)
  end.

(** [v == null]: the value is [undefined] or [null]. *)
Definition nullish (v : Value) : bool :=
  match v with
  | None | Some JNull => true
  | Some _ => false
  end.

(** [typeof v === 'string'] *)
Definition is_string (v : Value) : bool :=
  match v with
  | Some (JStr _) => true
  | _ => false
  end.

Section Network.

(** The remote side: each request is answered from, and may change, the
    state of the world. *)
Context {W : Type} (fetch : Request -> W -> FetchResult * W).

Definition await_fetch (req : Request) : M W Response :=
  fun s =>
    let '(answer, w') := fetch req (world s) in
    let s' := mkSys w' (trace s ++ [EvFetch req]) in
    match answer with
    | Rejected e => (Throw e, s')
    | Resolved r => (Ret r, s')
    end.

(** The state after one exchange, and the answer received in it. *)
Definition after (s : Sys W) (req : Request) : Sys W :=
  mkSys (snd (fetch req (world s))) (trace s ++ [EvFetch req]).

Definition answer (s : Sys W) (req : Request) : FetchResult :=
  fst (fetch req (world s)).

(** [await response.json()] *)
Definition await_json (r : Response) : M W JSON :=
  match json r with
  | inl e => throw e
  | inr v => ret v
  end.

End Network.

(** The request both Plane clients send for one candidate prefix:
    [fetch(`${this.apiUrl}${apiPath}${endpoint}`, { headers, ...options })]. *)
Definition probe_of (apiUrl apiPath endpoint : string) (options : Options) : Request :=
  mkRequest (apiUrl +:+ apiPath +:+ endpoint) (opt_method options) (opt_body options).

(** The events of a trace in outline: which URL was called, how long the
    program waited. *)
Inductive Mark :=
| Called (url : string)
| Waited (ms : Z)
| Printed.

Definition mark (ev : Event) : Mark :=
  match ev with
  | EvFetch req => Called (url req)
  | EvSleep ms => Waited ms
  | EvConsole _ => Printed
  end.

(** How many times a trace waits. *)
Definition waits (t : list Event) : nat :=
  length (List.filter (fun ev => match ev with EvSleep _ => true | _ => false end) t).

(** [contentType && contentType.includes('application/json')] *)
Definition is_json_type (r : Response) : bool :=
  match content_type r with
  | None => false
  | Some ct => negb (String.eqb ct "") && includes ct "application/json"
  end.

(** *** plane-agent.js *)

Module PlaneAgent.

(** The object [analyzePrompt] returns. *)
Record Analysis := mkAnalysis {
  title : string;
  description : string;
  category : string;
  priority : string;
  state : string;
  labels : list string;
  complexity : string
}.

Definition techKeywords : list string :=
  ["api"; "database"; "frontend"; "backend"; "ui"; "ux"; "security"; "performance"].

(** Lines 151-160: category and the priority that follows from it. *)
Definition categorize (lowerPrompt : string) : string * string :=
  if includes lowerPrompt "bug" || includes lowerPrompt "error" || includes lowerPrompt "issue"
  then ("BUG", "high")
  else if includes lowerPrompt "feature" || includes lowerPrompt "add" || includes lowerPrompt "implement"
  then ("FEATURE", "medium")
  else if includes lowerPrompt "improve" || includes lowerPrompt "optimize"
  then ("IMPROVEMENT", "low")
  else ("TASK", "medium").

(** Lines 162-167: the urgency adjustment, an [if] / [else if]. *)
Definition urgency_term (lowerPrompt : string) : bool :=
  includes lowerPrompt "urgent" || includes lowerPrompt "asap" || includes lowerPrompt "critical".

Definition low_priority_phrase (lowerPrompt : string) : bool :=
  includes lowerPrompt "low priority" || includes lowerPrompt "when possible".

Definition adjust_priority (lowerPrompt priority : string) : string :=
  if urgency_term lowerPrompt then "urgent"
  else if low_priority_phrase lowerPrompt then "low"
  else priority.

(** Lines 169-173 *)
Definition make_title (prompt : string) : string :=
  let title := trim (split_first "." prompt) in
  if (80 <? String.length title)%nat then substring0 77 title +:+ "..." else title.

(** Lines 184-190 *)
Definition estimate (prompt lowerPrompt : string) (labels : list string) : string :=
  let wordCount := split_length " " prompt in
  let complexity :=
    if ((50 <? wordCount) || (2 <? length labels))%nat then "MEDIUM" else "LOW" in
  if (100 <? wordCount)%nat || includes lowerPrompt "integration" || includes lowerPrompt "architecture"
  then "HIGH" else complexity.

Definition analyzePrompt (prompt : string) : Analysis :=
  let lowerPrompt := toLowerCase prompt in
  let '(category, priority) := categorize lowerPrompt in
  let priority := adjust_priority lowerPrompt priority in
  let title := make_title prompt in
  let labels := List.filter (fun keyword => includes lowerPrompt keyword) techKeywords in
  let complexity := estimate prompt lowerPrompt labels in
  mkAnalysis title prompt category priority "Todo" labels complexity.

(** One entry of the array [createTicketsFromList] returns:
    [{ success: true, ticket, prompt }] or
    [{ success: false, error, prompt }]. *)
Inductive Entry :=
| Created (ticket : Value) (prompt : string)
| Failed (error : string) (prompt : string).

Definition success (e : Entry) : bool :=
  match e with Created _ _ => true | Failed _ _ => false end.

Definition prompt (e : Entry) : string :=
  match e with Created _ p => p | Failed _ p => p end.

(** What one pass through the body of the probing loop decides. *)
Inductive Probe :=
| Next
| Return (v : JSON).

Definition apiPaths : list string := ["/api/v1"; "/api"; "/api/public"; ""].

(** Lines 34-50: what [request] does with a received response; [continue]
    is [Next]. *)
Definition judge (response : Response) : Res Probe :=
  if status response =? 404 then Ret Next
  else if negb (ok response)
  then Throw (Error ("API error " +:+ pretty (status response) +:+ ": " +:+ text response))
  else if is_json_type response
  then match json response with
       | inl e => Throw e
       | inr v => Ret (Return v)
       end
  else Throw (Error "Expected JSON response but got HTML/text").

(** The outcome of one pass through a [try] block, given how [fetch]
    settled; [judge] is the client's own. *)
Definition verdict (judge : Response -> Res Probe) (settled : FetchResult) : Res Probe :=
  match settled with
  | Rejected e => Throw e
  | Resolved r => judge r
  end.

(** The entry the batch loop records for one submission. *)
Definition entry_of (outcome : Res Value) (ticketPrompt : string) : Entry :=
  match outcome with
  | Ret ticket => Created ticket ticketPrompt
  | Throw e => Failed (message e) ticketPrompt
  end.

Section Client.

Context {W : Type} (fetch : Request -> W -> FetchResult * W).

(** [this.apiUrl], the base URL the constructor stored (its trailing slash
    removed). *)
Context (apiUrl : string).

(** Lines 27-50: the [try] block of [request] for one URL: the request is
    sent and the answer judged. *)
Definition attempt (req : Request) : M W Probe :=
  let* response := await_fetch fetch req in
  lift (judge response).

(** Lines 22-57: the loop over the remaining candidates; [lastPath] is
    [apiPaths[apiPaths.length - 1]].  An error caught on any other candidate
    is dropped and the loop goes on.  Leaving the loop returns
    [undefined]. *)
Fixpoint request_loop (paths : list string) (lastPath endpoint : string)
    (options : Options) : M W Value :=
  match paths with
  | [] => ret undefined
  | apiPath :: rest =>
      let* step :=
        try_catch (attempt (probe_of apiUrl apiPath endpoint options))
          (fun error => if String.eqb apiPath lastPath then throw error else ret Next) in
      match step with
      | Return v => ret (Some v)
      | Next => request_loop rest lastPath endpoint options
      end
  end.

Definition request (endpoint : string) (options : Options) : M W Value :=
  request_loop apiPaths (List.last apiPaths "") endpoint options.

(** [request], from its [i]-th candidate on: the rest of the loop. *)
Definition request_from (i : nat) (endpoint : string) (options : Options) : M W Value :=
  request_loop (drop i apiPaths) (List.last apiPaths "") endpoint options.

Definition getWorkspaces : M W Value := request "/workspaces/" no_options.

Definition createIssue (workspaceSlug projectId : string) (issueData : JSON) : M W Value :=
  request ("/workspaces/" +:+ workspaceSlug +:+ "/projects/" +:+ projectId +:+ "/issues/")
          (mkOptions (Some "POST") (Some issueData)).

Definition addComment (workspaceSlug projectId : string) (issueId : Value)
    (comment : string) : M W Value :=
  let* id := lift (toString issueId) in
  request ("/workspaces/" +:+ workspaceSlug +:+ "/projects/" +:+ projectId +:+
           "/issues/" +:+ id +:+ "/comments/")
          (mkOptions (Some "POST")
             (Some (literal [("comment_html", Some (JStr ("<p>" +:+ comment +:+ "</p>")));
                             ("comment_json", Some (literal [("content", Some (JStr comment))]))]))).

(** Lines 108-114 *)
Definition issueData (analysis : Analysis) : JSON :=
  literal [("name", Some (JStr (title analysis)));
           ("description", Some (JStr (description analysis)));
           ("priority", Some (JStr (priority analysis)));
           ("state", Some (JStr (state analysis)));
           ("labels", Some (JArr (map JStr (labels analysis))))].

(** Lines 123-130 (the leading emoji is left out). *)
Definition aiComment (analysis : Analysis) : string :=
  " **AI Analysis:**" +:+ nl +:+ nl +:+
  "**Category:** " +:+ category analysis +:+ nl +:+
  "**Estimated Complexity:** " +:+ complexity analysis +:+ nl +:+
  "**Suggested Priority:** " +:+ priority analysis +:+ nl +:+
  "**Auto-generated Tags:** " +:+ join ", " (labels analysis) +:+ nl +:+ nl +:+
  "*This ticket was created automatically by Plane Agent.*".

(** Lines 102-140.  The comment is posted inside the same [try] as the
    creation, and the [catch] rethrows. *)
Definition createAITicket (workspaceSlug projectId prompt : string) : M W Value :=
  let analysis := analyzePrompt prompt in
  try_catch
    (let* issue := createIssue workspaceSlug projectId (issueData analysis) in
     let* _ :=
       if truthy issue && truthy (member issue "id")
       then (let* _ := addComment workspaceSlug projectId (member issue "id")
                         (aiComment analysis) in ret tt)
       else ret tt in
     ret issue)
    (fun error => throw error).

(** Lines 209-224: the loop of [createTicketsFromList], [results] being the
    array built so far.  The timer promise never rejects, so the [push] of
    the success entry is the last step of the [try] block that can be
    followed by the [catch]. *)
Fixpoint tickets_loop (workspaceSlug projectId : string) (ticketList : list string)
    (results : list Entry) : M W (list Entry) :=
  match ticketList with
  | [] => ret results
  | ticketPrompt :: rest =>
      let* results :=
        try_catch
          (let* ticket := createAITicket workspaceSlug projectId ticketPrompt in
           let results := results ++ [Created ticket ticketPrompt] in
           let* _ := sleep 1000 in
           ret results)
          (fun error => ret (results ++ [Failed (message error) ticketPrompt])) in
      tickets_loop workspaceSlug projectId rest results
  end.

Definition createTicketsFromList (workspaceSlug projectId : string)
    (ticketList : list string) : M W (list Entry) :=
  tickets_loop workspaceSlug projectId ticketList [].

(** Lines 67-70 *)
Definition getProjects (workspaceSlug : string) : M W Value :=
  request ("/workspaces/" +:+ workspaceSlug +:+ "/projects/") no_options.

(** Lines 73-76 *)
Definition getIssues (workspaceSlug projectId : string) : M W Value :=
  request ("/workspaces/" +:+ workspaceSlug +:+ "/projects/" +:+ projectId +:+ "/issues/")
          no_options.

(** Lines 230-244: [workspaces?.length || 0] cannot throw. *)
Definition testConnection : M W bool :=
  try_catch (let* workspaces := getWorkspaces in ret true)
            (fun error => ret false).

End Client.

(** Line 9: the base URL the constructor stores in [this.apiUrl]. *)
Definition constructor_apiUrl (apiUrl : string) : string := stripTrailingSlash apiUrl.

End PlaneAgent.

(** *** plane-ticket-creator.js *)

Module PlaneTicketCreator.

(** The object [analyzeTicket] returns. *)
Record Analysis := mkAnalysis {
  title : string;
  description : string;
  category : string;
  priority : string;
  complexity : string;
  labels : list string;
  workspace : string
}.

Definition techTags : list string :=
  ["api"; "database"; "frontend"; "backend"; "ui"; "security"; "performance"].

(** Lines 63-72 *)
Definition categorize (lowerDesc : string) : string * string :=
  if includes lowerDesc "bug" || includes lowerDesc "error" || includes lowerDesc "fix"
  then ("Bug", "High")
  else if includes lowerDesc "feature" || includes lowerDesc "add" || includes lowerDesc "implement"
  then ("Feature", "Medium")
  else if includes lowerDesc "improve" || includes lowerDesc "optimize"
  then ("Enhancement", "Low")
  else ("Task", "Medium").

(** Lines 75-77 *)
Definition adjust_priority (lowerDesc priority : string) : string :=
  if includes lowerDesc "urgent" || includes lowerDesc "critical"
  then "Urgent" else priority.

(** [this.workspace], set by the constructor. *)
Definition this_workspace : string := "indigo".

Definition analyzeTicket (description : string) : Analysis :=
  let lowerDesc := toLowerCase description in
  let '(category, priority) := categorize lowerDesc in
  let priority := adjust_priority lowerDesc priority in
  let labels := List.filter (fun tag => includes lowerDesc tag) techTags in
  let wordCount := split_length " " description in
  let complexity :=
    if (50 <? wordCount)%nat then "High"
    else if (20 <? wordCount)%nat then "Medium" else "Low" in
  mkAnalysis (substring0 80 (trim (split_first "." description)))
             description category priority complexity labels this_workspace.

Definition apiPaths : list string := ["/api/v1"; "/api"; "/api/public"].

(** Lines 33-43: what [apiRequest] does with a received response.  A 2xx
    answer that is not JSON leaves the [try] block without returning, and
    the loop goes on. *)
Definition judge (response : Response) : Res PlaneAgent.Probe :=
  if status response =? 404 then Ret PlaneAgent.Next
  else if negb (ok response)
  then Throw (Error ("API error " +:+ pretty (status response) +:+ ": " +:+ text response))
  else if is_json_type response
  then match json response with
       | inl e => Throw e
       | inr v => Ret (PlaneAgent.Return v)
       end
  else Ret PlaneAgent.Next.

Section Client.

Context {W : Type} (fetch : Request -> W -> FetchResult * W).

(** [this.apiUrl] *)
Context (apiUrl : string).

(** Lines 28-43: the [try] block of [apiRequest]. *)
Definition attempt (req : Request) : M W PlaneAgent.Probe :=
  let* response := await_fetch fetch req in
  lift (judge response).

(** Lines 24-51: an error on the last candidate returns [null]. *)
Fixpoint apiRequest_loop (paths : list string) (lastPath endpoint : string)
    (options : Options) : M W Value :=
  match paths with
  | [] => ret undefined
  | apiPath :: rest =>
      let* step :=
        try_catch (attempt (probe_of apiUrl apiPath endpoint options))
          (fun error => if String.eqb apiPath lastPath
                        then ret (PlaneAgent.Return JNull) else ret PlaneAgent.Next) in
      match step with
      | PlaneAgent.Return v => ret (Some v)
      | PlaneAgent.Next => apiRequest_loop rest lastPath endpoint options
      end
  end.

Definition apiRequest (endpoint : string) (options : Options) : M W Value :=
  apiRequest_loop apiPaths (List.last apiPaths "") endpoint options.

(** [apiRequest], from its [i]-th candidate on. *)
Definition apiRequest_from (i : nat) (endpoint : string) (options : Options) : M W Value :=
  apiRequest_loop (drop i apiPaths) (List.last apiPaths "") endpoint options.

End Client.

(** A ticket as [createLocalTicket] builds it.  The spread [...analysis] is
    the [analysis] field: none of its keys is [id], [created], [status] or
    [aiGenerated]. *)
Record LocalTicket := mkLocalTicket {
  id : string;
  created : string;
  analysis : Analysis;
  status : string;
  aiGenerated : bool
}.

(** Lines 139-142 and 148-151: [acc[key] = (acc[key] || 0) + 1] on an
    object whose keys are categories or priorities; the entries keep the
    order in which the keys first came. *)
Fixpoint bump (key : string) (acc : list (string * nat)) : list (string * nat) :=
  match acc with
  | [] => [(key, 1%nat)]
  | (k, n) :: rest =>
      if String.eqb k key then (k, S n) :: rest else (k, n) :: bump key rest
  end.

Definition tally (keys : list string) : list (string * nat) :=
  fold_left (fun acc key => bump key acc) keys [].

(** The [categories] and [priorities] objects of [createBulkTickets]. *)
Definition categories (tickets : list LocalTicket) : list (string * nat) :=
  tally (map (fun t => category (analysis t)) tickets).

Definition priorities (tickets : list LocalTicket) : list (string * nat) :=
  tally (map (fun t => priority (analysis t)) tickets).

(** [acc[key] || 0]: the count recorded for [key], zero when the object
    has no such property. *)
Definition recorded (key : string) (acc : list (string * nat)) : nat :=
  match List.find (fun entry => String.eqb (fst entry) key) acc with
  | Some (_, n) => n
  | None => 0%nat
  end.

(** The sum of the recorded counts. *)
Definition total (acc : list (string * nat)) : nat :=
  fold_right (fun entry sum => (snd entry + sum)%nat) 0%nat acc.

(** How often [key] occurs in [keys]. *)
Definition occurrences (key : string) (keys : list string) : nat :=
  length (List.filter (String.eqb key) keys).

Section Local.

(** The clock: [Date.now()], and the rendering of an instant by
    [toISOString]. *)
Context {W : Type} (Date_now : W -> Z * W) (toISOString : Z -> string).

Definition now : M W Z :=
  fun s => let '(t, w') := Date_now (world s) in (Ret t, mkSys w' (trace s)).

(** Lines 99-122 *)
Definition createLocalTicket (prompt : string) : M W LocalTicket :=
  let analysis := analyzeTicket prompt in
  let* millis := now in
  let* instant := now in
  ret (mkLocalTicket ("local-" +:+ pretty millis) (toISOString instant) analysis
                     "Draft" true).

(** Lines 128-133: [ticketList.map(...)]. *)
Fixpoint createLocalTickets (ticketList : list string) : M W (list LocalTicket) :=
  match ticketList with
  | [] => ret []
  | prompt :: rest =>
      let* ticket := createLocalTicket prompt in
      let* tickets := createLocalTickets rest in
      ret (ticket :: tickets)
  end.

(** Lines 125-159 *)
Definition createBulkTickets (ticketList : list string) : M W (list LocalTicket) :=
  createLocalTickets ticketList.

End Local.

End PlaneTicketCreator.


(** *** webhook-listener.js *)

Module WebhookListener.

(** What the route sends back: [res.status(code).json(payload)]. *)
Record HttpResponse := mkHttpResponse {
  code : Z;
  payload : JSON
}.

(** [description.toLowerCase()], [description.split(' ')]: a method of
    strings, missing on every other value the caller can pass. *)
Definition string_method (v : Value) (name : string) : Res string :=
  match v with
  | Some (JStr s) => Ret s
  | None => Throw (Error ("Cannot read properties of undefined (reading '" +:+ name +:+ "')"))
  | Some JNull => Throw (Error ("Cannot read properties of null (reading '" +:+ name +:+ "')"))
  | Some _ => Throw (Error ("description." +:+ name +:+ " is not a function"))
  end.

(** [v || ''] *)
Definition or_empty (v : Value) : Value :=
  if truthy v then v else Some (JStr "").

Definition categories : list (string * list string) :=
  [("bug", ["bug"; "error"; "issue"; "problem"; "broken"]);
   ("feature", ["feature"; "add"; "implement"; "new"]);
   ("improvement", ["improve"; "optimize"; "enhance"; "better"]);
   ("task", ["task"; "todo"; "setup"; "configure"])].

(** Lines 113-119 *)
Fixpoint first_category (lowerDesc : string) (entries : list (string * list string)) : string :=
  match entries with
  | [] => "GENERAL"
  | (category, keywords) :: rest =>
      if existsb (fun keyword => includes lowerDesc keyword) keywords
      then toUpperCase category
      else first_category lowerDesc rest
  end.

Definition categorizeIssue (description : Value) : Res string :=
  match string_method description "toLowerCase" with
  | Throw e => Throw e
  | Ret d => Ret (first_category (toLowerCase d) categories)
  end.

(** Lines 122-132: the template literal converts [title], then
    [description], and throws where either has no text. *)
Definition suggestPriority (title description : Value) : Res string :=
  match toString title with
  | Throw e => Throw e
  | Ret t =>
      match toString description with
      | Throw e => Throw e
      | Ret d =>
          let text := toLowerCase (t +:+ " " +:+ d) in
          Ret (if includes text "urgent" || includes text "critical" || includes text "crash"
               then "HIGH"
               else if includes text "important" || includes text "should"
               then "MEDIUM"
               else "LOW")
      end
  end.

Definition complexityKeywords : list string :=
  ["integration"; "database"; "api"; "security"; "performance"].

Definition estimateComplexity (description : Value) : Res string :=
  match string_method description "split" with
  | Throw e => Throw e
  | Ret d =>
      let wordCount := split_length " " d in
      let hasComplexKeywords :=
        existsb (fun keyword => includes (toLowerCase d) keyword) complexityKeywords in
      Ret (if hasComplexKeywords || (100 <? wordCount)%nat then "HIGH"
           else if (30 <? wordCount)%nat then "MEDIUM"
           else "LOW")
  end.

Section Handlers.

Context {W : Type}.

Definition console (line : ConsoleLine) : M W unit := emit (EvConsole line).

(** Lines 86-100: the analysis text (its leading emoji left out) is built,
    which can throw, and dropped;
    [issue] is not [undefined] or [null] here, the caller having read
    [data.name] first. *)
Definition addAIAnalysisComment (issue : Value) : M W unit :=
  let* issueType := lift (categorizeIssue (or_empty (member issue "description"))) in
  let* priority :=
    lift (suggestPriority (member issue "name") (or_empty (member issue "description"))) in
  let* complexity := lift (estimateComplexity (or_empty (member issue "description"))) in
  let analysis :=
    " AI Analysis:" +:+ nl +:+ "  " +:+ nl +:+
    "**Issue Type**: " +:+ issueType +:+ nl +:+
    "**Priority Suggestion**: " +:+ priority +:+ nl +:+
    "**Estimated Complexity**: " +:+ complexity +:+ nl +:+ nl +:+
    "*This analysis was generated automatically. Please review and adjust as needed.*" in
  console LogAnalysisGenerated.

Definition handleIssueCreated (data : Value) : M W unit :=
  let* name := lift (prop data "name") in
  let* _ := console (LogIssueCreated name) in
  addAIAnalysisComment data.

Definition handleIssueUpdated (data : Value) : M W unit :=
  let* name := lift (prop data "name") in
  console (LogIssueUpdated name).

Definition handleCommentCreated (data : Value) : M W unit :=
  console LogCommentCreated.

Definition handleProjectCreated (data : Value) : M W unit :=
  let* name := lift (prop data "name") in
  console (LogProjectCreated name).

(** [event_type === tag] *)
Definition is_tag (event_type : Value) (tag : string) : bool :=
  match event_type with
  | Some (JStr s) => String.eqb s tag
  | _ => false
  end.

(** Lines 20-35: the [switch]; its default case interpolates [event_type]
    into the line it prints. *)
Definition dispatch (event_type data : Value) : M W unit :=
  if is_tag event_type "issue.created" then handleIssueCreated data
  else if is_tag event_type "issue.updated" then handleIssueUpdated data
  else if is_tag event_type "issue_comment.created" then handleCommentCreated data
  else if is_tag event_type "project.created" then handleProjectCreated data
  else (let* _ := lift (toString event_type) in console (LogUnhandled event_type)).


(** Lines 15-16, ahead of the [try]: the first line interpolates
    [event_type], which throws where it has no text; the second prints
    [JSON.stringify(data, null, 2)], which does not throw. *)
Definition announce (event_type data : Value) : M W unit :=
  let* _ := lift (toString event_type) in
  let* _ := console (LogReceived event_type) in
  console (LogEventData data).

(** Lines 12-42: the route [POST /plane-webhook]; [req_body] is the object
    [express.json()] parsed. *)
Definition plane_webhook (req_body : gmap string JSON) : M W HttpResponse :=
  let event_type := req_body !! "event_type" in
  let data := req_body !! "data" in
  let* _ := announce event_type data in
  try_catch
    (let* _ := dispatch event_type data in
     ret (mkHttpResponse 200
            (literal [("status", Some (JStr "success")); ("processed", event_type)])))
    (fun error =>
       let* _ := console (LogProcessingError error) in
       ret (mkHttpResponse 500
              (literal [("status", Some (JStr "error"));
                        ("message", Some (JStr (message error)))]))).

End Handlers.

End WebhookListener.

(** *** railway-agent.js *)

Module RailwayAgent.

Definition RAILWAY_API_URL : string := "https://backboard.railway.com/graphql/v2".

(** The GraphQL documents (white space normalised). *)
Definition SERVICE_QUERY : string :=
  "query GetService($serviceId: String!) { service(id: $serviceId) { id name deployments { edges { node { id status createdAt meta { commitSha commitMessage } } } } } }".

Definition REDEPLOY_MUTATION : string :=
  "mutation ServiceRedeploy($serviceId: String!) { serviceRedeploy(serviceId: $serviceId) { id status } }".

(** A ticket is a plain object built by the program; a property may hold
    [undefined]. *)
Abbreviation Ticket := (gmap string Value).

(** [ticket[key]] *)
Definition field (ticket : Ticket) (key : string) : Value :=
  default undefined (ticket !! key).

(** [array[0]] on an array whose elements may be [undefined]. *)
Definition first (array : list Value) : Value :=
  match array with
  | [] => undefined
  | x :: _ => x
  end.

(** [action === name] in the [switch]. *)
Definition is_action (action : Value) (name : string) : bool :=
  match action with
  | Some (JStr s) => String.eqb s name
  | _ => false
  end.

Section Agent.

Context {W : Type} (fetch : Request -> W -> FetchResult * W).

(** [JSON.stringify], used for the text of an error message only. *)
Context (JSON_stringify : JSON -> string).

(** Lines 16-37 *)
Definition query (graphqlQuery : string) (variables : list (string * Value)) : M W Value :=
  let* response :=
    await_fetch fetch
      (mkRequest RAILWAY_API_URL (Some "POST")
         (Some (literal [("query", Some (JStr graphqlQuery));
                         ("variables", Some (literal variables))]))) in
  if negb (ok response)
  then throw (Error ("Railway API error: " +:+ pretty (status response) +:+ " " +:+
                     statusText response))
  else
    let* result := await_json response in
    let* errors := lift (prop (Some result) "errors") in
    if truthy errors
    then throw (Error ("GraphQL errors: " +:+
                       match errors with Some e => JSON_stringify e | None => "undefined" end))
    else lift (prop (Some result) "data").

(** Lines 115-127 *)
Definition triggerDeployment (serviceId : Value) : M W Value :=
  let* data := query REDEPLOY_MUTATION [("serviceId", serviceId)] in
  lift (prop data "serviceRedeploy").

(** [edges.map(edge => edge.node)] *)
Fixpoint nodes (edges : list JSON) : Res (list Value) :=
  match edges with
  | [] => Ret []
  | edge :: rest =>
      match prop (Some edge) "node" with
      | Throw e => Throw e
      | Ret node =>
          match nodes rest with
          | Throw e => Throw e
          | Ret l => Ret (node :: l)
          end
      end
  end.

(** Lines 87-112 *)
Definition getServiceDeployments (serviceId : Value) : M W (list Value) :=
  let* data := query SERVICE_QUERY [("serviceId", serviceId)] in
  let* service := lift (prop data "service") in
  let* deployments := lift (prop service "deployments") in
  let* edges := lift (prop deployments "edges") in
  match edges with
  | Some (JArr items) => lift (nodes items)
  | None => throw (Error "Cannot read properties of undefined (reading 'map')")
  | Some JNull => throw (Error "Cannot read properties of null (reading 'map')")
  | Some _ => throw (Error "data.service.deployments.edges.map is not a function")
  end.

(** [{ ...ticket, status: 'completed', [key]: value }] *)
Definition completed (ticket : Ticket) (key : string) (value : Value) : Ticket :=
  <[key := value]> (<["status" := Some (JStr "completed")]> ticket).

(** [{ ...ticket, status: 'failed', error: error.message }] *)
Definition failed (ticket : Ticket) (error : JsError) : Ticket :=
  <["error" := Some (JStr (message error))]> (<["status" := Some (JStr "failed")]> ticket).

(** Lines 219-242; [ticket] is an object.  The line printed ahead of the
    [try] interpolates [ticket.action] and [ticket.service]: where either
    has no text, the error leaves the function. *)
Definition executeTicket (ticket : Ticket) : M W Ticket :=
  let action := field ticket "action" in
  let* _ := lift (toString action) in
  let* _ := lift (toString (field ticket "service")) in
  try_catch
    (if is_action action "deploy" || is_action action "redeploy"
     then
       let* deployment := triggerDeployment (field ticket "serviceId") in
       let* id := lift (prop deployment "id") in
       ret (completed ticket "deploymentId" id)
     else if is_action action "status"
     then
       let* deployments := getServiceDeployments (field ticket "serviceId") in
       ret (completed ticket "latestDeployment" (first deployments))
     else
       let* text := lift (toString action) in
       throw (Error ("Unknown action: " +:+ text)))
    (fun error => ret (failed ticket error)).

End Agent.

End RailwayAgent.

(** *** The webhook registration script (src/unnamed/part_000) *)

Module WebhookSetup.

(** [config.services]: the tracker's URL and API key, and the listener's
    URL. *)
Record Config := mkConfig {
  plane_url : string;
  plane_apiKey : string;
  webhook_url : string
}.

(** Lines 17-27 *)
Definition webhookConfig (config : Config) : JSON :=
  literal [("url", Some (JStr (webhook_url config +:+ "/plane-webhook")));
           ("is_active", Some (JBool true));
           ("project", Some (JArr []));
           ("issue", Some (JBool true));
           ("issue_comment", Some (JBool true));
           ("module", Some (JBool true));
           ("cycle", Some (JBool true));
           ("page", Some (JBool true))].

(** A property read whose value is only handed to the console as an
    argument of its own: what matters is whether the read throws. *)
Definition reads (v : Value) (key : string) : Res unit :=
  match prop v key with
  | Ret _ => Ret tt
  | Throw e => Throw e
  end.

(** The code units of a string, each as a string of its own. *)
Fixpoint units (s : string) : list JSON :=
  match s with
  | EmptyString => []
  | String c r => JStr (String c EmptyString) :: units r
  end.

(** What [for (const workspace of workspaces)] iterates over: the elements
    of an array, the characters of a string; nothing else is iterable. *)
Definition iterate (workspaces : JSON) : Res (list JSON) :=
  match workspaces with
  | JArr items => Ret items
  | JStr s => Ret (units s)
  | _ => Throw (Error "workspaces is not iterable")
  end.

(** Line 47: the request that lists the workspaces. *)
Definition listing (config : Config) : Request :=
  mkRequest (plane_url config +:+ "/api/v1/workspaces/") None None.

(** Lines 65-72: the request that registers the webhook for the workspace
    whose [slug] has the text [slug]. *)
Definition registration (config : Config) (slug : string) : Request :=
  mkRequest (plane_url config +:+ "/api/v1/workspaces/" +:+ slug +:+ "/webhooks/")
            (Some "POST") (Some (webhookConfig config)).

Section Setup.

Context {W : Type} (fetch : Request -> W -> FetchResult * W).

(** Lines 62-80: the body of the loop, for the workspaces still to do.
    Line 63 interpolates [workspace.name] into the line it prints and line
    65 interpolates [workspace.slug] into the URL: either throws where the
    value has no text. *)
Fixpoint webhooks_loop (config : Config) (workspaces : list JSON) : M W unit :=
  match workspaces with
  | [] => ret tt
  | workspace :: rest =>
      let* name := lift (prop (Some workspace) "name") in
      let* _ := lift (toString name) in
      let* slug_value := lift (prop (Some workspace) "slug") in
      let* slug := lift (toString slug_value) in
      let* webhookRes := await_fetch fetch (registration config slug) in
      let* _ :=
        if ok webhookRes
        then (let* webhook := await_json webhookRes in lift (reads (Some webhook) "id"))
        else ret tt in
      webhooks_loop config rest
  end.

(** Lines 29-85 *)
Definition setupPlaneWebhook (config : Config) : M W unit :=
  if String.eqb (plane_apiKey config) "" then ret tt
  else
    try_catch
      (let* workspaceRes := await_fetch fetch (listing config) in
       if negb (ok workspaceRes)
       then throw (Error ("Failed to get workspaces: " +:+ pretty (status workspaceRes)))
       else
         let* workspaces := await_json workspaceRes in
         let* _ := lift (reads (Some workspaces) "length") in
         let* items := lift (iterate workspaces) in
         webhooks_loop config items)
      (fun error => ret tt).

End Setup.

End WebhookSetup.

(** *** Scenarios *)

(** Concrete inputs and worlds on which the theorems of Part II are
    exercised. *)
Module Scenarios.

Definition scenario_text : string :=
  "Fix urgent authentication bug in login flow. Needs backend and security review.".

Definition fix_text : string := "Fix mobile layout".

Definition mixed_text : string := "URGENT but low priority, when possible".

Definition base : string := "https://plane.example".

(** A double quote. *)
Definition dq : string := String (ascii_of_nat 34) EmptyString.

Definition plain (status : Z) (statusText : string) : Response :=
  mkResponse status statusText (Some "text/html") statusText
    (inl (Error "Unexpected token in JSON at position 0")).

Definition issue (id : string) : JSON := literal [("id", Some (JStr id))].

Definition json_issue (id : string) : Response :=
  mkResponse 200 "OK" (Some "application/json; charset=utf-8")
    ("{" +:+ dq +:+ "id" +:+ dq +:+ ":" +:+ dq +:+ id +:+ dq +:+ "}")
    (inr (issue id)).

Definition start : Sys unit := mkSys tt [].

(** The first prefix is forbidden, every other URL serves an issue. *)
Definition forbidden_first (req : Request) (w : unit) : FetchResult * unit :=
  if String.eqb (url req) (base +:+ "/api/v1/workspaces/")
  then (Resolved (plain 403 "Forbidden"), w)
  else (Resolved (json_issue "x"), w).

(** Every prefix but the last is missing, the last is forbidden. *)
Definition forbidden_last (req : Request) (w : unit) : FetchResult * unit :=
  if String.eqb (url req) (base +:+ "/workspaces/")
  then (Resolved (plain 403 "Forbidden"), w)
  else (Resolved (plain 404 "Not Found"), w).

(** The first two prefixes are missing, the third serves an issue (and so
    would the fourth). *)
Definition third_serves (req : Request) (w : unit) : FetchResult * unit :=
  if String.eqb (url req) (base +:+ "/api/v1/workspaces/")
     || String.eqb (url req) (base +:+ "/api/workspaces/")
  then (Resolved (plain 404 "Not Found"), w)
  else (Resolved (json_issue "x"), w).

(** Nothing is mounted anywhere. *)
Definition not_found (req : Request) (w : unit) : FetchResult * unit :=
  (Resolved (plain 404 "Not Found"), w).

(** Issues can be created, comments are rejected. *)
Definition comments_rejected (req : Request) (w : unit) : FetchResult * unit :=
  if includes (url req) "/comments/"
  then (Resolved (plain 500 "Internal Server Error"), w)
  else (Resolved (json_issue "42"), w).

(** The tracker rejects the issue named [name] on every prefix and accepts
    everything else. *)
Definition rejects (name : string) (req : Request) (w : unit) : FetchResult * unit :=
  match member (body req) "name" with
  | Some (JStr n) =>
      if String.eqb n name then (Resolved (plain 500 "Internal Server Error"), w)
      else (Resolved (json_issue "7"), w)
  | _ => (Resolved (json_issue "7"), w)
  end.





(** An [issue.created] event whose description is a number. *)
Definition issue_with_numeric_description : gmap string JSON :=
  <["event_type" := JStr "issue.created"]>
    (<["data" := JObj (<["name" := JStr "Crash"]> (<["description" := JNum "42"]> ∅))]> ∅).

(** An [issue.updated] event with a well-formed issue. *)
Definition issue_updated : gmap string JSON :=
  <["event_type" := JStr "issue.updated"]>
    (<["data" := JObj (<["name" := JStr "Crash on login"]> ∅)]> ∅).


(** The deployment platform cannot be reached. *)
Definition unreachable (req : Request) (w : unit) : FetchResult * unit :=
  (Rejected (Error "fetch failed"), w).

(** [JSON.stringify] on the values the scenarios hand to it: scalars whose
    text needs no escape, arrays of them, the empty object. *)
Fixpoint stringify (v : JSON) : string :=
  match v with
  | JNull => "null"
  | JBool true => "true"
  | JBool false => "false"
  | JNum r => r
  | JStr s => String (ascii_of_nat 34) s +:+ String (ascii_of_nat 34) EmptyString
  | JArr items => "[" +:+ join "," (map stringify items) +:+ "]"
  | JObj _ => "{}"
  end.


(** The platform accepts the redeploy and names the new deployment. *)
Definition redeployed (req : Request) (w : unit) : FetchResult * unit :=
  (Resolved (mkResponse 200 "OK" (Some "application/json") "(deployment)"
               (inr (literal [("data",
                      Some (literal [("serviceRedeploy",
                              Some (literal [("id", Some (JStr "dep-9"))]))]))]))), w).

(** Registration against a tracker with two workspaces: it refuses the
    webhook for the first one and creates the one for the second. *)
Definition setup_config : WebhookSetup.Config :=
  WebhookSetup.mkConfig base "key-1" "http://webhooks.local:3000".

Definition two_workspaces : list JSON :=
  [literal [("name", Some (JStr "Alpha")); ("slug", Some (JStr "alpha"))];
   literal [("name", Some (JStr "Beta")); ("slug", Some (JStr "beta"))]].

Definition refuses_alpha (req : Request) (w : unit) : FetchResult * unit :=
  if String.eqb (url req) (base +:+ "/api/v1/workspaces/")
  then (Resolved (mkResponse 200 "OK" (Some "application/json") "(workspaces)"
                    (inr (JArr two_workspaces))), w)
  else if String.eqb (url req) (base +:+ "/api/v1/workspaces/alpha/webhooks/")
  then (Resolved (plain 403 "Forbidden"), w)
  else (Resolved (json_issue "hook-1"), w).

(** The platform lists two deployments of a service. *)
Definition deployment_edges : list JSON :=
  [literal [("node", Some (literal [("id", Some (JStr "dep-2"))]))];
   literal [("node", Some (literal [("id", Some (JStr "dep-1"))]))]].

Definition lists_deployments (req : Request) (w : unit) : FetchResult * unit :=
  (Resolved (mkResponse 200 "OK" (Some "application/json") "(deployments)"
               (inr (literal [("data",
                      Some (literal [("service",
                              Some (literal [("deployments",
                                      Some (literal [("edges",
                                              Some (JArr deployment_edges))]))]))]))]))),
   w).

Definition deploy_ticket : gmap string Value :=
  <["action" := Some (JStr "deploy")]>
    (<["service" := Some (JStr "web")]>
       (<["serviceId" := Some (JStr "svc-1")]>
          (<["status" := Some (JStr "pending")]> ∅))).

Definition rollback_ticket : gmap string Value :=
  <["action" := Some (JStr "rollback")]>
    (<["service" := Some (JStr "web")]>
       (<["serviceId" := Some (JStr "svc-1")]>
          (<["status" := Some (JStr "pending")]> ∅))).


End Scenarios.

(** ** Part II. Properties *)

(** *** The classifier *)

Section Classifier.

Import Scenarios.

Lemma plane_agent_category (prompt : string) :
  PlaneAgent.category (PlaneAgent.analyzePrompt prompt) =
  fst (PlaneAgent.categorize (toLowerCase prompt)).
Proof.
  unfold PlaneAgent.analyzePrompt.
  destruct (PlaneAgent.categorize (toLowerCase prompt)); reflexivity.
Qed.

Lemma plane_agent_priority (prompt : string) :
  PlaneAgent.priority (PlaneAgent.analyzePrompt prompt) =
  PlaneAgent.adjust_priority (toLowerCase prompt)
    (snd (PlaneAgent.categorize (toLowerCase prompt))).
Proof.
  unfold PlaneAgent.analyzePrompt.
  destruct (PlaneAgent.categorize (toLowerCase prompt)); reflexivity.
Qed.

Lemma ticket_creator_category (description : string) :
  PlaneTicketCreator.category (PlaneTicketCreator.analyzeTicket description) =
  fst (PlaneTicketCreator.categorize (toLowerCase description)).
Proof.
  unfold PlaneTicketCreator.analyzeTicket.
  destruct (PlaneTicketCreator.categorize (toLowerCase description)); reflexivity.
Qed.

(** C7.  On the scenario text both classifiers answer category Bug,
    priority Urgent, labels backend and security (and no other), and the
    first sentence as title; [analyzeTicket] spells them "Bug" and "Urgent",
    [analyzePrompt] "BUG" and "urgent". *)
Theorem scenario_classification :
  PlaneTicketCreator.category (PlaneTicketCreator.analyzeTicket scenario_text) = "Bug" /\
  PlaneTicketCreator.priority (PlaneTicketCreator.analyzeTicket scenario_text) = "Urgent" /\
  PlaneTicketCreator.labels (PlaneTicketCreator.analyzeTicket scenario_text)
    = ["backend"; "security"] /\
  PlaneTicketCreator.title (PlaneTicketCreator.analyzeTicket scenario_text)
    = "Fix urgent authentication bug in login flow" /\
  PlaneAgent.category (PlaneAgent.analyzePrompt scenario_text) = "BUG" /\
  PlaneAgent.priority (PlaneAgent.analyzePrompt scenario_text) = "urgent" /\
  PlaneAgent.labels (PlaneAgent.analyzePrompt scenario_text) = ["backend"; "security"] /\
  PlaneAgent.title (PlaneAgent.analyzePrompt scenario_text)
    = "Fix urgent authentication bug in login flow".
Proof. repeat split; vm_compute; reflexivity. Qed.

(** C8, as stated, fails on [analyzePrompt]: "Fix mobile layout" contains
    "fix" and is classified TASK. *)
Lemma fix_is_not_a_bug_keyword_of_analyzePrompt :
  includes (toLowerCase fix_text) "fix" = true /\
  PlaneAgent.category (PlaneAgent.analyzePrompt fix_text) = "TASK" /\
  PlaneAgent.category (PlaneAgent.analyzePrompt fix_text) <> "BUG".
Proof. repeat split; vm_compute; congruence. Qed.

(** C8, amended.  A text whose lower-cased form contains "bug", "error" or
    "fix" is a Bug for [analyzeTicket]; for [analyzePrompt] the three
    keywords are "bug", "error" and "issue". *)
Theorem bug_keywords_give_bug (text : string) :
  (includes (toLowerCase text) "bug" = true \/
   includes (toLowerCase text) "error" = true \/
   includes (toLowerCase text) "fix" = true ->
   PlaneTicketCreator.category (PlaneTicketCreator.analyzeTicket text) = "Bug") /\
  (includes (toLowerCase text) "bug" = true \/
   includes (toLowerCase text) "error" = true \/
   includes (toLowerCase text) "issue" = true ->
   PlaneAgent.category (PlaneAgent.analyzePrompt text) = "BUG").
Proof.
  split; intros H.
  - rewrite ticket_creator_category. unfold PlaneTicketCreator.categorize.
    destruct H as [-> | [-> | ->]]; rewrite ?orb_true_r; reflexivity.
  - rewrite plane_agent_category. unfold PlaneAgent.categorize.
    destruct H as [-> | [-> | ->]]; rewrite ?orb_true_r; reflexivity.
Qed.

Lemma bug_keywords_give_bug_witness :
  PlaneTicketCreator.category (PlaneTicketCreator.analyzeTicket fix_text) = "Bug" /\
  PlaneAgent.category (PlaneAgent.analyzePrompt scenario_text) = "BUG".
Proof.
  split.
  - apply (proj1 (bug_keywords_give_bug fix_text)). right; right. reflexivity.
  - apply (proj2 (bug_keywords_give_bug scenario_text)). left. reflexivity.
Defined.

(** C2, as stated, fails: a text with both an urgency term and a
    low-priority phrase gets priority urgent, not low. *)
Lemma low_priority_phrase_does_not_win :
  ~ (forall prompt : string,
       PlaneAgent.urgency_term (toLowerCase prompt) = true ->
       PlaneAgent.low_priority_phrase (toLowerCase prompt) = true ->
       PlaneAgent.priority (PlaneAgent.analyzePrompt prompt) = "low").
Proof.
  intros H. specialize (H mixed_text eq_refl eq_refl). vm_compute in H. discriminate H.
Qed.

(** C2, amended.  The low-priority check is the [else] branch of the urgency
    check: an urgency term gives priority urgent whether or not a
    low-priority phrase is present, and a low-priority phrase gives low only
    when no urgency term is. *)
Theorem urgency_wins_over_low_priority (prompt : string) :
  (PlaneAgent.urgency_term (toLowerCase prompt) = true ->
   PlaneAgent.priority (PlaneAgent.analyzePrompt prompt) = "urgent") /\
  (PlaneAgent.urgency_term (toLowerCase prompt) = false ->
   PlaneAgent.low_priority_phrase (toLowerCase prompt) = true ->
   PlaneAgent.priority (PlaneAgent.analyzePrompt prompt) = "low").
Proof.
  rewrite plane_agent_priority. unfold PlaneAgent.adjust_priority.
  split.
  - intros ->. reflexivity.
  - intros -> ->. reflexivity.
Qed.

Lemma urgency_wins_over_low_priority_witness :
  PlaneAgent.priority (PlaneAgent.analyzePrompt Scenarios.mixed_text) = "urgent" /\
  PlaneAgent.priority (PlaneAgent.analyzePrompt "Tidy the docs when possible") = "low".
Proof.
  split.
  - apply (proj1 (urgency_wins_over_low_priority mixed_text)). reflexivity.
  - apply (proj2 (urgency_wins_over_low_priority "Tidy the docs when possible"));
      reflexivity.
Defined.

End Classifier.

(** *** The endpoint-discovery clients *)

Section Discovery.

Context {W : Type} (fetch : Request -> W -> FetchResult * W) (apiUrl : string).

Lemma agent_attempt_run (req : Request) (s : Sys W) :
  PlaneAgent.attempt fetch req s =
  (PlaneAgent.verdict PlaneAgent.judge (answer fetch s req), after fetch s req).
Proof.
  unfold PlaneAgent.attempt, bind, await_fetch, lift, answer, after.
  destruct (fetch req (world s)) as [[e | r] w']; reflexivity.
Qed.

Lemma creator_attempt_run (req : Request) (s : Sys W) :
  PlaneTicketCreator.attempt fetch req s =
  (PlaneAgent.verdict PlaneTicketCreator.judge (answer fetch s req), after fetch s req).
Proof.
  unfold PlaneTicketCreator.attempt, bind, await_fetch, lift, answer, after.
  destruct (fetch req (world s)) as [[e | r] w']; reflexivity.
Qed.

(** One turn of the loop of [request]. *)
Lemma agent_loop_step (apiPath : string) (rest : list string)
    (lastPath endpoint : string) (options : Options) (s : Sys W) :
  PlaneAgent.request_loop fetch apiUrl (apiPath :: rest) lastPath endpoint options s =
  match PlaneAgent.verdict PlaneAgent.judge
          (answer fetch s (probe_of apiUrl apiPath endpoint options)) with
  | Ret (PlaneAgent.Return v) =>
      (Ret (Some v), after fetch s (probe_of apiUrl apiPath endpoint options))
  | Ret PlaneAgent.Next =>
      PlaneAgent.request_loop fetch apiUrl rest lastPath endpoint options
        (after fetch s (probe_of apiUrl apiPath endpoint options))
  | Throw e =>
      if String.eqb apiPath lastPath
      then (Throw e, after fetch s (probe_of apiUrl apiPath endpoint options))
      else PlaneAgent.request_loop fetch apiUrl rest lastPath endpoint options
             (after fetch s (probe_of apiUrl apiPath endpoint options))
  end.
Proof.
  cbn [PlaneAgent.request_loop]. unfold bind at 1, try_catch.
  rewrite agent_attempt_run.
  destruct (PlaneAgent.verdict _ _) as [[| v] | e]; try reflexivity.
  destruct (String.eqb apiPath lastPath); reflexivity.
Qed.

(** One turn of the loop of [apiRequest]. *)
Lemma creator_loop_step (apiPath : string) (rest : list string)
    (lastPath endpoint : string) (options : Options) (s : Sys W) :
  PlaneTicketCreator.apiRequest_loop fetch apiUrl (apiPath :: rest) lastPath endpoint options s =
  match PlaneAgent.verdict PlaneTicketCreator.judge
          (answer fetch s (probe_of apiUrl apiPath endpoint options)) with
  | Ret (PlaneAgent.Return v) =>
      (Ret (Some v), after fetch s (probe_of apiUrl apiPath endpoint options))
  | Ret PlaneAgent.Next =>
      PlaneTicketCreator.apiRequest_loop fetch apiUrl rest lastPath endpoint options
        (after fetch s (probe_of apiUrl apiPath endpoint options))
  | Throw e =>
      if String.eqb apiPath lastPath
      then (Ret (Some JNull), after fetch s (probe_of apiUrl apiPath endpoint options))
      else PlaneTicketCreator.apiRequest_loop fetch apiUrl rest lastPath endpoint options
             (after fetch s (probe_of apiUrl apiPath endpoint options))
  end.
Proof.
  cbn [PlaneTicketCreator.apiRequest_loop]. unfold bind at 1, try_catch.
  rewrite creator_attempt_run.
  destruct (PlaneAgent.verdict _ _) as [[| v] | e]; try reflexivity.
  destruct (String.eqb apiPath lastPath); reflexivity.
Qed.

(** A response that is neither 404 nor 2xx makes the [try] block throw, with
    the status and the body in the message. *)
Lemma agent_judge_hard_error (r : Response) :
  status r <> 404 -> ok r = false ->
  PlaneAgent.judge r =
  Throw (Error ("API error " +:+ pretty (status r) +:+ ": " +:+ text r)).
Proof.
  intros H404 Hok. unfold PlaneAgent.judge.
  destruct (Z.eqb_spec (status r) 404) as [E | _]; [contradiction |].
  rewrite Hok. reflexivity.
Qed.

Lemma creator_judge_hard_error (r : Response) :
  status r <> 404 -> ok r = false ->
  PlaneTicketCreator.judge r =
  Throw (Error ("API error " +:+ pretty (status r) +:+ ": " +:+ text r)).
Proof.
  intros H404 Hok. unfold PlaneTicketCreator.judge.
  destruct (Z.eqb_spec (status r) 404) as [E | _]; [contradiction |].
  rewrite Hok. reflexivity.
Qed.

Lemma agent_judge_404 (r : Response) :
  status r = 404 -> PlaneAgent.judge r = Ret PlaneAgent.Next.
Proof. intros E. unfold PlaneAgent.judge. rewrite E. reflexivity. Qed.

Lemma creator_judge_404 (r : Response) :
  status r = 404 -> PlaneTicketCreator.judge r = Ret PlaneAgent.Next.
Proof. intros E. unfold PlaneTicketCreator.judge. rewrite E. reflexivity. Qed.

(** The loops only ever add to the trace. *)
Lemma agent_loop_extends (paths : list string) (lastPath endpoint : string)
    (options : Options) (s : Sys W) :
  exists more,
    trace (snd (PlaneAgent.request_loop fetch apiUrl paths lastPath endpoint options s))
    = trace s ++ more.
Proof.
  revert s. induction paths as [| apiPath rest IH]; intros s.
  - exists []. cbn. symmetry. apply app_nil_r.
  - rewrite agent_loop_step.
    set (req := probe_of apiUrl apiPath endpoint options).
    assert (Hgo : exists more,
               trace (snd (PlaneAgent.request_loop fetch apiUrl rest lastPath endpoint
                             options (after fetch s req))) = trace s ++ more).
    { destruct (IH (after fetch s req)) as [more Hmore].
      exists (EvFetch req :: more). rewrite Hmore. cbn. rewrite <- app_assoc. reflexivity. }
    destruct (PlaneAgent.verdict _ _) as [[| v] | e].
    + exact Hgo.
    + exists [EvFetch req]. reflexivity.
    + destruct (String.eqb apiPath lastPath); [| exact Hgo].
      exists [EvFetch req]. reflexivity.
Qed.

Lemma creator_loop_extends (paths : list string) (lastPath endpoint : string)
    (options : Options) (s : Sys W) :
  exists more,
    trace (snd (PlaneTicketCreator.apiRequest_loop fetch apiUrl paths lastPath endpoint
                  options s))
    = trace s ++ more.
Proof.
  revert s. induction paths as [| apiPath rest IH]; intros s.
  - exists []. cbn. symmetry. apply app_nil_r.
  - rewrite creator_loop_step.
    set (req := probe_of apiUrl apiPath endpoint options).
    assert (Hgo : exists more,
               trace (snd (PlaneTicketCreator.apiRequest_loop fetch apiUrl rest lastPath
                             endpoint options (after fetch s req))) = trace s ++ more).
    { destruct (IH (after fetch s req)) as [more Hmore].
      exists (EvFetch req :: more). rewrite Hmore. cbn. rewrite <- app_assoc. reflexivity. }
    destruct (PlaneAgent.verdict _ _) as [[| v] | e].
    + exact Hgo.
    + exists [EvFetch req]. reflexivity.
    + destruct (String.eqb apiPath lastPath); [| exact Hgo].
      exists [EvFetch req]. reflexivity.
Qed.

Lemma request_from_start (endpoint : string) (options : Options) :
  PlaneAgent.request fetch apiUrl endpoint options =
  PlaneAgent.request_from fetch apiUrl 0 endpoint options.
Proof. reflexivity. Qed.

Lemma apiRequest_from_start (endpoint : string) (options : Options) :
  PlaneTicketCreator.apiRequest fetch apiUrl endpoint options =
  PlaneTicketCreator.apiRequest_from fetch apiUrl 0 endpoint options.
Proof. reflexivity. Qed.

(** The loops start by calling their first candidate. *)
Lemma agent_loop_first_call (apiPath : string) (rest : list string)
    (lastPath endpoint : string) (options : Options) (s : Sys W) :
  exists more,
    trace (snd (PlaneAgent.request_loop fetch apiUrl (apiPath :: rest) lastPath endpoint
                  options s))
    = trace s ++ EvFetch (probe_of apiUrl apiPath endpoint options) :: more.
Proof.
  rewrite agent_loop_step.
  set (req := probe_of apiUrl apiPath endpoint options).
  destruct (agent_loop_extends rest lastPath endpoint options (after fetch s req))
    as [more Hmore].
  cbn [after trace] in Hmore. rewrite <- app_assoc in Hmore.
  destruct (PlaneAgent.verdict _ _) as [[| v] | e].
  - eauto.
  - exists []. reflexivity.
  - destruct (String.eqb apiPath lastPath); [exists []; reflexivity | eauto].
Qed.

Lemma creator_loop_first_call (apiPath : string) (rest : list string)
    (lastPath endpoint : string) (options : Options) (s : Sys W) :
  exists more,
    trace (snd (PlaneTicketCreator.apiRequest_loop fetch apiUrl (apiPath :: rest) lastPath
                  endpoint options s))
    = trace s ++ EvFetch (probe_of apiUrl apiPath endpoint options) :: more.
Proof.
  rewrite creator_loop_step.
  set (req := probe_of apiUrl apiPath endpoint options).
  destruct (creator_loop_extends rest lastPath endpoint options (after fetch s req))
    as [more Hmore].
  cbn [after trace] in Hmore. rewrite <- app_assoc in Hmore.
  destruct (PlaneAgent.verdict _ _) as [[| v] | e].
  - eauto.
  - exists []. reflexivity.
  - destruct (String.eqb apiPath lastPath); [exists []; reflexivity | eauto].
Qed.

(** Decides the comparison of two literal paths in the goal. *)
Ltac decide_last :=
  match goal with
  | |- context [String.eqb ?a ?b] =>
      let v := eval vm_compute in (String.eqb a b) in
      change (String.eqb a b) with v; cbv iota
  end.

(** C1, amended.  When a candidate answers with a status that is neither 2xx
    nor 404, the error thrown for it is caught inside the loop.  On a
    candidate that is not the last one the probe goes on and the next
    candidate is called; on the last candidate [request] fails with an error
    whose message carries the status and the body, and [apiRequest] returns
    [null]. *)
Theorem hard_error_ends_the_call_on_the_last_candidate_only
    (endpoint : string) (options : Options) (s : Sys W) (r : Response)
    (i : nat) (apiPath : string) :
  answer fetch s (probe_of apiUrl apiPath endpoint options) = Resolved r ->
  status r <> 404 ->
  ok r = false ->
  (PlaneAgent.apiPaths !! i = Some apiPath ->
   PlaneAgent.request_from fetch apiUrl i endpoint options s =
     match PlaneAgent.apiPaths !! S i with
     | None =>
         (Throw (Error ("API error " +:+ pretty (status r) +:+ ": " +:+ text r)),
          after fetch s (probe_of apiUrl apiPath endpoint options))
     | Some _ =>
         PlaneAgent.request_from fetch apiUrl (S i) endpoint options
           (after fetch s (probe_of apiUrl apiPath endpoint options))
     end /\
   forall next, PlaneAgent.apiPaths !! S i = Some next ->
     exists more,
       trace (snd (PlaneAgent.request_from fetch apiUrl i endpoint options s)) =
       trace s ++ EvFetch (probe_of apiUrl apiPath endpoint options)
               :: EvFetch (probe_of apiUrl next endpoint options) :: more) /\
  (PlaneTicketCreator.apiPaths !! i = Some apiPath ->
   PlaneTicketCreator.apiRequest_from fetch apiUrl i endpoint options s =
     match PlaneTicketCreator.apiPaths !! S i with
     | None =>
         (Ret (Some JNull), after fetch s (probe_of apiUrl apiPath endpoint options))
     | Some _ =>
         PlaneTicketCreator.apiRequest_from fetch apiUrl (S i) endpoint options
           (after fetch s (probe_of apiUrl apiPath endpoint options))
     end /\
   forall next, PlaneTicketCreator.apiPaths !! S i = Some next ->
     exists more,
       trace (snd (PlaneTicketCreator.apiRequest_from fetch apiUrl i endpoint options s)) =
       trace s ++ EvFetch (probe_of apiUrl apiPath endpoint options)
               :: EvFetch (probe_of apiUrl next endpoint options) :: more).
Proof.
  intros Hans H404 Hok.
  assert (Hagent : forall rest lastPath,
    PlaneAgent.request_loop fetch apiUrl (apiPath :: rest) lastPath endpoint options s =
    if String.eqb apiPath lastPath
    then (Throw (Error ("API error " +:+ pretty (status r) +:+ ": " +:+ text r)),
          after fetch s (probe_of apiUrl apiPath endpoint options))
    else PlaneAgent.request_loop fetch apiUrl rest lastPath endpoint options
           (after fetch s (probe_of apiUrl apiPath endpoint options))).
  { intros rest lastPath. rewrite agent_loop_step, Hans. cbn [PlaneAgent.verdict].
    rewrite agent_judge_hard_error by assumption. reflexivity. }
  assert (Hcreator : forall rest lastPath,
    PlaneTicketCreator.apiRequest_loop fetch apiUrl (apiPath :: rest) lastPath endpoint
      options s =
    if String.eqb apiPath lastPath
    then (Ret (Some JNull), after fetch s (probe_of apiUrl apiPath endpoint options))
    else PlaneTicketCreator.apiRequest_loop fetch apiUrl rest lastPath endpoint options
           (after fetch s (probe_of apiUrl apiPath endpoint options))).
  { intros rest lastPath. rewrite creator_loop_step, Hans. cbn [PlaneAgent.verdict].
    rewrite creator_judge_hard_error by assumption. reflexivity. }
  split; intros Hpath.
  - unfold PlaneAgent.request_from.
    change (List.last PlaneAgent.apiPaths "") with "".
    destruct i as [| [| [| [| i]]]]; cbn in Hpath; try discriminate Hpath;
      injection Hpath as <-; cbn [drop PlaneAgent.apiPaths]; rewrite Hagent; decide_last;
      (split; [reflexivity | intros next Hnext; cbn in Hnext; try discriminate Hnext]);
      injection Hnext as <-;
      match goal with
      | |- context [PlaneAgent.request_loop _ _ (?p :: ?rest) ?l ?e ?o ?st] =>
          destruct (agent_loop_first_call p rest l e o st) as [more ->]
      end;
      cbn [after trace]; rewrite <- app_assoc; eauto.
  - unfold PlaneTicketCreator.apiRequest_from.
    change (List.last PlaneTicketCreator.apiPaths "") with "/api/public".
    destruct i as [| [| [| i]]]; cbn in Hpath; try discriminate Hpath;
      injection Hpath as <-; cbn [drop PlaneTicketCreator.apiPaths]; rewrite Hcreator;
      decide_last;
      (split; [reflexivity | intros next Hnext; cbn in Hnext; try discriminate Hnext]);
      injection Hnext as <-;
      match goal with
      | |- context [PlaneTicketCreator.apiRequest_loop _ _ (?p :: ?rest) ?l ?e ?o ?st] =>
          destruct (creator_loop_first_call p rest l e o st) as [more ->]
      end;
      cbn [after trace]; rewrite <- app_assoc; eauto.
Qed.

(** [undefined] comes out of [request] only by leaving the loop, which
    takes a 404 on the last candidate. *)
Lemma agent_loop_undefined (paths : list string) (lastPath endpoint : string)
    (options : Options) (s s' : Sys W) :
  PlaneAgent.request_loop fetch apiUrl (paths ++ [lastPath]) lastPath endpoint options s
    = (Ret undefined, s') ->
  exists w r,
    fst (fetch (probe_of apiUrl lastPath endpoint options) w) = Resolved r /\
    status r = 404.
Proof.
  revert s. induction paths as [| apiPath rest IH]; intros s.
  - cbn [app]. rewrite agent_loop_step. unfold answer.
    destruct (fst (fetch _ (world s))) as [e | r] eqn:Hfetch; cbn [PlaneAgent.verdict].
    + rewrite String.eqb_refl. discriminate.
    + unfold PlaneAgent.judge.
      destruct (Z.eqb_spec (status r) 404) as [E | _]; [eauto |].
      destruct (negb (ok r)); [rewrite String.eqb_refl; discriminate |].
      destruct (is_json_type r); [| rewrite String.eqb_refl; discriminate].
      destruct (json r); [rewrite String.eqb_refl |]; discriminate.
  - cbn [app]. rewrite agent_loop_step.
    destruct (PlaneAgent.verdict _ _) as [[| v] | e].
    + apply IH.
    + discriminate.
    + destruct (String.eqb apiPath lastPath); [discriminate | apply IH].
Qed.

(** [apiRequest] leaves its loop on a 404 or on a 2xx answer that is not
    JSON. *)
Lemma creator_loop_undefined (paths : list string) (lastPath endpoint : string)
    (options : Options) (s s' : Sys W) :
  PlaneTicketCreator.apiRequest_loop fetch apiUrl (paths ++ [lastPath]) lastPath endpoint
    options s = (Ret undefined, s') ->
  exists w r,
    fst (fetch (probe_of apiUrl lastPath endpoint options) w) = Resolved r /\
    (status r = 404 \/ (ok r = true /\ is_json_type r = false)).
Proof.
  revert s. induction paths as [| apiPath rest IH]; intros s.
  - cbn [app]. rewrite creator_loop_step. unfold answer.
    destruct (fst (fetch _ (world s))) as [e | r] eqn:Hfetch; cbn [PlaneAgent.verdict].
    + rewrite String.eqb_refl. discriminate.
    + unfold PlaneTicketCreator.judge.
      destruct (Z.eqb_spec (status r) 404) as [E | _]; [eauto |].
      destruct (ok r) eqn:Hok; cbn [negb]; [| rewrite String.eqb_refl; discriminate].
      destruct (is_json_type r) eqn:Hct; [| eauto 6].
      destruct (json r); [rewrite String.eqb_refl |]; discriminate.
  - cbn [app]. rewrite creator_loop_step.
    destruct (PlaneAgent.verdict _ _) as [[| v] | e].
    + apply IH.
    + discriminate.
    + destruct (String.eqb apiPath lastPath); [discriminate | apply IH].
Qed.

(** When every candidate answers 404 the loops run to their end. *)
Lemma agent_loop_all_404 (paths : list string) (lastPath endpoint : string)
    (options : Options) (s : Sys W) :
  (forall apiPath w, apiPath ∈ paths ->
     exists r, fst (fetch (probe_of apiUrl apiPath endpoint options) w) = Resolved r /\
               status r = 404) ->
  exists s',
    PlaneAgent.request_loop fetch apiUrl paths lastPath endpoint options s
      = (Ret undefined, s') /\
    trace s' = trace s ++ map (fun p => EvFetch (probe_of apiUrl p endpoint options)) paths.
Proof.
  revert s. induction paths as [| apiPath rest IH]; intros s H.
  - exists s. split; [reflexivity | symmetry; apply app_nil_r].
  - rewrite agent_loop_step. unfold answer.
    destruct (H apiPath (world s)) as (r & -> & E); [left |].
    cbn [PlaneAgent.verdict]. rewrite (agent_judge_404 r E).
    destruct (IH (after fetch s (probe_of apiUrl apiPath endpoint options))) as (s' & -> & Ht).
    { intros p w Hp. apply H. right. exact Hp. }
    exists s'. split; [reflexivity |].
    rewrite Ht. cbn [after trace map]. rewrite <- app_assoc. reflexivity.
Qed.

Lemma creator_loop_all_404 (paths : list string) (lastPath endpoint : string)
    (options : Options) (s : Sys W) :
  (forall apiPath w, apiPath ∈ paths ->
     exists r, fst (fetch (probe_of apiUrl apiPath endpoint options) w) = Resolved r /\
               status r = 404) ->
  exists s',
    PlaneTicketCreator.apiRequest_loop fetch apiUrl paths lastPath endpoint options s
      = (Ret undefined, s') /\
    trace s' = trace s ++ map (fun p => EvFetch (probe_of apiUrl p endpoint options)) paths.
Proof.
  revert s. induction paths as [| apiPath rest IH]; intros s H.
  - exists s. split; [reflexivity | symmetry; apply app_nil_r].
  - rewrite creator_loop_step. unfold answer.
    destruct (H apiPath (world s)) as (r & -> & E); [left |].
    cbn [PlaneAgent.verdict]. rewrite (creator_judge_404 r E).
    destruct (IH (after fetch s (probe_of apiUrl apiPath endpoint options))) as (s' & -> & Ht).
    { intros p w Hp. apply H. right. exact Hp. }
    exists s'. split; [reflexivity |].
    rewrite Ht. cbn [after trace map]. rewrite <- app_assoc. reflexivity.
Qed.

(** C5.  When every candidate prefix answers 404, both clients call each
    candidate once, in order, and return [undefined]: the call does not
    throw (so the outcome differs from the error raised for a rejected
    request) and the value is none that a response body can parse to.
    Conversely [request] returns [undefined] only after a 404 on its last
    candidate, and [apiRequest] only after a 404 or a non-JSON 2xx answer on
    its last candidate. *)
Theorem exhausted_probe_returns_undefined
    (endpoint : string) (options : Options) (s : Sys W) :
  ((forall apiPath w, apiPath ∈ PlaneAgent.apiPaths ->
      exists r, fst (fetch (probe_of apiUrl apiPath endpoint options) w) = Resolved r /\
                status r = 404) ->
   (exists s',
      PlaneAgent.request fetch apiUrl endpoint options s = (Ret undefined, s') /\
      trace s' = trace s ++
        map (fun p => EvFetch (probe_of apiUrl p endpoint options)) PlaneAgent.apiPaths) /\
   (exists s',
      PlaneTicketCreator.apiRequest fetch apiUrl endpoint options s = (Ret undefined, s') /\
      trace s' = trace s ++
        map (fun p => EvFetch (probe_of apiUrl p endpoint options))
          PlaneTicketCreator.apiPaths)) /\
  (forall s',
     PlaneAgent.request fetch apiUrl endpoint options s = (Ret undefined, s') ->
     exists w r,
       fst (fetch (probe_of apiUrl "" endpoint options) w) = Resolved r /\
       status r = 404) /\
  (forall s',
     PlaneTicketCreator.apiRequest fetch apiUrl endpoint options s = (Ret undefined, s') ->
     exists w r,
       fst (fetch (probe_of apiUrl "/api/public" endpoint options) w) = Resolved r /\
       (status r = 404 \/ (ok r = true /\ is_json_type r = false))) /\
  (forall e : JsError, Ret undefined <> Throw e :> Res Value) /\
  (forall v : JSON, Ret undefined <> Ret (Some v)).
Proof.
  split; [| split; [| split; [| split]]].
  - intros H. split.
    + apply agent_loop_all_404. exact H.
    + apply creator_loop_all_404. intros p w Hp. apply H.
      unfold PlaneTicketCreator.apiPaths in Hp. unfold PlaneAgent.apiPaths.
      rewrite !elem_of_cons in Hp. rewrite !elem_of_cons. tauto.
  - intros s'. apply (agent_loop_undefined ["/api/v1"; "/api"; "/api/public"] "").
  - intros s'. apply (creator_loop_undefined ["/api/v1"; "/api"] "/api/public").
  - discriminate.
  - discriminate.
Qed.

End Discovery.

Section DiscoveryScenarios.

Import Scenarios.

(** C1, as stated, fails: the first candidate is answered 403, yet neither
    client fails; both go on to the second candidate and return what it
    serves. *)
Lemma forbidden_candidate_does_not_end_the_call :
  answer forbidden_first start (probe_of base "/api/v1" "/workspaces/" no_options)
    = Resolved (plain 403 "Forbidden") /\
  PlaneAgent.request forbidden_first base "/workspaces/" no_options start
    = (Ret (Some (issue "x")),
       mkSys tt [EvFetch (probe_of base "/api/v1" "/workspaces/" no_options);
                 EvFetch (probe_of base "/api" "/workspaces/" no_options)]) /\
  PlaneTicketCreator.apiRequest forbidden_first base "/workspaces/" no_options start
    = (Ret (Some (issue "x")),
       mkSys tt [EvFetch (probe_of base "/api/v1" "/workspaces/" no_options);
                 EvFetch (probe_of base "/api" "/workspaces/" no_options)]).
Proof. repeat split; vm_compute; reflexivity. Qed.

Lemma hard_error_ends_the_call_on_the_last_candidate_only_witness :
  PlaneAgent.request_from forbidden_last base 3 "/workspaces/" no_options start
    = (Throw (Error "API error 403: Forbidden"),
       after forbidden_last start (probe_of base "" "/workspaces/" no_options)) /\
  PlaneAgent.request_from forbidden_first base 0 "/workspaces/" no_options start
    = PlaneAgent.request_from forbidden_first base 1 "/workspaces/" no_options
        (after forbidden_first start (probe_of base "/api/v1" "/workspaces/" no_options)).
Proof.
  split.
  - refine (proj1 (proj1 (hard_error_ends_the_call_on_the_last_candidate_only
      forbidden_last base "/workspaces/" no_options start (plain 403 "Forbidden") 3 ""
      eq_refl _ eq_refl) eq_refl)).
    cbn. discriminate.
  - refine (proj1 (proj1 (hard_error_ends_the_call_on_the_last_candidate_only
      forbidden_first base "/workspaces/" no_options start (plain 403 "Forbidden") 0
      "/api/v1" eq_refl _ eq_refl) eq_refl)).
    cbn. discriminate.
Defined.

Lemma exhausted_probe_returns_undefined_witness :
  exists s',
    PlaneAgent.request not_found base "/workspaces/" no_options start = (Ret undefined, s') /\
    trace s' = trace start ++
      map (fun p => EvFetch (probe_of base p "/workspaces/" no_options)) PlaneAgent.apiPaths.
Proof.
  refine (proj1 (proj1 (exhausted_probe_returns_undefined not_found base "/workspaces/"
                          no_options start) _)).
  intros apiPath w _. exists (plain 404 "Not Found"). split; reflexivity.
Defined.

End DiscoveryScenarios.

(** *** Ticket submission and the batch *)

Section Tickets.

Context {W : Type} (fetch : Request -> W -> FetchResult * W) (apiUrl : string).
Context (workspaceSlug projectId : string).

Local Abbreviation createIssue := (PlaneAgent.createIssue fetch apiUrl workspaceSlug projectId).
Local Abbreviation addComment := (PlaneAgent.addComment fetch apiUrl workspaceSlug projectId).
Local Abbreviation createAITicket :=
  (PlaneAgent.createAITicket fetch apiUrl workspaceSlug projectId).
Local Abbreviation tickets_loop := (PlaneAgent.tickets_loop fetch apiUrl workspaceSlug projectId).
Local Abbreviation createTicketsFromList :=
  (PlaneAgent.createTicketsFromList fetch apiUrl workspaceSlug projectId).

(** [createAITicket], run from a state. *)
Lemma createAITicket_run (prompt : string) (s : Sys W) :
  createAITicket prompt s =
  match createIssue (PlaneAgent.issueData (PlaneAgent.analyzePrompt prompt)) s with
  | (Throw e, s1) => (Throw e, s1)
  | (Ret issue, s1) =>
      if truthy issue && truthy (member issue "id")
      then match addComment (member issue "id")
                   (PlaneAgent.aiComment (PlaneAgent.analyzePrompt prompt)) s1 with
           | (Throw e, s2) => (Throw e, s2)
           | (Ret _, s2) => (Ret issue, s2)
           end
      else (Ret issue, s1)
  end.
Proof.
  unfold PlaneAgent.createAITicket, try_catch, bind.
  destruct (createIssue _ s) as [[issue | e] s1]; [| reflexivity].
  destruct (truthy issue && truthy (member issue "id")); [| reflexivity].
  destruct (addComment _ _ s1) as [[c | e] s2]; reflexivity.
Qed.

(** One turn of the batch loop: a success is followed by the delay, a
    failure is not. *)
Lemma tickets_loop_step (ticketPrompt : string) (rest : list string)
    (results : list PlaneAgent.Entry) (s : Sys W) :
  tickets_loop (ticketPrompt :: rest) results s =
  match createAITicket ticketPrompt s with
  | (Ret ticket, s1) =>
      tickets_loop rest (results ++ [PlaneAgent.Created ticket ticketPrompt])
        (snd (sleep 1000 s1))
  | (Throw e, s1) =>
      tickets_loop rest (results ++ [PlaneAgent.Failed (message e) ticketPrompt]) s1
  end.
Proof.
  cbn [PlaneAgent.tickets_loop]. unfold bind at 1, try_catch, bind.
  destruct (createAITicket ticketPrompt s) as [[ticket | e] s1]; reflexivity.
Qed.

(** The loop never throws, and appends to [results] what it would have
    returned from an empty array: one entry per prompt, in order. *)
Lemma tickets_loop_appends (ticketList : list string) :
  forall (results : list PlaneAgent.Entry) (s : Sys W),
  exists entries s',
    tickets_loop ticketList results s = (Ret (results ++ entries), s') /\
    tickets_loop ticketList [] s = (Ret entries, s') /\
    map PlaneAgent.prompt entries = ticketList.
Proof.
  induction ticketList as [| p rest IH]; intros results s.
  - exists [], s. rewrite app_nil_r. repeat split.
  - rewrite !tickets_loop_step.
    destruct (createAITicket p s) as [[ticket | e] s1].
    + destruct (IH (results ++ [PlaneAgent.Created ticket p]) (snd (sleep 1000 s1)))
        as (entries & s' & Hacc & Hnil & Hmap).
      destruct (IH ([] ++ [PlaneAgent.Created ticket p]) (snd (sleep 1000 s1)))
        as (entries' & s'' & Hacc' & Hnil' & _).
      rewrite Hnil in Hnil'. injection Hnil' as <- <-.
      exists (PlaneAgent.Created ticket p :: entries), s'.
      rewrite Hacc, Hacc', <- app_assoc. cbn. rewrite Hmap. repeat split.
    + destruct (IH (results ++ [PlaneAgent.Failed (message e) p]) s1)
        as (entries & s' & Hacc & Hnil & Hmap).
      destruct (IH ([] ++ [PlaneAgent.Failed (message e) p]) s1)
        as (entries' & s'' & Hacc' & Hnil' & _).
      rewrite Hnil in Hnil'. injection Hnil' as <- <-.
      exists (PlaneAgent.Failed (message e) p :: entries), s'.
      rewrite Hacc, Hacc', <- app_assoc. cbn. rewrite Hmap. repeat split.
Qed.

Lemma batch_after_failure (ticketPrompt : string) (rest : list string)
    (s s1 : Sys W) (e : JsError) :
  createAITicket ticketPrompt s = (Throw e, s1) ->
  exists entries s',
    createTicketsFromList rest s1 = (Ret entries, s') /\
    createTicketsFromList (ticketPrompt :: rest) s
      = (Ret (PlaneAgent.Failed (message e) ticketPrompt :: entries), s').
Proof.
  intros Hrun. unfold PlaneAgent.createTicketsFromList.
  rewrite tickets_loop_step, Hrun.
  destruct (tickets_loop_appends rest ([] ++ [PlaneAgent.Failed (message e) ticketPrompt]) s1)
    as (entries & s' & Hacc & Hnil & _).
  exists entries, s'. split; [exact Hnil | exact Hacc].
Qed.

Lemma batch_after_success (ticketPrompt : string) (rest : list string)
    (s s1 : Sys W) (ticket : Value) :
  createAITicket ticketPrompt s = (Ret ticket, s1) ->
  exists entries s',
    createTicketsFromList rest (snd (sleep 1000 s1)) = (Ret entries, s') /\
    createTicketsFromList (ticketPrompt :: rest) s
      = (Ret (PlaneAgent.Created ticket ticketPrompt :: entries), s').
Proof.
  intros Hrun. unfold PlaneAgent.createTicketsFromList.
  rewrite tickets_loop_step, Hrun.
  destruct (tickets_loop_appends rest ([] ++ [PlaneAgent.Created ticket ticketPrompt])
              (snd (sleep 1000 s1)))
    as (entries & s' & Hacc & Hnil & _).
  exists entries, s'. split; [exact Hnil | exact Hacc].
Qed.

(** C3, amended.  Once the issue is created (and the answer carries an id),
    an error of the analysis-comment call is rethrown by [createAITicket]:
    the submission fails with the comment's error and the batch records the
    prompt as failed.  Nothing is sent to undo the creation. *)
Theorem comment_failure_fails_the_submission
    (prompt : string) (s s1 s2 : Sys W) (issue : Value) (e : JsError) :
  createIssue (PlaneAgent.issueData (PlaneAgent.analyzePrompt prompt)) s = (Ret issue, s1) ->
  truthy issue = true ->
  truthy (member issue "id") = true ->
  addComment (member issue "id") (PlaneAgent.aiComment (PlaneAgent.analyzePrompt prompt)) s1
    = (Throw e, s2) ->
  createAITicket prompt s = (Throw e, s2) /\
  createTicketsFromList [prompt] s = (Ret [PlaneAgent.Failed (message e) prompt], s2).
Proof.
  intros Hcreate Hissue Hid Hcomment.
  assert (Hrun : createAITicket prompt s = (Throw e, s2)).
  { rewrite createAITicket_run, Hcreate, Hissue, Hid. cbn [andb]. rewrite Hcomment.
    reflexivity. }
  split; [exact Hrun |].
  unfold PlaneAgent.createTicketsFromList. rewrite tickets_loop_step, Hrun. reflexivity.
Qed.

(** C6.  The batch never throws and returns one entry per prompt, in input
    order, each with its prompt.  A submission that throws is recorded as a
    failure with the error's message and the rest of the list is still
    processed; one that returns is recorded as a success.  With three
    prompts of which the second throws, the result is success, failure,
    success. *)
Theorem batch_reports_every_prompt :
  (forall (ticketList : list string) (s : Sys W),
     exists results s',
       createTicketsFromList ticketList s = (Ret results, s') /\
       map PlaneAgent.prompt results = ticketList /\
       length results = length ticketList) /\
  (forall (ticketPrompt : string) (rest : list string) (s s1 : Sys W) (e : JsError),
     createAITicket ticketPrompt s = (Throw e, s1) ->
     exists entries s',
       createTicketsFromList rest s1 = (Ret entries, s') /\
       createTicketsFromList (ticketPrompt :: rest) s
         = (Ret (PlaneAgent.Failed (message e) ticketPrompt :: entries), s')) /\
  (forall (ticketPrompt : string) (rest : list string) (s s1 : Sys W) (ticket : Value),
     createAITicket ticketPrompt s = (Ret ticket, s1) ->
     exists entries s',
       createTicketsFromList rest (snd (sleep 1000 s1)) = (Ret entries, s') /\
       createTicketsFromList (ticketPrompt :: rest) s
         = (Ret (PlaneAgent.Created ticket ticketPrompt :: entries), s')) /\
  (forall (p1 p2 p3 : string) (s s1 s2 s3 : Sys W) (t1 t3 : Value) (e : JsError),
     createAITicket p1 s = (Ret t1, s1) ->
     createAITicket p2 (snd (sleep 1000 s1)) = (Throw e, s2) ->
     createAITicket p3 s2 = (Ret t3, s3) ->
     createTicketsFromList [p1; p2; p3] s
       = (Ret [PlaneAgent.Created t1 p1; PlaneAgent.Failed (message e) p2;
               PlaneAgent.Created t3 p3],
          snd (sleep 1000 s3))).
Proof.
  split; [| split; [| split]].
  - intros ticketList s.
    destruct (tickets_loop_appends ticketList [] s) as (entries & s' & _ & Hnil & Hmap).
    exists entries, s'. split; [exact Hnil |]. split; [exact Hmap |].
    rewrite <- Hmap. symmetry. apply length_map.
  - intros ticketPrompt rest s s1 e. apply batch_after_failure.
  - intros ticketPrompt rest s s1 ticket. apply batch_after_success.
  - intros p1 p2 p3 s s1 s2 s3 t1 t3 e H1 H2 H3.
    unfold PlaneAgent.createTicketsFromList.
    rewrite tickets_loop_step, H1, tickets_loop_step, H2, tickets_loop_step, H3.
    reflexivity.
Qed.

End Tickets.

Section TicketScenarios.

Import Scenarios.

(** C3, as stated, fails: the issue is created (the tracker answers 200 with
    an id), the comment call is rejected, and the submission as a whole
    throws; the batch reports the prompt as failed. *)
Lemma comment_failure_is_reported_as_a_failed_ticket :
  fst (PlaneAgent.createIssue comments_rejected base "indigo" "p1"
         (PlaneAgent.issueData (PlaneAgent.analyzePrompt "Add dark mode")) start)
    = Ret (Some (issue "42")) /\
  fst (PlaneAgent.createAITicket comments_rejected base "indigo" "p1" "Add dark mode" start)
    = Throw (Error "API error 500: Internal Server Error") /\
  fst (PlaneAgent.createTicketsFromList comments_rejected base "indigo" "p1"
         ["Add dark mode"] start)
    = Ret [PlaneAgent.Failed "API error 500: Internal Server Error" "Add dark mode"].
Proof. repeat split; vm_compute; reflexivity. Qed.

Lemma comment_failure_fails_the_submission_witness :
  fst (PlaneAgent.createAITicket comments_rejected base "indigo" "p1" "Add dark mode" start)
    = Throw (Error "API error 500: Internal Server Error").
Proof.
  refine (f_equal fst (proj1 (comment_failure_fails_the_submission comments_rejected base
    "indigo" "p1" "Add dark mode" start
    (snd (PlaneAgent.createIssue comments_rejected base "indigo" "p1"
            (PlaneAgent.issueData (PlaneAgent.analyzePrompt "Add dark mode")) start))
    (snd (PlaneAgent.createAITicket comments_rejected base "indigo" "p1" "Add dark mode"
            start))
    (Some (issue "42")) (Error "API error 500: Internal Server Error") _ _ _ _)));
    vm_compute; reflexivity.
Defined.

(** C4 at its failing input.  The tracker rejects the first prompt on all
    four prefixes and accepts the second: the calls for the second prompt
    follow those for the first with no wait in between; the only wait is
    the one after the successful second submission. *)
Theorem no_delay_after_a_failed_submission :
  fst (PlaneAgent.createTicketsFromList (rejects "first") base "indigo" "p1"
         ["first"; "second"] start)
    = Ret [PlaneAgent.Failed "API error 500: Internal Server Error" "first";
           PlaneAgent.Created (Some (issue "7")) "second"] /\
  map mark (trace (snd (PlaneAgent.createTicketsFromList (rejects "first") base "indigo" "p1"
                          ["first"; "second"] start)))
    = [Called "https://plane.example/api/v1/workspaces/indigo/projects/p1/issues/";
       Called "https://plane.example/api/workspaces/indigo/projects/p1/issues/";
       Called "https://plane.example/api/public/workspaces/indigo/projects/p1/issues/";
       Called "https://plane.example/workspaces/indigo/projects/p1/issues/";
       Called "https://plane.example/api/v1/workspaces/indigo/projects/p1/issues/";
       Called "https://plane.example/api/v1/workspaces/indigo/projects/p1/issues/7/comments/";
       Waited 1000].
Proof. split; vm_compute; reflexivity. Qed.

Lemma batch_reports_every_prompt_witness :
  fst (PlaneAgent.createTicketsFromList (rejects "second") base "indigo" "p1"
         ["first"; "second"; "third"] start)
    = Ret [PlaneAgent.Created (Some (issue "7")) "first";
           PlaneAgent.Failed "API error 500: Internal Server Error" "second";
           PlaneAgent.Created (Some (issue "7")) "third"].
Proof.
  pose (run1 := PlaneAgent.createAITicket (rejects "second") base "indigo" "p1" "first" start).
  pose (run2 := PlaneAgent.createAITicket (rejects "second") base "indigo" "p1" "second"
                  (snd (sleep 1000 (snd run1)))).
  pose (run3 := PlaneAgent.createAITicket (rejects "second") base "indigo" "p1" "third"
                  (snd run2)).
  refine (f_equal fst
    (proj2 (proj2 (proj2 (batch_reports_every_prompt (rejects "second") base "indigo" "p1")))
       "first" "second" "third" start (snd run1) (snd run2) (snd run3)
       (Some (issue "7")) (Some (issue "7")) (Error "API error 500: Internal Server Error")
       _ _ _));
    vm_compute; reflexivity.
Defined.

End TicketScenarios.

(** *** The webhook dispatcher *)

Section Webhook.

Context {W : Type}.

Local Abbreviation dispatch := (WebhookListener.dispatch (W := W)).
Local Abbreviation announce := (WebhookListener.announce (W := W)).
Local Abbreviation plane_webhook := (WebhookListener.plane_webhook (W := W)).

(** The two lines printed for an event whose type has a text. *)
Lemma announce_run (event_type data : Value) (s : Sys W) :
  printable event_type = true ->
  announce event_type data s =
  (Ret tt, mkSys (world s) (trace s ++ [EvConsole (LogReceived event_type);
                                         EvConsole (LogEventData data)])).
Proof.
  unfold printable, WebhookListener.announce, bind, lift, WebhookListener.console, emit.
  destruct (toString event_type) as [text | e]; [intros _ | discriminate].
  cbn [world trace]. rewrite <- app_assoc. reflexivity.
Qed.

(** The route, run from a state, for an event whose type has a text. *)
Lemma plane_webhook_run (req_body : gmap string JSON) (s : Sys W) :
  printable (req_body !! "event_type") = true ->
  plane_webhook req_body s =
  match dispatch (req_body !! "event_type") (req_body !! "data")
          (snd (announce (req_body !! "event_type") (req_body !! "data") s)) with
  | (Ret _, s1) =>
      (Ret (WebhookListener.mkHttpResponse 200
              (literal [("status", Some (JStr "success"));
                        ("processed", req_body !! "event_type")])), s1)
  | (Throw e, s1) =>
      (Ret (WebhookListener.mkHttpResponse 500
              (literal [("status", Some (JStr "error"));
                        ("message", Some (JStr (message e)))])),
       snd (WebhookListener.console (LogProcessingError e) s1))
  end.
Proof.
  intros Hprint.
  unfold WebhookListener.plane_webhook, bind at 1.
  rewrite (announce_run _ (req_body !! "data") s Hprint). cbn [snd].
  unfold try_catch, bind at 1.
  match goal with
  | |- context [WebhookListener.dispatch ?a ?b ?st] =>
      destruct (WebhookListener.dispatch a b st) as [[[] | e] s1]
  end; reflexivity.
Qed.





End Webhook.

Section WebhookScenarios.

Import Scenarios.



End WebhookScenarios.

(** *** The deployment agent *)

Section Railway.

Context {W : Type} (fetch : Request -> W -> FetchResult * W).
Context (JSON_stringify : JSON -> string).

Local Abbreviation triggerDeployment :=
  (RailwayAgent.triggerDeployment fetch JSON_stringify).
Local Abbreviation getServiceDeployments :=
  (RailwayAgent.getServiceDeployments fetch JSON_stringify).
Local Abbreviation executeTicket := (RailwayAgent.executeTicket fetch JSON_stringify).

(** What [{ ...ticket, status: 'failed', error }] holds. *)
Lemma failed_fields (ticket : gmap string Value) (e : JsError) :
  RailwayAgent.failed ticket e !! "status" = Some (Some (JStr "failed")) /\
  RailwayAgent.failed ticket e !! "error" = Some (Some (JStr (message e))) /\
  (forall key, key <> "status" -> key <> "error" ->
     RailwayAgent.failed ticket e !! key = ticket !! key).
Proof.
  unfold RailwayAgent.failed. split; [| split].
  - rewrite lookup_insert_ne by discriminate. apply lookup_insert_eq.
  - apply lookup_insert_eq.
  - intros key Hs He. rewrite !lookup_insert_ne by congruence. reflexivity.
Qed.

(** The line printed ahead of the [try]: with texts for both values it
    lets the [switch] run. *)
Lemma executeTicket_run (ticket : gmap string Value) (s : Sys W) (action service : string) :
  toString (RailwayAgent.field ticket "action") = Ret action ->
  toString (RailwayAgent.field ticket "service") = Ret service ->
  executeTicket ticket s =
  try_catch
    (if RailwayAgent.is_action (RailwayAgent.field ticket "action") "deploy"
        || RailwayAgent.is_action (RailwayAgent.field ticket "action") "redeploy"
     then
       let* deployment := triggerDeployment (RailwayAgent.field ticket "serviceId") in
       let* id := lift (prop deployment "id") in
       ret (RailwayAgent.completed ticket "deploymentId" id)
     else if RailwayAgent.is_action (RailwayAgent.field ticket "action") "status"
     then
       let* deployments := getServiceDeployments (RailwayAgent.field ticket "serviceId") in
       ret (RailwayAgent.completed ticket "latestDeployment" (RailwayAgent.first deployments))
     else throw (Error ("Unknown action: " +:+ action)))
    (fun error => ret (RailwayAgent.failed ticket error)) s.
Proof.
  intros Haction Hservice. unfold RailwayAgent.executeTicket. cbv zeta.
  unfold bind at 1, lift at 1. rewrite Haction.
  unfold bind at 1, lift at 1. rewrite Hservice.
  unfold try_catch.
  destruct (RailwayAgent.is_action (RailwayAgent.field ticket "action") "deploy"
            || RailwayAgent.is_action (RailwayAgent.field ticket "action") "redeploy");
    [reflexivity |].
  destruct (RailwayAgent.is_action (RailwayAgent.field ticket "action") "status");
    [reflexivity |].
  unfold bind, lift. reflexivity.
Qed.


End Railway.

Section RailwayScenarios.

Import Scenarios.



End RailwayScenarios.

(** *** More on strings and the classifiers *)

Section Text.

Lemma lower_unit_idempotent (c : ascii) : lower_unit (lower_unit c) = lower_unit c.
Proof. destruct c as [[] [] [] [] [] [] [] []]; reflexivity. Qed.

Lemma toLowerCase_idempotent (s : string) : toLowerCase (toLowerCase s) = toLowerCase s.
Proof.
  induction s as [| c r IH]; [reflexivity |].
  cbn [toLowerCase]. rewrite lower_unit_idempotent, IH. reflexivity.
Qed.

Lemma lower_unit_space (c : ascii) : Ascii.eqb (lower_unit c) " " = Ascii.eqb c " ".
Proof. destruct c as [[] [] [] [] [] [] [] []]; reflexivity. Qed.

(** Lower-casing moves no space, so the word count is the same. *)
Lemma split_length_toLowerCase (s : string) :
  split_length " " (toLowerCase s) = split_length " " s.
Proof.
  induction s as [| c r IH]; [reflexivity |].
  cbn [toLowerCase split_length]. rewrite lower_unit_space, IH. reflexivity.
Qed.

Lemma length_append (s t : string) :
  String.length (s +:+ t) = (String.length s + String.length t)%nat.
Proof.
  induction s as [| c r IH]; [reflexivity |].
  change (String c r +:+ t) with (String c (r +:+ t)). cbn [String.length].
  rewrite IH. reflexivity.
Qed.

Lemma length_substring0 (n : nat) (s : string) :
  String.length (substring0 n s) = Nat.min n (String.length s).
Proof.
  unfold substring0. revert s. induction n as [| n IH]; intros [| c r]; cbn; try reflexivity.
  rewrite IH. reflexivity.
Qed.

Lemma has_unit_split_first (c : ascii) (s : string) : has_unit c (split_first c s) = false.
Proof.
  induction s as [| d r IH]; [reflexivity |].
  cbn [split_first]. destruct (Ascii.eqb d c) eqn:E; [reflexivity |].
  cbn [has_unit]. rewrite E, IH. reflexivity.
Qed.

Lemma has_unit_trimStart (c : ascii) (s : string) :
  has_unit c s = false -> has_unit c (trimStart s) = false.
Proof.
  induction s as [| d r IH]; [reflexivity |].
  cbn [trimStart]. destruct (is_space d); [| tauto].
  cbn [has_unit]. intros H. apply orb_false_elim in H. apply IH, H.
Qed.

Lemma has_unit_trimEnd (c : ascii) (s : string) :
  has_unit c s = false -> has_unit c (trimEnd s) = false.
Proof.
  induction s as [| d r IH]; [reflexivity |].
  cbn [trimEnd has_unit]. intros H. apply orb_false_elim in H. destruct H as [Hd Hr].
  specialize (IH Hr). destruct (trimEnd r) as [| e r'].
  - destruct (is_space d); [reflexivity |]. cbn [has_unit]. rewrite Hd. reflexivity.
  - cbn [has_unit] in *. rewrite Hd. exact IH.
Qed.

Lemma has_unit_substring0 (c : ascii) (n : nat) (s : string) :
  has_unit c s = false -> has_unit c (substring0 n s) = false.
Proof.
  unfold substring0. revert s. induction n as [| n IH]; intros [| d r]; cbn; try reflexivity.
  intros H. apply orb_false_elim in H. destruct H as [-> Hr]. apply IH, Hr.
Qed.

End Text.

Section ClassifierFacts.

Import Scenarios.

Lemma plane_agent_title (prompt : string) :
  PlaneAgent.title (PlaneAgent.analyzePrompt prompt) = PlaneAgent.make_title prompt.
Proof.
  unfold PlaneAgent.analyzePrompt.
  destruct (PlaneAgent.categorize (toLowerCase prompt)); reflexivity.
Qed.

Lemma plane_agent_labels (prompt : string) :
  PlaneAgent.labels (PlaneAgent.analyzePrompt prompt) =
  List.filter (fun keyword => includes (toLowerCase prompt) keyword) PlaneAgent.techKeywords.
Proof.
  unfold PlaneAgent.analyzePrompt.
  destruct (PlaneAgent.categorize (toLowerCase prompt)); reflexivity.
Qed.

Lemma plane_agent_complexity (prompt : string) :
  PlaneAgent.complexity (PlaneAgent.analyzePrompt prompt) =
  PlaneAgent.estimate prompt (toLowerCase prompt)
    (PlaneAgent.labels (PlaneAgent.analyzePrompt prompt)).
Proof.
  unfold PlaneAgent.analyzePrompt.
  destruct (PlaneAgent.categorize (toLowerCase prompt)); reflexivity.
Qed.

Lemma ticket_creator_priority (description : string) :
  PlaneTicketCreator.priority (PlaneTicketCreator.analyzeTicket description) =
  PlaneTicketCreator.adjust_priority (toLowerCase description)
    (snd (PlaneTicketCreator.categorize (toLowerCase description))).
Proof.
  unfold PlaneTicketCreator.analyzeTicket.
  destruct (PlaneTicketCreator.categorize (toLowerCase description)); reflexivity.
Qed.

Lemma ticket_creator_labels (description : string) :
  PlaneTicketCreator.labels (PlaneTicketCreator.analyzeTicket description) =
  List.filter (fun tag => includes (toLowerCase description) tag) PlaneTicketCreator.techTags.
Proof.
  unfold PlaneTicketCreator.analyzeTicket.
  destruct (PlaneTicketCreator.categorize (toLowerCase description)); reflexivity.
Qed.

Lemma ticket_creator_title (description : string) :
  PlaneTicketCreator.title (PlaneTicketCreator.analyzeTicket description) =
  substring0 80 (trim (split_first "." description)).
Proof.
  unfold PlaneTicketCreator.analyzeTicket.
  destruct (PlaneTicketCreator.categorize (toLowerCase description)); reflexivity.
Qed.

Lemma ticket_creator_complexity (description : string) :
  PlaneTicketCreator.complexity (PlaneTicketCreator.analyzeTicket description) =
  if (50 <? split_length " " description)%nat then "High"
  else if (20 <? split_length " " description)%nat then "Medium" else "Low".
Proof.
  unfold PlaneTicketCreator.analyzeTicket.
  destruct (PlaneTicketCreator.categorize (toLowerCase description)); reflexivity.
Qed.

Lemma first_sentence_has_no_period (text : string) :
  has_unit "." (trim (split_first "." text)) = false.
Proof.
  unfold trim. apply has_unit_trimEnd, has_unit_trimStart, has_unit_split_first.
Qed.

(** X1.  The title [analyzePrompt] derives is at most 80 code units long.
    It either contains no period at all, or it is 77 period-free code units
    followed by the three periods that mark the cut. *)
Theorem analyzePrompt_title_fits (prompt : string) :
  (String.length (PlaneAgent.title (PlaneAgent.analyzePrompt prompt)) <= 80)%nat /\
  (has_unit "." (PlaneAgent.title (PlaneAgent.analyzePrompt prompt)) = false \/
   exists head,
     PlaneAgent.title (PlaneAgent.analyzePrompt prompt) = head +:+ "..." /\
     String.length head = 77%nat /\
     has_unit "." head = false).
Proof.
  rewrite plane_agent_title. unfold PlaneAgent.make_title.
  pose proof (first_sentence_has_no_period prompt) as Hdot.
  set (sentence := trim (split_first "." prompt)) in *.
  destruct (Nat.ltb_spec 80 (String.length sentence)) as [Hlong | Hshort].
  - assert (Hlen : String.length (substring0 77 sentence) = 77%nat).
    { rewrite length_substring0. lia. }
    split.
    + rewrite length_append, Hlen. cbn. lia.
    + right. exists (substring0 77 sentence).
      split; [reflexivity |]. split; [exact Hlen |].
      apply has_unit_substring0, Hdot.
  - split; [exact Hshort | left; exact Hdot].
Qed.

(** X2.  The title [analyzeTicket] derives is at most 80 code units long and
    contains no period. *)
Theorem analyzeTicket_title_fits (description : string) :
  (String.length (PlaneTicketCreator.title (PlaneTicketCreator.analyzeTicket description))
     <= 80)%nat /\
  has_unit "." (PlaneTicketCreator.title (PlaneTicketCreator.analyzeTicket description))
    = false.
Proof.
  rewrite ticket_creator_title. split.
  - rewrite length_substring0. lia.
  - apply has_unit_substring0, first_sentence_has_no_period.
Qed.

(** X3.  Classification is case-insensitive: two texts with the same
    lower-case form get the same category, priority, labels and complexity
    from [analyzePrompt], and likewise from [analyzeTicket]. *)
Theorem classification_ignores_case (p q : string) :
  toLowerCase p = toLowerCase q ->
  (PlaneAgent.category (PlaneAgent.analyzePrompt p)
     = PlaneAgent.category (PlaneAgent.analyzePrompt q) /\
   PlaneAgent.priority (PlaneAgent.analyzePrompt p)
     = PlaneAgent.priority (PlaneAgent.analyzePrompt q) /\
   PlaneAgent.labels (PlaneAgent.analyzePrompt p)
     = PlaneAgent.labels (PlaneAgent.analyzePrompt q) /\
   PlaneAgent.complexity (PlaneAgent.analyzePrompt p)
     = PlaneAgent.complexity (PlaneAgent.analyzePrompt q)) /\
  (PlaneTicketCreator.category (PlaneTicketCreator.analyzeTicket p)
     = PlaneTicketCreator.category (PlaneTicketCreator.analyzeTicket q) /\
   PlaneTicketCreator.priority (PlaneTicketCreator.analyzeTicket p)
     = PlaneTicketCreator.priority (PlaneTicketCreator.analyzeTicket q) /\
   PlaneTicketCreator.labels (PlaneTicketCreator.analyzeTicket p)
     = PlaneTicketCreator.labels (PlaneTicketCreator.analyzeTicket q) /\
   PlaneTicketCreator.complexity (PlaneTicketCreator.analyzeTicket p)
     = PlaneTicketCreator.complexity (PlaneTicketCreator.analyzeTicket q)).
Proof.
  intros H.
  assert (Hwords : split_length " " p = split_length " " q).
  { rewrite <- (split_length_toLowerCase p), <- (split_length_toLowerCase q), H.
    reflexivity. }
  split.
  - rewrite !plane_agent_category, !plane_agent_priority, !plane_agent_complexity,
      !plane_agent_labels.
    unfold PlaneAgent.estimate. rewrite H, Hwords. repeat split.
  - rewrite !ticket_creator_category, !ticket_creator_priority, !ticket_creator_complexity,
      !ticket_creator_labels.
    rewrite H, Hwords. repeat split.
Qed.

Lemma classification_ignores_case_witness :
  PlaneAgent.category (PlaneAgent.analyzePrompt "FIX the Login BUG")
    = PlaneAgent.category (PlaneAgent.analyzePrompt "fix the login bug").
Proof.
  exact (proj1 (proj1 (classification_ignores_case "FIX the Login BUG" "fix the login bug"
                         eq_refl))).
Defined.

(** X4.  The labels are exactly the technology keywords found in the
    lower-cased text, each once; and [analyzeTicket] finds the labels of
    [analyzePrompt] less "ux", which is not in its vocabulary. *)
Theorem labels_are_the_keywords_found (text : string) :
  (forall keyword,
     In keyword (PlaneAgent.labels (PlaneAgent.analyzePrompt text)) <->
     In keyword PlaneAgent.techKeywords /\ includes (toLowerCase text) keyword = true) /\
  List.NoDup (PlaneAgent.labels (PlaneAgent.analyzePrompt text)) /\
  PlaneTicketCreator.labels (PlaneTicketCreator.analyzeTicket text) =
    List.filter (fun label => negb (String.eqb label "ux"))
      (PlaneAgent.labels (PlaneAgent.analyzePrompt text)).
Proof.
  rewrite plane_agent_labels, ticket_creator_labels. split; [| split].
  - intros keyword. apply filter_In.
  - apply List.NoDup_filter. unfold PlaneAgent.techKeywords.
    repeat (constructor; [cbn; intuition discriminate |]). constructor.
  - unfold PlaneAgent.techKeywords, PlaneTicketCreator.techTags. cbn [List.filter].
    repeat match goal with
           | |- context [includes ?s ?k] => destruct (includes s k)
           end; reflexivity.
Qed.

(** X5.  Priority Urgent is given exactly to the texts with an urgency
    term: "urgent" or "critical" for [analyzeTicket], these and "asap" for
    [analyzePrompt]. *)
Theorem urgent_exactly_on_urgency_terms (text : string) :
  (PlaneTicketCreator.priority (PlaneTicketCreator.analyzeTicket text) = "Urgent" <->
   includes (toLowerCase text) "urgent" = true \/
   includes (toLowerCase text) "critical" = true) /\
  (PlaneAgent.priority (PlaneAgent.analyzePrompt text) = "urgent" <->
   PlaneAgent.urgency_term (toLowerCase text) = true).
Proof.
  rewrite ticket_creator_priority, plane_agent_priority. split.
  - unfold PlaneTicketCreator.adjust_priority, PlaneTicketCreator.categorize.
    destruct (includes (toLowerCase text) "urgent"), (includes (toLowerCase text) "critical");
      cbn [orb]; try (split; [intros _; auto | reflexivity]);
      repeat match goal with
             | |- context [if ?b then _ else _] => destruct b
             end; cbn; split; intros H; try discriminate H; destruct H; discriminate.
  - unfold PlaneAgent.adjust_priority, PlaneAgent.categorize.
    destruct (PlaneAgent.urgency_term (toLowerCase text)); [split; reflexivity |].
    repeat match goal with
           | |- context [if ?b then _ else _] => destruct b
           end; cbn; split; intros H; discriminate H.
Qed.

(** X6.  The classifiers only produce the values of their enumerations. *)
Theorem classification_values (text : string) :
  In (PlaneAgent.category (PlaneAgent.analyzePrompt text))
     ["BUG"; "FEATURE"; "IMPROVEMENT"; "TASK"] /\
  In (PlaneAgent.priority (PlaneAgent.analyzePrompt text))
     ["urgent"; "high"; "medium"; "low"] /\
  In (PlaneAgent.complexity (PlaneAgent.analyzePrompt text)) ["LOW"; "MEDIUM"; "HIGH"] /\
  In (PlaneTicketCreator.category (PlaneTicketCreator.analyzeTicket text))
     ["Bug"; "Feature"; "Enhancement"; "Task"] /\
  In (PlaneTicketCreator.priority (PlaneTicketCreator.analyzeTicket text))
     ["Urgent"; "High"; "Medium"; "Low"] /\
  In (PlaneTicketCreator.complexity (PlaneTicketCreator.analyzeTicket text))
     ["Low"; "Medium"; "High"].
Proof.
  rewrite plane_agent_category, plane_agent_priority, plane_agent_complexity,
    ticket_creator_category, ticket_creator_priority, ticket_creator_complexity.
  unfold PlaneAgent.categorize, PlaneAgent.adjust_priority, PlaneAgent.estimate,
    PlaneTicketCreator.categorize, PlaneTicketCreator.adjust_priority.
  repeat split;
    repeat match goal with
           | |- context [if ?b then _ else _] => destruct b
           end; cbn; auto 6.
Qed.

End ClassifierFacts.

(** *** More on the endpoint-discovery clients *)

Section DiscoveryFacts.

Context {W : Type} (fetch : Request -> W -> FetchResult * W) (apiUrl : string).

Local Abbreviation calls endpoint options :=
  (map (fun apiPath => EvFetch (probe_of apiUrl apiPath endpoint options))).

Lemma ok_is_not_404 (r : Response) : ok r = true -> (status r =? 404) = false.
Proof.
  unfold ok. intros H. apply andb_true_iff in H. destruct H as [_ H].
  apply Z.leb_le in H. apply Z.eqb_neq. lia.
Qed.

Lemma agent_judge_json (r : Response) (v : JSON) :
  ok r = true -> is_json_type r = true -> json r = inr v ->
  PlaneAgent.judge r = Ret (PlaneAgent.Return v).
Proof.
  intros Hok Hct Hjson. unfold PlaneAgent.judge.
  rewrite (ok_is_not_404 r Hok), Hok, Hct, Hjson. reflexivity.
Qed.

Lemma creator_judge_json (r : Response) (v : JSON) :
  ok r = true -> is_json_type r = true -> json r = inr v ->
  PlaneTicketCreator.judge r = Ret (PlaneAgent.Return v).
Proof.
  intros Hok Hct Hjson. unfold PlaneTicketCreator.judge.
  rewrite (ok_is_not_404 r Hok), Hok, Hct, Hjson. reflexivity.
Qed.

Lemma agent_loop_success (pre : list string) (p : string) (post : list string)
    (lastPath endpoint : string) (options : Options) (v : JSON) (s : Sys W) :
  (forall q w, q ∈ pre ->
     exists r, fst (fetch (probe_of apiUrl q endpoint options) w) = Resolved r /\
               status r = 404) ->
  (forall w,
     exists r, fst (fetch (probe_of apiUrl p endpoint options) w) = Resolved r /\
               ok r = true /\ is_json_type r = true /\ json r = inr v) ->
  exists s',
    PlaneAgent.request_loop fetch apiUrl (pre ++ p :: post) lastPath endpoint options s
      = (Ret (Some v), s') /\
    trace s' = trace s ++ calls endpoint options (pre ++ [p]).
Proof.
  intros Hpre Hp. revert s. induction pre as [| q pre IH]; intros s.
  - cbn [app]. rewrite agent_loop_step. unfold answer.
    destruct (Hp (world s)) as (r & -> & Hok & Hct & Hjson).
    cbn [PlaneAgent.verdict]. rewrite (agent_judge_json r v Hok Hct Hjson).
    eexists. split; reflexivity.
  - cbn [app]. rewrite agent_loop_step. unfold answer.
    destruct (Hpre q (world s)) as (r & -> & E); [left |].
    cbn [PlaneAgent.verdict]. rewrite (agent_judge_404 r E).
    destruct (IH (fun q' w Hq => Hpre q' w (list_elem_of_further _ _ _ Hq))
                (after fetch s (probe_of apiUrl q endpoint options))) as (s' & -> & Ht).
    exists s'. split; [reflexivity |].
    rewrite Ht. cbn [after trace map app]. rewrite <- app_assoc. reflexivity.
Qed.

Lemma creator_loop_success (pre : list string) (p : string) (post : list string)
    (lastPath endpoint : string) (options : Options) (v : JSON) (s : Sys W) :
  (forall q w, q ∈ pre ->
     exists r, fst (fetch (probe_of apiUrl q endpoint options) w) = Resolved r /\
               status r = 404) ->
  (forall w,
     exists r, fst (fetch (probe_of apiUrl p endpoint options) w) = Resolved r /\
               ok r = true /\ is_json_type r = true /\ json r = inr v) ->
  exists s',
    PlaneTicketCreator.apiRequest_loop fetch apiUrl (pre ++ p :: post) lastPath endpoint
      options s = (Ret (Some v), s') /\
    trace s' = trace s ++ calls endpoint options (pre ++ [p]).
Proof.
  intros Hpre Hp. revert s. induction pre as [| q pre IH]; intros s.
  - cbn [app]. rewrite creator_loop_step. unfold answer.
    destruct (Hp (world s)) as (r & -> & Hok & Hct & Hjson).
    cbn [PlaneAgent.verdict]. rewrite (creator_judge_json r v Hok Hct Hjson).
    eexists. split; reflexivity.
  - cbn [app]. rewrite creator_loop_step. unfold answer.
    destruct (Hpre q (world s)) as (r & -> & E); [left |].
    cbn [PlaneAgent.verdict]. rewrite (creator_judge_404 r E).
    destruct (IH (fun q' w Hq => Hpre q' w (list_elem_of_further _ _ _ Hq))
                (after fetch s (probe_of apiUrl q endpoint options))) as (s' & -> & Ht).
    exists s'. split; [reflexivity |].
    rewrite Ht. cbn [after trace map app]. rewrite <- app_assoc. reflexivity.
Qed.

(** X7.  When the candidates before some prefix answer 404 and that prefix
    answers 2xx with JSON, both clients return the parsed value and have
    called exactly the candidates up to that prefix, in order: no later
    candidate is called. *)
Theorem first_json_answer_ends_the_probe
    (pre : list string) (p : string) (post : list string)
    (endpoint : string) (options : Options) (v : JSON) (s : Sys W) :
  (forall q w, q ∈ pre ->
     exists r, fst (fetch (probe_of apiUrl q endpoint options) w) = Resolved r /\
               status r = 404) ->
  (forall w,
     exists r, fst (fetch (probe_of apiUrl p endpoint options) w) = Resolved r /\
               ok r = true /\ is_json_type r = true /\ json r = inr v) ->
  (PlaneAgent.apiPaths = pre ++ p :: post ->
   exists s',
     PlaneAgent.request fetch apiUrl endpoint options s = (Ret (Some v), s') /\
     trace s' = trace s ++ calls endpoint options (pre ++ [p])) /\
  (PlaneTicketCreator.apiPaths = pre ++ p :: post ->
   exists s',
     PlaneTicketCreator.apiRequest fetch apiUrl endpoint options s = (Ret (Some v), s') /\
     trace s' = trace s ++ calls endpoint options (pre ++ [p])).
Proof.
  intros Hpre Hp. split; intros Hpaths.
  - unfold PlaneAgent.request. generalize (List.last PlaneAgent.apiPaths "").
    intros lastPath. rewrite Hpaths. apply agent_loop_success; assumption.
  - unfold PlaneTicketCreator.apiRequest. generalize (List.last PlaneTicketCreator.apiPaths "").
    intros lastPath. rewrite Hpaths. apply creator_loop_success; assumption.
Qed.

Lemma agent_loop_calls_prefix (paths : list string) (lastPath endpoint : string)
    (options : Options) (s : Sys W) :
  exists n,
    (n <= length paths)%nat /\ (paths <> [] -> (1 <= n)%nat) /\
    trace (snd (PlaneAgent.request_loop fetch apiUrl paths lastPath endpoint options s))
    = trace s ++ calls endpoint options (take n paths).
Proof.
  revert s. induction paths as [| apiPath rest IH]; intros s.
  - exists 0%nat. cbn. rewrite app_nil_r. repeat split; [lia | congruence].
  - rewrite agent_loop_step.
    set (req := probe_of apiUrl apiPath endpoint options).
    assert (Hgo : exists n,
      (n <= length (apiPath :: rest))%nat /\ (apiPath :: rest <> [] -> (1 <= n)%nat) /\
      trace (snd (PlaneAgent.request_loop fetch apiUrl rest lastPath endpoint options
                    (after fetch s req)))
      = trace s ++ calls endpoint options (take n (apiPath :: rest))).
    { destruct (IH (after fetch s req)) as (n & Hn & _ & Ht).
      exists (S n). cbn [length take map]. rewrite Ht. cbn [after trace].
      rewrite <- app_assoc. repeat split; lia. }
    assert (Hstop : exists n,
      (n <= length (apiPath :: rest))%nat /\ (apiPath :: rest <> [] -> (1 <= n)%nat) /\
      trace (after fetch s req) = trace s ++ calls endpoint options (take n (apiPath :: rest))).
    { exists 1%nat. cbn [length take map after trace]. rewrite take_0.
      repeat split; lia. }
    destruct (PlaneAgent.verdict _ _) as [[| v] | e]; [exact Hgo | exact Hstop |].
    destruct (String.eqb apiPath lastPath); [exact Hstop | exact Hgo].
Qed.

Lemma creator_loop_calls_prefix (paths : list string) (lastPath endpoint : string)
    (options : Options) (s : Sys W) :
  exists n,
    (n <= length paths)%nat /\ (paths <> [] -> (1 <= n)%nat) /\
    trace (snd (PlaneTicketCreator.apiRequest_loop fetch apiUrl paths lastPath endpoint
                  options s))
    = trace s ++ calls endpoint options (take n paths).
Proof.
  revert s. induction paths as [| apiPath rest IH]; intros s.
  - exists 0%nat. cbn. rewrite app_nil_r. repeat split; [lia | congruence].
  - rewrite creator_loop_step.
    set (req := probe_of apiUrl apiPath endpoint options).
    assert (Hgo : exists n,
      (n <= length (apiPath :: rest))%nat /\ (apiPath :: rest <> [] -> (1 <= n)%nat) /\
      trace (snd (PlaneTicketCreator.apiRequest_loop fetch apiUrl rest lastPath endpoint
                    options (after fetch s req)))
      = trace s ++ calls endpoint options (take n (apiPath :: rest))).
    { destruct (IH (after fetch s req)) as (n & Hn & _ & Ht).
      exists (S n). cbn [length take map]. rewrite Ht. cbn [after trace].
      rewrite <- app_assoc. repeat split; lia. }
    assert (Hstop : exists n,
      (n <= length (apiPath :: rest))%nat /\ (apiPath :: rest <> [] -> (1 <= n)%nat) /\
      trace (after fetch s req) = trace s ++ calls endpoint options (take n (apiPath :: rest))).
    { exists 1%nat. cbn [length take map after trace]. rewrite take_0.
      repeat split; lia. }
    destruct (PlaneAgent.verdict _ _) as [[| v] | e]; [exact Hgo | exact Hstop |].
    destruct (String.eqb apiPath lastPath); [exact Hstop | exact Hgo].
Qed.

(** X8.  Whatever the remote side does, a call sends its requests to the
    candidate prefixes in their fixed order, starting from the first and
    without gap or repetition: between one and four requests for [request],
    between one and three for [apiRequest], and nothing else is added to the
    trace. *)
Theorem calls_follow_the_candidate_order
    (endpoint : string) (options : Options) (s : Sys W) :
  (exists n,
     (1 <= n <= 4)%nat /\
     trace (snd (PlaneAgent.request fetch apiUrl endpoint options s))
     = trace s ++ calls endpoint options (take n PlaneAgent.apiPaths)) /\
  (exists n,
     (1 <= n <= 3)%nat /\
     trace (snd (PlaneTicketCreator.apiRequest fetch apiUrl endpoint options s))
     = trace s ++ calls endpoint options (take n PlaneTicketCreator.apiPaths)).
Proof.
  split.
  - destruct (agent_loop_calls_prefix PlaneAgent.apiPaths (List.last PlaneAgent.apiPaths "")
                endpoint options s) as (n & Hn & H1 & Ht).
    exists n. split; [| exact Ht]. cbn in Hn. split; [apply H1; discriminate | exact Hn].
  - destruct (creator_loop_calls_prefix PlaneTicketCreator.apiPaths
                (List.last PlaneTicketCreator.apiPaths "") endpoint options s)
      as (n & Hn & H1 & Ht).
    exists n. split; [| exact Ht]. cbn in Hn. split; [apply H1; discriminate | exact Hn].
Qed.

Lemma agent_loop_throw (paths : list string) (lastPath endpoint : string)
    (options : Options) (s s' : Sys W) (e : JsError) :
  lastPath ∉ paths ->
  PlaneAgent.request_loop fetch apiUrl (paths ++ [lastPath]) lastPath endpoint options s
    = (Throw e, s') ->
  trace s' = trace s ++ calls endpoint options (paths ++ [lastPath]) /\
  exists w,
    PlaneAgent.verdict PlaneAgent.judge
      (fst (fetch (probe_of apiUrl lastPath endpoint options) w)) = Throw e.
Proof.
  revert s. induction paths as [| apiPath rest IH]; intros s Hnot.
  - cbn [app]. rewrite agent_loop_step. unfold answer.
    destruct (PlaneAgent.verdict _ _) as [[| v] | e0] eqn:Hv; try discriminate.
    rewrite String.eqb_refl. intros [= <- <-]. split; [reflexivity | eauto].
  - cbn [app]. rewrite agent_loop_step.
    assert (Hne : String.eqb apiPath lastPath = false).
    { apply String.eqb_neq. intros ->. apply Hnot. left. }
    assert (Hrest : lastPath ∉ rest).
    { intros Hin. apply Hnot. right. exact Hin. }
    rewrite Hne.
    destruct (PlaneAgent.verdict _ _) as [[| v] | e0]; try discriminate;
      intros Hrun; destruct (IH _ Hrest Hrun) as [Ht Hw];
      (split; [| exact Hw]); rewrite Ht; cbn [after trace map app];
      rewrite <- app_assoc; reflexivity.
Qed.

(** X9.  [request] throws only from its last candidate: when it throws,
    all four candidates have been called, in order, and the error is the one
    the [try] block raised for the last of them. *)
Theorem request_throws_only_after_the_last_candidate
    (endpoint : string) (options : Options) (s s' : Sys W) (e : JsError) :
  PlaneAgent.request fetch apiUrl endpoint options s = (Throw e, s') ->
  trace s' = trace s ++ calls endpoint options PlaneAgent.apiPaths /\
  exists w,
    PlaneAgent.verdict PlaneAgent.judge
      (fst (fetch (probe_of apiUrl "" endpoint options) w)) = Throw e.
Proof.
  apply (agent_loop_throw ["/api/v1"; "/api"; "/api/public"] "").
  rewrite !elem_of_cons, elem_of_nil. intuition discriminate.
Qed.

Lemma creator_loop_returns (paths : list string) (lastPath endpoint : string)
    (options : Options) (s : Sys W) :
  exists v s',
    PlaneTicketCreator.apiRequest_loop fetch apiUrl paths lastPath endpoint options s
    = (Ret v, s').
Proof.
  revert s. induction paths as [| apiPath rest IH]; intros s.
  - eexists _, _. reflexivity.
  - rewrite creator_loop_step.
    destruct (PlaneAgent.verdict _ _) as [[| v] | e]; [apply IH | eauto |].
    destruct (String.eqb apiPath lastPath); [eauto | apply IH].
Qed.

(** X10.  [apiRequest] never throws, whatever the remote side does: every
    call returns a value, [null] or [undefined]. *)
Theorem apiRequest_never_throws (endpoint : string) (options : Options) (s : Sys W) :
  exists v s', PlaneTicketCreator.apiRequest fetch apiUrl endpoint options s = (Ret v, s').
Proof. apply creator_loop_returns. Qed.

Lemma agent_loop_all_rejected (paths : list string) (lastPath endpoint : string)
    (options : Options) (e : JsError) (s : Sys W) :
  lastPath ∉ paths ->
  (forall q w, q ∈ paths ->
     exists e', fst (fetch (probe_of apiUrl q endpoint options) w) = Rejected e') ->
  (forall w, fst (fetch (probe_of apiUrl lastPath endpoint options) w) = Rejected e) ->
  exists s',
    PlaneAgent.request_loop fetch apiUrl (paths ++ [lastPath]) lastPath endpoint options s
      = (Throw e, s') /\
    trace s' = trace s ++ calls endpoint options (paths ++ [lastPath]).
Proof.
  intros Hnot Hpaths Hlast. revert s.
  induction paths as [| apiPath rest IH]; intros s.
  - cbn [app]. rewrite agent_loop_step. unfold answer. rewrite Hlast.
    cbn [PlaneAgent.verdict]. rewrite String.eqb_refl. eexists. split; reflexivity.
  - cbn [app]. rewrite agent_loop_step. unfold answer.
    destruct (Hpaths apiPath (world s)) as [e' ->]; [left |].
    cbn [PlaneAgent.verdict].
    assert (Hne : String.eqb apiPath lastPath = false).
    { apply String.eqb_neq. intros ->. apply Hnot. left. }
    rewrite Hne.
    destruct (IH (fun Hin => Hnot (list_elem_of_further _ _ _ Hin))
                (fun q w Hq => Hpaths q w (list_elem_of_further _ _ _ Hq))
                (after fetch s (probe_of apiUrl apiPath endpoint options)))
      as (s' & -> & Ht).
    exists s'. split; [reflexivity |].
    rewrite Ht. cbn [after trace map app]. rewrite <- app_assoc. reflexivity.
Qed.

Lemma creator_loop_all_rejected (paths : list string) (lastPath endpoint : string)
    (options : Options) (s : Sys W) :
  lastPath ∉ paths ->
  (forall q w, q ∈ paths ++ [lastPath] ->
     exists e', fst (fetch (probe_of apiUrl q endpoint options) w) = Rejected e') ->
  exists s',
    PlaneTicketCreator.apiRequest_loop fetch apiUrl (paths ++ [lastPath]) lastPath endpoint
      options s = (Ret (Some JNull), s') /\
    trace s' = trace s ++ calls endpoint options (paths ++ [lastPath]).
Proof.
  intros Hnot Hpaths. revert s.
  induction paths as [| apiPath rest IH]; intros s.
  - cbn [app]. rewrite creator_loop_step. unfold answer.
    destruct (Hpaths lastPath (world s)) as [e' ->]; [left |].
    cbn [PlaneAgent.verdict]. rewrite String.eqb_refl. eexists. split; reflexivity.
  - cbn [app]. rewrite creator_loop_step. unfold answer.
    destruct (Hpaths apiPath (world s)) as [e' ->]; [left |].
    cbn [PlaneAgent.verdict].
    assert (Hne : String.eqb apiPath lastPath = false).
    { apply String.eqb_neq. intros ->. apply Hnot. left. }
    rewrite Hne.
    destruct (IH (fun Hin => Hnot (list_elem_of_further _ _ _ Hin))
                (fun q w Hq => Hpaths q w (list_elem_of_further _ _ _ Hq))
                (after fetch s (probe_of apiUrl apiPath endpoint options)))
      as (s' & -> & Ht).
    exists s'. split; [reflexivity |].
    rewrite Ht. cbn [after trace map app]. rewrite <- app_assoc. reflexivity.
Qed.

(** X11.  When the tracker cannot be reached at all ([fetch] rejects for
    every candidate), [request] calls all four candidates and throws the
    error of the last one, while [apiRequest] calls its three candidates and
    returns [null]. *)
Theorem unreachable_tracker
    (endpoint : string) (options : Options) (e : JsError) (s : Sys W) :
  (forall q w, q ∈ PlaneAgent.apiPaths ->
     exists e', fst (fetch (probe_of apiUrl q endpoint options) w) = Rejected e') ->
  (forall w, fst (fetch (probe_of apiUrl "" endpoint options) w) = Rejected e) ->
  (exists s',
     PlaneAgent.request fetch apiUrl endpoint options s = (Throw e, s') /\
     trace s' = trace s ++ calls endpoint options PlaneAgent.apiPaths) /\
  (exists s',
     PlaneTicketCreator.apiRequest fetch apiUrl endpoint options s = (Ret (Some JNull), s') /\
     trace s' = trace s ++ calls endpoint options PlaneTicketCreator.apiPaths).
Proof.
  intros Hall Hlast. split.
  - apply (agent_loop_all_rejected ["/api/v1"; "/api"; "/api/public"] "").
    + rewrite !elem_of_cons, elem_of_nil. intuition discriminate.
    + intros q w Hq. apply Hall. unfold PlaneAgent.apiPaths.
      rewrite !elem_of_cons in Hq. rewrite !elem_of_cons. tauto.
    + exact Hlast.
  - apply (creator_loop_all_rejected ["/api/v1"; "/api"] "/api/public").
    + rewrite !elem_of_cons, elem_of_nil. intuition discriminate.
    + intros q w Hq. apply Hall. unfold PlaneAgent.apiPaths.
      cbn [app] in Hq. rewrite !elem_of_cons in Hq. rewrite !elem_of_cons. tauto.
Qed.

(** X12.  [testConnection] never throws; it answers [false] exactly when
    [getWorkspaces] throws.  In particular it answers [true] when every
    candidate prefix answers 404, although no endpoint was found. *)
Theorem testConnection_reports (s : Sys W) :
  (exists b s',
     PlaneAgent.testConnection fetch apiUrl s = (Ret b, s') /\
     (b = false <-> exists e, fst (PlaneAgent.getWorkspaces fetch apiUrl s) = Throw e)) /\
  ((forall q w, q ∈ PlaneAgent.apiPaths ->
      exists r, fst (fetch (probe_of apiUrl q "/workspaces/" no_options) w) = Resolved r /\
                status r = 404) ->
   fst (PlaneAgent.testConnection fetch apiUrl s) = Ret true).
Proof.
  split.
  - unfold PlaneAgent.testConnection, try_catch, bind.
    destruct (PlaneAgent.getWorkspaces fetch apiUrl s) as [[v | e] s1]; eexists _, _;
      (split; [reflexivity |]); cbn [fst]; split; intros H; try discriminate H; eauto.
    destruct H as [e H]. discriminate H.
  - intros H404. unfold PlaneAgent.testConnection, try_catch, bind, PlaneAgent.getWorkspaces.
    destruct (agent_loop_all_404 fetch apiUrl PlaneAgent.apiPaths
                (List.last PlaneAgent.apiPaths "") "/workspaces/" no_options s H404)
      as (s' & Hrun & _).
    unfold PlaneAgent.request. rewrite Hrun. reflexivity.
Qed.

End DiscoveryFacts.

Section DiscoveryFactsScenarios.

Import Scenarios.

Lemma first_json_answer_ends_the_probe_witness :
  exists s',
    PlaneAgent.request third_serves base "/workspaces/" no_options start
      = (Ret (Some (issue "x")), s') /\
    trace s' = trace start ++
      map (fun apiPath => EvFetch (probe_of base apiPath "/workspaces/" no_options))
        (["/api/v1"; "/api"] ++ ["/api/public"]).
Proof.
  refine (proj1 (first_json_answer_ends_the_probe third_serves base ["/api/v1"; "/api"]
                   "/api/public" [""] "/workspaces/" no_options (issue "x") start _ _)
            eq_refl).
  - intros q w Hq. exists (plain 404 "Not Found").
    rewrite !elem_of_cons, elem_of_nil in Hq.
    destruct Hq as [-> | [-> | []]]; split; reflexivity.
  - intros w. exists (json_issue "x"). repeat split; reflexivity.
Defined.

Lemma request_throws_only_after_the_last_candidate_witness :
  trace (snd (PlaneAgent.request forbidden_last base "/workspaces/" no_options start))
    = trace start ++
      map (fun apiPath => EvFetch (probe_of base apiPath "/workspaces/" no_options))
        PlaneAgent.apiPaths.
Proof.
  refine (proj1 (request_throws_only_after_the_last_candidate forbidden_last base
                   "/workspaces/" no_options start
                   (snd (PlaneAgent.request forbidden_last base "/workspaces/" no_options
                           start))
                   (Error "API error 403: Forbidden") _)).
  vm_compute. reflexivity.
Defined.

Lemma unreachable_tracker_witness :
  exists s',
    PlaneAgent.request unreachable base "/workspaces/" no_options start
      = (Throw (Error "fetch failed"), s') /\
    trace s' = trace start ++
      map (fun apiPath => EvFetch (probe_of base apiPath "/workspaces/" no_options))
        PlaneAgent.apiPaths.
Proof.
  refine (proj1 (unreachable_tracker unreachable base "/workspaces/" no_options
                   (Error "fetch failed") start _ _)).
  - intros q w _. exists (Error "fetch failed"). reflexivity.
  - intros w. reflexivity.
Defined.

Lemma testConnection_reports_witness :
  fst (PlaneAgent.testConnection not_found base start) = Ret true.
Proof.
  refine (proj2 (testConnection_reports not_found base start) _).
  intros q w _. exists (plain 404 "Not Found"). split; reflexivity.
Defined.

End DiscoveryFactsScenarios.

(** *** More on ticket submission and the batch *)

Section TicketFacts.

Context {W : Type} (fetch : Request -> W -> FetchResult * W) (apiUrl : string).
Context (workspaceSlug projectId : string).

Local Abbreviation createIssue := (PlaneAgent.createIssue fetch apiUrl workspaceSlug projectId).
Local Abbreviation addComment := (PlaneAgent.addComment fetch apiUrl workspaceSlug projectId).
Local Abbreviation createAITicket :=
  (PlaneAgent.createAITicket fetch apiUrl workspaceSlug projectId).
Local Abbreviation tickets_loop := (PlaneAgent.tickets_loop fetch apiUrl workspaceSlug projectId).
Local Abbreviation createTicketsFromList :=
  (PlaneAgent.createTicketsFromList fetch apiUrl workspaceSlug projectId).

Lemma strip_appended_slash (u : string) : stripTrailingSlash (u +:+ "/") = u.
Proof.
  induction u as [| c r IH]; [reflexivity |].
  change (String c r +:+ "/") with (String c (r +:+ "/")). cbn [stripTrailingSlash].
  rewrite IH. destruct r; reflexivity.
Qed.

Lemma strip_removes_at_most_one_slash (s : string) :
  stripTrailingSlash s = s \/ s = stripTrailingSlash s +:+ "/".
Proof.
  induction s as [| c r IH]; [left; reflexivity |].
  cbn [stripTrailingSlash]. destruct r as [| d r'].
  - destruct (Ascii.eqb_spec c "/") as [-> | _]; [right | left]; reflexivity.
  - destruct IH as [IH | IH]; [left | right].
    + rewrite IH. reflexivity.
    + change (String c (stripTrailingSlash (String d r')) +:+ "/")
        with (String c (stripTrailingSlash (String d r') +:+ "/")).
      rewrite <- IH. reflexivity.
Qed.

(** X13.  The constructor removes one slash at the end of the base URL and
    nothing else: a URL given with a trailing slash is stored without it,
    and every other URL is stored unchanged. *)
Theorem constructor_drops_one_trailing_slash :
  (forall u, PlaneAgent.constructor_apiUrl (u +:+ "/") = u) /\
  (forall s, PlaneAgent.constructor_apiUrl s = s \/
             s = PlaneAgent.constructor_apiUrl s +:+ "/").
Proof.
  split; [apply strip_appended_slash | apply strip_removes_at_most_one_slash].
Qed.

Lemma waits_app (t u : list Event) : waits (t ++ u) = (waits t + waits u)%nat.
Proof. unfold waits. rewrite List.filter_app, length_app. reflexivity. Qed.

Lemma waits_calls (endpoint : string) (options : Options) (paths : list string) :
  waits (map (fun apiPath => EvFetch (probe_of apiUrl apiPath endpoint options)) paths) = 0%nat.
Proof. induction paths as [| q rest IH]; [reflexivity | exact IH]. Qed.

Lemma request_does_not_wait (endpoint : string) (options : Options) (s : Sys W) :
  waits (trace (snd (PlaneAgent.request fetch apiUrl endpoint options s))) = waits (trace s).
Proof.
  destruct (agent_loop_calls_prefix fetch apiUrl PlaneAgent.apiPaths
              (List.last PlaneAgent.apiPaths "") endpoint options s) as (n & _ & _ & Ht).
  unfold PlaneAgent.request. rewrite Ht, waits_app, waits_calls. lia.
Qed.

Lemma addComment_does_not_wait (id : Value) (comment : string) (s : Sys W) :
  waits (trace (snd (addComment id comment s))) = waits (trace s).
Proof.
  unfold PlaneAgent.addComment, bind, lift.
  destruct (toString id) as [text | e]; [apply request_does_not_wait | reflexivity].
Qed.

Lemma createAITicket_does_not_wait (prompt : string) (s : Sys W) :
  waits (trace (snd (createAITicket prompt s))) = waits (trace s).
Proof.
  rewrite createAITicket_run.
  pose proof (request_does_not_wait
    ("/workspaces/" +:+ workspaceSlug +:+ "/projects/" +:+ projectId +:+ "/issues/")
    (mkOptions (Some "POST")
       (Some (PlaneAgent.issueData (PlaneAgent.analyzePrompt prompt)))) s) as Hcreate.
  fold (createIssue (PlaneAgent.issueData (PlaneAgent.analyzePrompt prompt))) in Hcreate.
  destruct (createIssue _ s) as [[issue | e] s1]; cbn [snd] in *; [| exact Hcreate].
  destruct (truthy issue && truthy (member issue "id")); [| exact Hcreate].
  match goal with
  | |- context [PlaneAgent.addComment _ _ _ _ ?id ?c s1] =>
      pose proof (addComment_does_not_wait id c s1) as Hcomment;
      destruct (addComment id c s1) as [[? | ?] s2]
  end; cbn [snd] in *; lia.
Qed.

(** X14.  The batch waits once per successful submission and never
    otherwise: the number of waits it adds to the trace is the number of
    success entries in its result. *)
Theorem batch_waits_once_per_success (ticketList : list string) (s : Sys W) :
  exists results s',
    createTicketsFromList ticketList s = (Ret results, s') /\
    waits (trace s') =
      (waits (trace s) + length (List.filter PlaneAgent.success results))%nat.
Proof.
  revert s. induction ticketList as [| p rest IH]; intros s.
  - exists [], s. split; [reflexivity | cbn; lia].
  - pose proof (createAITicket_does_not_wait p s) as Hw.
    destruct (createAITicket p s) as [[ticket | e] s1] eqn:Hrun; cbn [snd] in Hw.
    + destruct (batch_after_success fetch apiUrl workspaceSlug projectId p rest s s1 ticket
                  Hrun) as (entries & s' & Hrest & Hall).
      destruct (IH (snd (sleep 1000 s1))) as (entries' & s'' & Hrest' & Hcount).
      rewrite Hrest in Hrest'. injection Hrest' as <- <-.
      exists (PlaneAgent.Created ticket p :: entries), s'. split; [exact Hall |].
      rewrite Hcount. cbn [sleep emit snd trace List.filter PlaneAgent.success length].
      rewrite waits_app. cbn. lia.
    + destruct (batch_after_failure fetch apiUrl workspaceSlug projectId p rest s s1 e Hrun)
        as (entries & s' & Hrest & Hall).
      destruct (IH s1) as (entries' & s'' & Hrest' & Hcount).
      rewrite Hrest in Hrest'. injection Hrest' as <- <-.
      exists (PlaneAgent.Failed (message e) p :: entries), s'. split; [exact Hall |].
      rewrite Hcount. cbn [List.filter PlaneAgent.success]. lia.
Qed.

Lemma tickets_loop_app (first second : list string) :
  forall (results : list PlaneAgent.Entry) (s : Sys W),
  tickets_loop (first ++ second) results s =
  match tickets_loop first results s with
  | (Ret results1, s1) => tickets_loop second results1 s1
  | (Throw e, s1) => (Throw e, s1)
  end.
Proof.
  induction first as [| p rest IH]; intros results s; [reflexivity |].
  cbn [app]. rewrite !tickets_loop_step.
  destruct (createAITicket p s) as [[ticket | e] s1]; apply IH.
Qed.

(** X15.  Running the batch on a list is running it on a first part and
    then, from the state reached, on the rest: the results are the two
    results one after the other. *)
Theorem batch_of_two_parts (first second : list string)
    (s s1 s2 : Sys W) (results1 results2 : list PlaneAgent.Entry) :
  createTicketsFromList first s = (Ret results1, s1) ->
  createTicketsFromList second s1 = (Ret results2, s2) ->
  createTicketsFromList (first ++ second) s = (Ret (results1 ++ results2), s2).
Proof.
  unfold PlaneAgent.createTicketsFromList. intros H1 H2.
  rewrite tickets_loop_app, H1.
  destruct (tickets_loop_appends fetch apiUrl workspaceSlug projectId second results1 s1)
    as (entries & s' & Hacc & Hnil & _).
  rewrite H2 in Hnil. injection Hnil as <- <-. exact Hacc.
Qed.

Lemma createAITicket_without_routes (prompt : string) (s : Sys W) :
  (forall req w, exists r, fst (fetch req w) = Resolved r /\ status r = 404) ->
  exists s',
    createAITicket prompt s = (Ret undefined, s') /\
    trace s' = trace s ++
      map (fun apiPath =>
             EvFetch (probe_of apiUrl apiPath
                        ("/workspaces/" +:+ workspaceSlug +:+ "/projects/" +:+ projectId +:+
                         "/issues/")
                        (mkOptions (Some "POST")
                           (Some (PlaneAgent.issueData (PlaneAgent.analyzePrompt prompt))))))
          PlaneAgent.apiPaths.
Proof.
  intros H404. rewrite createAITicket_run.
  destruct (agent_loop_all_404 fetch apiUrl PlaneAgent.apiPaths
              (List.last PlaneAgent.apiPaths "")
              ("/workspaces/" +:+ workspaceSlug +:+ "/projects/" +:+ projectId +:+ "/issues/")
              (mkOptions (Some "POST")
                 (Some (PlaneAgent.issueData (PlaneAgent.analyzePrompt prompt)))) s)
    as (s' & Hrun & Ht).
  { intros q w _. apply H404. }
  unfold PlaneAgent.createIssue, PlaneAgent.request. rewrite Hrun. cbn [truthy andb].
  exists s'. split; [reflexivity | exact Ht].
Qed.

(** X16.  Against a tracker on which every request is answered 404, a
    submission calls the four candidate URLs for the issue, posts no
    comment, and returns [undefined] without throwing; the batch therefore
    records every prompt as a success whose ticket is [undefined]. *)
Theorem batch_without_routes_reports_success (ticketList : list string) (s : Sys W) :
  (forall req w, exists r, fst (fetch req w) = Resolved r /\ status r = 404) ->
  (forall prompt s0, exists s',
     createAITicket prompt s0 = (Ret undefined, s') /\
     trace s' = trace s0 ++
       map (fun apiPath =>
              EvFetch (probe_of apiUrl apiPath
                         ("/workspaces/" +:+ workspaceSlug +:+ "/projects/" +:+ projectId +:+
                          "/issues/")
                         (mkOptions (Some "POST")
                            (Some (PlaneAgent.issueData (PlaneAgent.analyzePrompt prompt))))))
           PlaneAgent.apiPaths) /\
  fst (createTicketsFromList ticketList s)
    = Ret (map (PlaneAgent.Created undefined) ticketList).
Proof.
  intros H404. split.
  - intros prompt s0. apply createAITicket_without_routes, H404.
  - revert s. induction ticketList as [| p rest IH]; intros s; [reflexivity |].
    destruct (createAITicket_without_routes p s H404) as (s1 & Hrun & _).
    destruct (batch_after_success fetch apiUrl workspaceSlug projectId p rest s s1 undefined
                Hrun) as (entries & s' & Hrest & Hall).
    rewrite Hall. specialize (IH (snd (sleep 1000 s1))). rewrite Hrest in IH.
    cbn [fst] in *. injection IH as ->. reflexivity.
Qed.

End TicketFacts.

Section TicketFactsScenarios.

Import Scenarios.

Lemma batch_of_two_parts_witness :
  fst (PlaneAgent.createTicketsFromList (rejects "second") base "indigo" "p1"
         (["first"] ++ ["second"; "third"]) start)
    = Ret ([PlaneAgent.Created (Some (issue "7")) "first"] ++
           [PlaneAgent.Failed "API error 500: Internal Server Error" "second";
            PlaneAgent.Created (Some (issue "7")) "third"]).
Proof.
  pose (run1 := PlaneAgent.createTicketsFromList (rejects "second") base "indigo" "p1"
                  ["first"] start).
  pose (run2 := PlaneAgent.createTicketsFromList (rejects "second") base "indigo" "p1"
                  ["second"; "third"] (snd run1)).
  refine (f_equal fst
    (batch_of_two_parts (rejects "second") base "indigo" "p1" ["first"] ["second"; "third"]
       start (snd run1) (snd run2) _ _ _ _)); vm_compute; reflexivity.
Defined.

Lemma batch_without_routes_reports_success_witness :
  fst (PlaneAgent.createTicketsFromList not_found base "indigo" "p1"
         ["Add dark mode"; "Fix mobile layout"] start)
    = Ret [PlaneAgent.Created undefined "Add dark mode";
           PlaneAgent.Created undefined "Fix mobile layout"].
Proof.
  refine (proj2 (batch_without_routes_reports_success not_found base "indigo" "p1"
                   ["Add dark mode"; "Fix mobile layout"] start _)).
  intros req w. exists (plain 404 "Not Found"). split; reflexivity.
Defined.

End TicketFactsScenarios.

(** *** More on the webhook listener *)

Section WebhookFacts.

Context {W : Type}.

Local Abbreviation plane_webhook := (WebhookListener.plane_webhook (W := W)).

Lemma prop_returns (v : Value) (key : string) :
  nullish v = false -> prop v key = Ret (member v key).
Proof. destruct v as [[] |]; cbn; congruence. Qed.

Lemma prop_throws (v : Value) (key : string) :
  nullish v = true -> exists e, prop v key = Throw e.
Proof. destruct v as [[] |]; cbn; try discriminate; eauto. Qed.

Lemma or_empty_string (description : Value) :
  negb (truthy description) || is_string description = true ->
  exists d, WebhookListener.or_empty description = Some (JStr d).
Proof.
  unfold WebhookListener.or_empty.
  destruct (truthy description); cbn [negb orb]; [| eauto].
  destruct description as [[| b | r | d | items | o] |]; cbn; try discriminate; eauto.
Qed.

Lemma or_empty_not_string (description : Value) :
  negb (truthy description) || is_string description = false ->
  exists e, WebhookListener.categorizeIssue (WebhookListener.or_empty description) = Throw e.
Proof.
  unfold WebhookListener.or_empty.
  destruct (truthy description); cbn [negb orb]; [| discriminate].
  destruct description as [[| b | r | d | items | o] |]; cbn; try discriminate; eauto.
Qed.

(** The [issue.created] handler returns exactly when [data] can be read,
    its description is missing, falsy or a string, and its name has a
    text. *)
Lemma handleIssueCreated_outcome (data : Value) (s : Sys W) :
  if negb (nullish data) &&
     (negb (truthy (member data "description")) || is_string (member data "description")) &&
     printable (member data "name")
  then exists s', WebhookListener.handleIssueCreated data s = (Ret tt, s')
  else exists e s', WebhookListener.handleIssueCreated data s = (Throw e, s').
Proof.
  unfold WebhookListener.handleIssueCreated, WebhookListener.addAIAnalysisComment.
  unfold bind at 1, lift at 1.
  destruct (nullish data) eqn:Hn; cbn [negb andb].
  - destruct (prop_throws data "name" Hn) as [e ->]. eauto.
  - rewrite (prop_returns data "name" Hn).
    destruct (negb (truthy (member data "description")) ||
              is_string (member data "description")) eqn:Ht; cbn [andb].
    + destruct (or_empty_string _ Ht) as [d Hd]. rewrite Hd.
      unfold printable, WebhookListener.suggestPriority.
      unfold bind, lift, WebhookListener.console, emit.
      cbn [WebhookListener.categorizeIssue WebhookListener.string_method
           WebhookListener.estimateComplexity].
      destruct (toString (member data "name")) as [t | e]; cbn [toString json_toString]; eauto.
    + destruct (or_empty_not_string _ Ht) as [e He].
      unfold bind, lift, WebhookListener.console, emit. rewrite He. eauto.
Qed.

Lemma reads_name_outcome (data : Value) (line : Value -> ConsoleLine) (s : Sys W) :
  (let* name := lift (prop data "name") in WebhookListener.console (line name)) s =
  if nullish data
  then (match prop data "name" with Throw e => Throw e | Ret _ => Ret tt end, s)
  else (Ret tt, mkSys (world s) (trace s ++ [EvConsole (line (member data "name"))])).
Proof.
  unfold bind, lift. destruct (nullish data) eqn:Hn.
  - destruct (prop_throws data "name" Hn) as [e ->]. reflexivity.
  - rewrite (prop_returns data "name" Hn). reflexivity.
Qed.

(** X17.  An [issue.created] event is answered 200 exactly when its [data]
    is neither missing nor [null], the description in it is missing, falsy
    or a string, and the name in it has a text (it is not, and as an array
    does not contain, an object with a [toString] property of its own);
    otherwise (for instance a numeric description) the analysis throws and
    the answer is 500. *)
Theorem issue_created_is_accepted_when_analysable
    (req_body : gmap string JSON) (s : Sys W) :
  req_body !! "event_type" = Some (JStr "issue.created") ->
  exists reply s',
    plane_webhook req_body s = (Ret reply, s') /\
    WebhookListener.code reply =
      if negb (nullish (req_body !! "data")) &&
         (negb (truthy (member (req_body !! "data") "description")) ||
          is_string (member (req_body !! "data") "description")) &&
         printable (member (req_body !! "data") "name")
      then 200 else 500.
Proof.
  intros Htag. rewrite plane_webhook_run by (rewrite Htag; reflexivity). rewrite Htag.
  change (WebhookListener.dispatch (Some (JStr "issue.created")) (req_body !! "data"))
    with (WebhookListener.handleIssueCreated (W := W) (req_body !! "data")).
  match goal with
  | |- context [WebhookListener.handleIssueCreated ?d ?st] =>
      pose proof (handleIssueCreated_outcome d st) as H
  end.
  destruct (negb (nullish (req_body !! "data")) && _ && _).
  - destruct H as [s1 ->]. eexists _, _. split; reflexivity.
  - destruct H as (e & s1 & ->). eexists _, _. split; reflexivity.
Qed.

(** X18.  An [issue_comment.created] event is answered 200 whatever it
    carries.  An [issue.updated] or [project.created] event is answered 200
    exactly when its [data] is neither missing nor [null], and 500
    otherwise. *)
Theorem other_events_are_accepted_when_readable
    (req_body : gmap string JSON) (s : Sys W) :
  (req_body !! "event_type" = Some (JStr "issue_comment.created") ->
   exists reply s',
     plane_webhook req_body s = (Ret reply, s') /\ WebhookListener.code reply = 200) /\
  (req_body !! "event_type" = Some (JStr "issue.updated") \/
   req_body !! "event_type" = Some (JStr "project.created") ->
   exists reply s',
     plane_webhook req_body s = (Ret reply, s') /\
     WebhookListener.code reply = if nullish (req_body !! "data") then 500 else 200).
Proof.
  split.
  - intros Htag. rewrite plane_webhook_run by (rewrite Htag; reflexivity).
    rewrite Htag. eexists _, _. split; reflexivity.
  - intros [Htag | Htag]; (rewrite plane_webhook_run by (rewrite Htag; reflexivity));
      rewrite Htag.
    + change (WebhookListener.dispatch (Some (JStr "issue.updated")) (req_body !! "data"))
        with (WebhookListener.handleIssueUpdated (W := W) (req_body !! "data")).
      unfold WebhookListener.handleIssueUpdated. rewrite reads_name_outcome.
      destruct (nullish (req_body !! "data")) eqn:Hn.
      * destruct (prop_throws _ "name" Hn) as [e ->]. eexists _, _. split; reflexivity.
      * eexists _, _. split; reflexivity.
    + change (WebhookListener.dispatch (Some (JStr "project.created")) (req_body !! "data"))
        with (WebhookListener.handleProjectCreated (W := W) (req_body !! "data")).
      unfold WebhookListener.handleProjectCreated. rewrite reads_name_outcome.
      destruct (nullish (req_body !! "data")) eqn:Hn.
      * destruct (prop_throws _ "name" Hn) as [e ->]. eexists _, _. split; reflexivity.
      * eexists _, _. split; reflexivity.
Qed.

End WebhookFacts.

Section WebhookFactsScenarios.

Import Scenarios.

Lemma issue_created_is_accepted_when_analysable_witness :
  exists reply s',
    WebhookListener.plane_webhook issue_with_numeric_description start = (Ret reply, s') /\
    WebhookListener.code reply = 500.
Proof.
  exact (issue_created_is_accepted_when_analysable issue_with_numeric_description start
           eq_refl).
Defined.

Lemma other_events_are_accepted_when_readable_witness :
  exists reply s',
    WebhookListener.plane_webhook issue_updated start = (Ret reply, s') /\
    WebhookListener.code reply = 200.
Proof.
  exact (proj2 (other_events_are_accepted_when_readable issue_updated start)
           (or_introl eq_refl)).
Defined.

End WebhookFactsScenarios.

Section WebhookClassifierFacts.

Lemma prefix_append (k s t : string) :
  String.prefix k s = true -> String.prefix k (s +:+ t) = true.
Proof.
  revert s. induction k as [| a k IH]; intros s.
  { intros _. destruct (s +:+ t); reflexivity. }
  destruct s as [| b s]; cbn [String.prefix]; [discriminate |].
  change (String b s +:+ t) with (String b (s +:+ t)). cbn [String.prefix].
  destruct (ascii_dec a b); [apply IH | discriminate].
Qed.

Lemma includes_append_l (s t k : string) :
  includes s k = true -> includes (s +:+ t) k = true.
Proof.
  induction s as [| c r IH]; cbn [includes].
  - rewrite orb_false_r. intros H. destruct k; [| discriminate H].
    destruct t; reflexivity.
  - intros H. apply orb_true_iff in H.
    change (String c r +:+ t) with (String c (r +:+ t)). cbn [includes].
    apply orb_true_iff. destruct H as [H | H].
    + left. apply (prefix_append k (String c r) t H).
    + right. apply IH, H.
Qed.

Lemma includes_append_r (s t k : string) :
  includes t k = true -> includes (s +:+ t) k = true.
Proof.
  intros H. induction s as [| c r IH]; [exact H |].
  change (String c r +:+ t) with (String c (r +:+ t)). cbn [includes].
  rewrite IH. apply orb_true_r.
Qed.

Lemma toLowerCase_append (s t : string) :
  toLowerCase (s +:+ t) = toLowerCase s +:+ toLowerCase t.
Proof.
  induction s as [| c r IH]; [reflexivity |].
  change (String c r +:+ t) with (String c (r +:+ t)). cbn [toLowerCase].
  rewrite IH. reflexivity.
Qed.

(** X19.  For a title and a description that have a text,
    [suggestPriority] answers HIGH whenever "urgent", "critical" or "crash"
    occurs, in any case, in the text of the title or of the description. *)
Theorem suggestPriority_high_on_urgency
    (title description : Value) (t d word : string) :
  toString title = Ret t ->
  toString description = Ret d ->
  In word ["urgent"; "critical"; "crash"] ->
  includes (toLowerCase t) word = true \/ includes (toLowerCase d) word = true ->
  WebhookListener.suggestPriority title description = Ret "HIGH".
Proof.
  intros Htitle Hdescription Hword Hfound.
  assert (H : includes (toLowerCase (t +:+ " " +:+ d)) word = true).
  { rewrite !toLowerCase_append. destruct Hfound as [Ht | Hd].
    - apply includes_append_l, Ht.
    - apply includes_append_r, includes_append_r, Hd. }
  unfold WebhookListener.suggestPriority. rewrite Htitle, Hdescription.
  destruct Hword as [<- | [<- | [<- | []]]]; rewrite H; rewrite ?orb_true_r; reflexivity.
Qed.

Lemma suggestPriority_high_on_urgency_witness :
  WebhookListener.suggestPriority None (Some (JStr "App CRASHES on start")) = Ret "HIGH".
Proof.
  apply (suggestPriority_high_on_urgency None (Some (JStr "App CRASHES on start"))
           "undefined" "App CRASHES on start" "crash" eq_refl eq_refl).
  - right. right. left. reflexivity.
  - right. reflexivity.
Defined.

(** X20.  On a string [categorizeIssue] never throws and answers one of
    BUG, FEATURE, IMPROVEMENT, TASK and GENERAL; a bug keyword ("bug",
    "error", "issue", "problem", "broken") gives BUG whatever else the text
    contains, and a text with none of the seventeen keywords is GENERAL. *)
Theorem categorizeIssue_on_text (description : string) :
  In (WebhookListener.categorizeIssue (Some (JStr description)))
     [Ret "BUG"; Ret "FEATURE"; Ret "IMPROVEMENT"; Ret "TASK"; Ret "GENERAL"] /\
  (existsb (fun keyword => includes (toLowerCase description) keyword)
     ["bug"; "error"; "issue"; "problem"; "broken"] = true ->
   WebhookListener.categorizeIssue (Some (JStr description)) = Ret "BUG") /\
  (existsb (fun keyword => includes (toLowerCase description) keyword)
     (concat (map snd WebhookListener.categories)) = false ->
   WebhookListener.categorizeIssue (Some (JStr description)) = Ret "GENERAL").
Proof.
  unfold WebhookListener.categorizeIssue. cbn [WebhookListener.string_method].
  unfold WebhookListener.categories. cbn [WebhookListener.first_category].
  split; [| split].
  - repeat match goal with
           | |- context [if ?b then _ else _] => destruct b
           end; cbn; auto 8.
  - intros ->. reflexivity.
  - cbn [map snd concat app]. intros H.
    rewrite !(existsb_app _ [_; _; _; _; _]) in H || idtac.
    cbn [existsb] in *.
    repeat match type of H with
           | (_ || _) = false => apply orb_false_elim in H; destruct H as [? H]
           end.
    repeat match goal with E : includes _ _ = false |- _ => rewrite E; clear E end.
    rewrite ?H. reflexivity.
Qed.

Lemma categorizeIssue_on_text_witness :
  WebhookListener.categorizeIssue (Some (JStr "Add export; the old one is BROKEN"))
    = Ret "BUG".
Proof.
  apply (proj1 (proj2 (categorizeIssue_on_text "Add export; the old one is BROKEN"))).
  reflexivity.
Defined.

End WebhookClassifierFacts.

(** *** More on the deployment agent *)

Section RailwayFacts.

Context {W : Type} (fetch : Request -> W -> FetchResult * W).
Context (JSON_stringify : JSON -> string).

Local Abbreviation query := (RailwayAgent.query fetch JSON_stringify).
Local Abbreviation triggerDeployment :=
  (RailwayAgent.triggerDeployment fetch JSON_stringify).
Local Abbreviation getServiceDeployments :=
  (RailwayAgent.getServiceDeployments fetch JSON_stringify).
Local Abbreviation executeTicket := (RailwayAgent.executeTicket fetch JSON_stringify).

(** The one request [query] sends. *)
Local Abbreviation posted graphqlQuery variables :=
  (mkRequest RailwayAgent.RAILWAY_API_URL (Some "POST")
     (Some (literal [("query", Some (JStr graphqlQuery));
                     ("variables", Some (literal variables))]))).

(** [query], run from a state. *)
Lemma query_run (graphqlQuery : string) (variables : list (string * Value)) (s : Sys W) :
  query graphqlQuery variables s =
  (match answer fetch s (posted graphqlQuery variables) with
   | Rejected e => Throw e
   | Resolved r =>
       if negb (ok r)
       then Throw (Error ("Railway API error: " +:+ pretty (status r) +:+ " " +:+
                          statusText r))
       else match json r with
            | inl e => Throw e
            | inr result =>
                match prop (Some result) "errors" with
                | Throw e => Throw e
                | Ret errors =>
                    if truthy errors
                    then Throw (Error ("GraphQL errors: " +:+
                                       match errors with
                                       | Some e => JSON_stringify e
                                       | None => "undefined"
                                       end))
                    else prop (Some result) "data"
                end
            end
   end, after fetch s (posted graphqlQuery variables)).
Proof.
  unfold RailwayAgent.query, bind at 1, await_fetch, answer, after.
  destruct (fetch _ (world s)) as [[e | r] w']; cbn [fst snd]; [reflexivity |].
  destruct (negb (ok r)); [reflexivity |].
  unfold bind, await_json, lift, throw, ret.
  destruct (json r) as [e | result]; [reflexivity |].
  destruct (prop (Some result) "errors") as [errors | e]; [| reflexivity].
  destruct (truthy errors); reflexivity.
Qed.


Lemma triggerDeployment_state (serviceId : Value) (s : Sys W) :
  snd (triggerDeployment serviceId s)
  = after fetch s (posted RailwayAgent.REDEPLOY_MUTATION [("serviceId", serviceId)]).
Proof.
  unfold RailwayAgent.triggerDeployment, bind.
  pose proof (query_run RailwayAgent.REDEPLOY_MUTATION [("serviceId", serviceId)] s) as Hq.
  destruct (query _ _ s) as [[data | e] s1]; injection Hq as _ ->; reflexivity.
Qed.

Lemma getServiceDeployments_state (serviceId : Value) (s : Sys W) :
  snd (getServiceDeployments serviceId s)
  = after fetch s (posted RailwayAgent.SERVICE_QUERY [("serviceId", serviceId)]).
Proof.
  unfold RailwayAgent.getServiceDeployments, bind at 1.
  pose proof (query_run RailwayAgent.SERVICE_QUERY [("serviceId", serviceId)] s) as Hq.
  destruct (query _ _ s) as [[data | e] s1]; injection Hq as _ ->; [| reflexivity].
  unfold bind, lift, throw.
  destruct (prop data "service") as [service | e]; [| reflexivity].
  destruct (prop service "deployments") as [deployments | e]; [| reflexivity].
  destruct (prop deployments "edges") as [[[| b | r | str | items | o] |] | e];
    reflexivity.
Qed.

(** X22.  For a ticket whose [action] and [service] have a text,
    [executeTicket] returns a ticket whose [status] is "completed" or
    "failed", whatever the input's was.  A deploy or redeploy ticket sends
    exactly one request, the redeploy mutation for [ticket.serviceId]; a
    status ticket sends exactly one request, the service query for
    [ticket.serviceId]; any other action sends none.  Only [status],
    [error], [deploymentId] and [latestDeployment] can differ from the
    input ticket. *)
Theorem executeTicket_settles_the_status
    (ticket : gmap string Value) (s : Sys W) (action service : string) :
  toString (RailwayAgent.field ticket "action") = Ret action ->
  toString (RailwayAgent.field ticket "service") = Ret service ->
  exists result s',
    executeTicket ticket s = (Ret result, s') /\
    (result !! "status" = Some (Some (JStr "completed")) \/
     result !! "status" = Some (Some (JStr "failed"))) /\
    s' = (if RailwayAgent.is_action (RailwayAgent.field ticket "action") "deploy"
             || RailwayAgent.is_action (RailwayAgent.field ticket "action") "redeploy"
          then after fetch s (posted RailwayAgent.REDEPLOY_MUTATION
                                [("serviceId", RailwayAgent.field ticket "serviceId")])
          else if RailwayAgent.is_action (RailwayAgent.field ticket "action") "status"
          then after fetch s (posted RailwayAgent.SERVICE_QUERY
                                [("serviceId", RailwayAgent.field ticket "serviceId")])
          else s) /\
    (forall key,
       key <> "status" -> key <> "error" -> key <> "deploymentId" ->
       key <> "latestDeployment" ->
       result !! key = ticket !! key).
Proof.
  intros Haction Hservice.
  assert (Hfailed : forall e,
    (RailwayAgent.failed ticket e !! "status" = Some (Some (JStr "completed")) \/
     RailwayAgent.failed ticket e !! "status" = Some (Some (JStr "failed"))) /\
    (forall key, key <> "status" -> key <> "error" -> key <> "deploymentId" ->
                 key <> "latestDeployment" ->
                 RailwayAgent.failed ticket e !! key = ticket !! key)).
  { intros e. destruct (failed_fields ticket e) as (Hs & _ & Hk). split; [right; exact Hs |].
    intros key H1 H2 _ _. apply Hk; assumption. }
  assert (Hcompleted : forall field value,
    field = "deploymentId" \/ field = "latestDeployment" ->
    (RailwayAgent.completed ticket field value !! "status" = Some (Some (JStr "completed")) \/
     RailwayAgent.completed ticket field value !! "status" = Some (Some (JStr "failed"))) /\
    (forall key, key <> "status" -> key <> "error" -> key <> "deploymentId" ->
                 key <> "latestDeployment" ->
                 RailwayAgent.completed ticket field value !! key = ticket !! key)).
  { intros field value Hfield. unfold RailwayAgent.completed. split.
    - left. rewrite lookup_insert_ne by (destruct Hfield as [-> | ->]; discriminate).
      apply lookup_insert_eq.
    - intros key H1 _ H3 H4.
      rewrite !lookup_insert_ne by (destruct Hfield as [-> | ->]; congruence). reflexivity. }
  rewrite (executeTicket_run fetch JSON_stringify ticket s action service Haction Hservice).
  unfold try_catch.
  destruct (RailwayAgent.is_action (RailwayAgent.field ticket "action") "deploy"
            || RailwayAgent.is_action (RailwayAgent.field ticket "action") "redeploy").
  - unfold bind at 1.
    pose proof (triggerDeployment_state (RailwayAgent.field ticket "serviceId") s) as Hs.
    destruct (triggerDeployment _ s) as [[deployment | e] s1]; cbn [snd] in Hs; subst s1.
    + unfold bind, lift.
      destruct (prop deployment "id") as [id | e]; eexists _, _;
        (split; [reflexivity |]);
        [destruct (Hcompleted "deploymentId" id (or_introl eq_refl)) as [H1 H2]
        | destruct (Hfailed e) as [H1 H2]];
        (split; [exact H1 |]); (split; [reflexivity | exact H2]).
    + eexists _, _. split; [reflexivity |]. destruct (Hfailed e) as [H1 H2].
      split; [exact H1 |]. split; [reflexivity | exact H2].
  - destruct (RailwayAgent.is_action (RailwayAgent.field ticket "action") "status").
    + unfold bind at 1.
      pose proof (getServiceDeployments_state (RailwayAgent.field ticket "serviceId") s)
        as Hs.
      destruct (getServiceDeployments _ s) as [[deployments | e] s1]; cbn [snd] in Hs;
        subst s1; eexists _, _; (split; [reflexivity |]);
        [destruct (Hcompleted "latestDeployment" (RailwayAgent.first deployments)
                     (or_intror eq_refl)) as [H1 H2]
        | destruct (Hfailed e) as [H1 H2]];
        (split; [exact H1 |]); (split; [reflexivity | exact H2]).
    + eexists _, _. split; [reflexivity |].
      match goal with |- context [RailwayAgent.failed ticket ?e] =>
        destruct (Hfailed e) as [H1 H2] end.
      split; [exact H1 |]. split; [reflexivity | exact H2].
Qed.

(** X23.  For a deploy or redeploy ticket whose [action] and [service]
    have a text: when the platform answers with a body free of errors whose
    [data.serviceRedeploy] is an object, the ticket comes back [completed]
    with that object's [id] as [deploymentId], after the single request. *)
Theorem deploy_records_the_deployment_id
    (ticket : gmap string Value) (s : Sys W) (action service : string) (r : Response)
    (body data deployment : gmap string JSON) :
  toString (RailwayAgent.field ticket "action") = Ret action ->
  toString (RailwayAgent.field ticket "service") = Ret service ->
  RailwayAgent.is_action (RailwayAgent.field ticket "action") "deploy"
    || RailwayAgent.is_action (RailwayAgent.field ticket "action") "redeploy" = true ->
  answer fetch s (posted RailwayAgent.REDEPLOY_MUTATION
                    [("serviceId", RailwayAgent.field ticket "serviceId")]) = Resolved r ->
  ok r = true ->
  json r = inr (JObj body) ->
  truthy (body !! "errors") = false ->
  body !! "data" = Some (JObj data) ->
  data !! "serviceRedeploy" = Some (JObj deployment) ->
  executeTicket ticket s =
    (Ret (<["deploymentId" := deployment !! "id"]>
            (<["status" := Some (JStr "completed")]> ticket)),
     after fetch s (posted RailwayAgent.REDEPLOY_MUTATION
                      [("serviceId", RailwayAgent.field ticket "serviceId")])).
Proof.
  intros Haction Hservice Hact Hans Hok Hjson Herr Hdata Hdep.
  rewrite (executeTicket_run fetch JSON_stringify ticket s action service Haction Hservice).
  unfold try_catch. rewrite Hact.
  unfold bind at 1, RailwayAgent.triggerDeployment, bind at 1.
  rewrite query_run, Hans, Hok, Hjson. cbn [negb prop member]. rewrite Herr, Hdata.
  unfold lift, bind. cbn [prop member]. rewrite Hdep. cbn [prop member]. reflexivity.
Qed.

Lemma nodes_of_objects (edges : list JSON) :
  Forall (fun edge => edge <> JNull) edges ->
  RailwayAgent.nodes edges = Ret (map (fun edge => member (Some edge) "node") edges).
Proof.
  induction 1 as [| edge rest Hedge _ IH]; [reflexivity |].
  cbn [RailwayAgent.nodes map]. rewrite IH.
  destruct edge; try reflexivity. congruence.
Qed.

Lemma nodes_with_null (edges : list JSON) :
  In JNull edges -> exists e, RailwayAgent.nodes edges = Throw e.
Proof.
  induction edges as [| edge rest IH]; [intros [] |].
  intros [-> | Hin]; [cbn; eauto |].
  cbn [RailwayAgent.nodes]. destruct (prop (Some edge) "node"); [| eauto].
  destruct (IH Hin) as [e ->]. eauto.
Qed.

(** X24.  When the platform answers the service query with a 2xx body
    that has no truthy [errors] property and whose
    [data.service.deployments.edges] is an array, [getServiceDeployments]
    returns the [node] of every edge, in order and as many as there are
    edges ([undefined] where an edge has none), provided no edge is [null];
    a [null] edge makes it throw.  Either way one request was sent. *)
Theorem getServiceDeployments_maps_the_edges
    (serviceId : Value) (s : Sys W) (r : Response)
    (body data service deployments : gmap string JSON) (edges : list JSON) :
  answer fetch s (posted RailwayAgent.SERVICE_QUERY [("serviceId", serviceId)]) = Resolved r ->
  ok r = true ->
  json r = inr (JObj body) ->
  truthy (body !! "errors") = false ->
  body !! "data" = Some (JObj data) ->
  data !! "service" = Some (JObj service) ->
  service !! "deployments" = Some (JObj deployments) ->
  deployments !! "edges" = Some (JArr edges) ->
  (Forall (fun edge => edge <> JNull) edges ->
   getServiceDeployments serviceId s =
     (Ret (map (fun edge => member (Some edge) "node") edges),
      after fetch s (posted RailwayAgent.SERVICE_QUERY [("serviceId", serviceId)]))) /\
  (In JNull edges ->
   exists e,
     getServiceDeployments serviceId s =
       (Throw e, after fetch s (posted RailwayAgent.SERVICE_QUERY [("serviceId", serviceId)]))).
Proof.
  intros Hans Hok Hjson Herr Hdata Hservice Hdeployments Hedges.
  assert (Hrun : getServiceDeployments serviceId s =
                 (RailwayAgent.nodes edges,
                  after fetch s (posted RailwayAgent.SERVICE_QUERY
                                   [("serviceId", serviceId)]))).
  { unfold RailwayAgent.getServiceDeployments, bind at 1.
    rewrite query_run, Hans, Hok, Hjson. cbn [negb prop member]. rewrite Herr, Hdata.
    unfold bind, lift. cbn [prop member]. rewrite Hservice. cbn [prop member].
    rewrite Hdeployments. cbn [prop member]. rewrite Hedges. reflexivity. }
  rewrite Hrun. split.
  - intros Hall. rewrite (nodes_of_objects edges Hall). reflexivity.
  - intros Hnull. destruct (nodes_with_null edges Hnull) as [e ->]. eauto.
Qed.

End RailwayFacts.

Section RailwayFactsScenarios.

Import Scenarios.


Lemma deploy_records_the_deployment_id_witness :
  fst (RailwayAgent.executeTicket redeployed stringify deploy_ticket start)
    = Ret (<["deploymentId" := Some (JStr "dep-9")]>
             (<["status" := Some (JStr "completed")]> deploy_ticket)).
Proof.
  refine (f_equal fst
    (deploy_records_the_deployment_id redeployed stringify deploy_ticket start
       "deploy" "web" _
       (<["data" := literal [("serviceRedeploy",
                              Some (literal [("id", Some (JStr "dep-9"))]))]]> ∅)
       (<["serviceRedeploy" := literal [("id", Some (JStr "dep-9"))]]> ∅)
       (<["id" := JStr "dep-9"]> ∅)
       eq_refl eq_refl eq_refl eq_refl eq_refl eq_refl eq_refl eq_refl eq_refl)).
Defined.

Lemma executeTicket_settles_the_status_witness :
  exists result s',
    RailwayAgent.executeTicket unreachable stringify rollback_ticket start = (Ret result, s') /\
    (result !! "status" = Some (Some (JStr "completed")) \/
     result !! "status" = Some (Some (JStr "failed"))) /\
    s' = start /\
    (forall key,
       key <> "status" -> key <> "error" -> key <> "deploymentId" ->
       key <> "latestDeployment" ->
       result !! key = rollback_ticket !! key).
Proof.
  exact (executeTicket_settles_the_status unreachable stringify rollback_ticket start
           "rollback" "web" eq_refl eq_refl).
Defined.

Lemma getServiceDeployments_maps_the_edges_witness :
  fst (RailwayAgent.getServiceDeployments lists_deployments stringify (Some (JStr "svc-1"))
         start)
    = Ret [Some (literal [("id", Some (JStr "dep-2"))]);
           Some (literal [("id", Some (JStr "dep-1"))])].
Proof.
  refine (f_equal fst
    (proj1 (getServiceDeployments_maps_the_edges lists_deployments stringify
              (Some (JStr "svc-1")) start _
              (<["data" := literal [("service",
                   Some (literal [("deployments",
                           Some (literal [("edges", Some (JArr deployment_edges))]))]))]]> ∅)
              (<["service" := literal [("deployments",
                   Some (literal [("edges", Some (JArr deployment_edges))]))]]> ∅)
              (<["deployments" := literal [("edges", Some (JArr deployment_edges))]]> ∅)
              (<["edges" := JArr deployment_edges]> ∅)
              deployment_edges
              eq_refl eq_refl eq_refl eq_refl eq_refl eq_refl eq_refl eq_refl) _)).
  repeat constructor; discriminate.
Defined.

End RailwayFactsScenarios.

(** *** Local tickets and their summary *)

Section LocalTickets.

Context {W : Type} (Date_now : W -> Z * W) (toISOString : Z -> string).

Local Abbreviation createLocalTicket :=
  (PlaneTicketCreator.createLocalTicket Date_now toISOString).
Local Abbreviation createBulkTickets :=
  (PlaneTicketCreator.createBulkTickets Date_now toISOString).

Lemma createLocalTicket_run (prompt : string) (s : Sys W) :
  exists ticket s',
    createLocalTicket prompt s = (Ret ticket, s') /\
    trace s' = trace s /\
    PlaneTicketCreator.analysis ticket = PlaneTicketCreator.analyzeTicket prompt /\
    PlaneTicketCreator.status ticket = "Draft" /\
    PlaneTicketCreator.aiGenerated ticket = true.
Proof.
  unfold PlaneTicketCreator.createLocalTicket, bind, PlaneTicketCreator.now, ret.
  destruct (Date_now (world s)) as [t w1]. cbn [world].
  destruct (Date_now w1) as [t' w2]. eexists _, _. repeat split.
Qed.

Lemma ticket_creator_description (text : string) :
  PlaneTicketCreator.description (PlaneTicketCreator.analyzeTicket text) = text.
Proof.
  unfold PlaneTicketCreator.analyzeTicket.
  destruct (PlaneTicketCreator.categorize (toLowerCase text)); reflexivity.
Qed.

Lemma createBulkTickets_run (ticketList : list string) (s : Sys W) :
  exists tickets s',
    createBulkTickets ticketList s = (Ret tickets, s') /\
    trace s' = trace s /\
    map PlaneTicketCreator.analysis tickets
      = map PlaneTicketCreator.analyzeTicket ticketList /\
    map (fun t => PlaneTicketCreator.description (PlaneTicketCreator.analysis t)) tickets
      = ticketList /\
    Forall (fun t => PlaneTicketCreator.status t = "Draft" /\
                     PlaneTicketCreator.aiGenerated t = true) tickets.
Proof.
  unfold PlaneTicketCreator.createBulkTickets.
  revert s. induction ticketList as [| prompt rest IH]; intros s.
  - exists [], s. repeat split. constructor.
  - cbn [PlaneTicketCreator.createLocalTickets]. unfold bind at 1.
    destruct (createLocalTicket_run prompt s) as (ticket & s1 & -> & Ht & Ha & Hs & Hg).
    unfold bind at 1.
    destruct (IH s1) as (tickets & s' & -> & Ht' & Hmap & Hdesc & Hall).
    exists (ticket :: tickets), s'. cbn [map]. repeat split.
    + congruence.
    + rewrite Ha, Hmap. reflexivity.
    + rewrite Ha, ticket_creator_description, Hdesc. reflexivity.
    + constructor; [split; assumption | exact Hall].
Qed.

(** X25.  [createBulkTickets] never throws and sends nothing.  It returns
    one ticket per prompt, in input order; each is a Draft marked
    [aiGenerated] that carries the analysis of its own prompt, the prompt
    itself being its description. *)
Theorem createBulkTickets_drafts_every_prompt (ticketList : list string) (s : Sys W) :
  exists tickets s',
    createBulkTickets ticketList s = (Ret tickets, s') /\
    trace s' = trace s /\
    map PlaneTicketCreator.analysis tickets
      = map PlaneTicketCreator.analyzeTicket ticketList /\
    map (fun t => PlaneTicketCreator.description (PlaneTicketCreator.analysis t)) tickets
      = ticketList /\
    Forall (fun t => PlaneTicketCreator.status t = "Draft" /\
                     PlaneTicketCreator.aiGenerated t = true) tickets.
Proof. apply createBulkTickets_run. Qed.

Lemma analyzeTicket_enumerations (text : string) :
  In (PlaneTicketCreator.category (PlaneTicketCreator.analyzeTicket text))
     ["Bug"; "Feature"; "Enhancement"; "Task"] /\
  In (PlaneTicketCreator.priority (PlaneTicketCreator.analyzeTicket text))
     ["Urgent"; "High"; "Medium"; "Low"].
Proof.
  rewrite ticket_creator_category, ticket_creator_priority.
  unfold PlaneTicketCreator.categorize, PlaneTicketCreator.adjust_priority.
  split;
    repeat match goal with
           | |- context [if ?b then _ else _] => destruct b
           end; cbn; auto 6.
Qed.

Local Abbreviation occurrences := PlaneTicketCreator.occurrences.
Local Abbreviation recorded := PlaneTicketCreator.recorded.
Local Abbreviation total := PlaneTicketCreator.total.

Lemma bump_recorded (key other : string) (acc : list (string * nat)) :
  recorded other (PlaneTicketCreator.bump key acc) =
  if String.eqb other key then S (recorded other acc) else recorded other acc.
Proof.
  unfold PlaneTicketCreator.recorded. induction acc as [| [k n] rest IH];
    cbn [PlaneTicketCreator.bump].
  - cbn. rewrite String.eqb_sym. destruct (String.eqb other key); reflexivity.
  - destruct (String.eqb_spec k key) as [-> | Hk].
    + cbn [List.find fst]. destruct (String.eqb_spec key other) as [<- | Hne].
      * rewrite String.eqb_refl. reflexivity.
      * apply not_eq_sym, String.eqb_neq in Hne. rewrite Hne. reflexivity.
    + cbn [List.find fst]. destruct (String.eqb_spec k other) as [<- | Hne]; [| exact IH].
      apply String.eqb_neq in Hk. rewrite Hk. reflexivity.
Qed.

Lemma bump_total (key : string) (acc : list (string * nat)) :
  total (PlaneTicketCreator.bump key acc) = S (total acc).
Proof.
  induction acc as [| [k n] rest IH]; [reflexivity |].
  cbn [PlaneTicketCreator.bump]. unfold PlaneTicketCreator.total in *.
  destruct (String.eqb k key); cbn [fold_right snd] in *; lia.
Qed.

Lemma bump_positive (key : string) (acc : list (string * nat)) :
  Forall (fun entry => (0 < snd entry)%nat) acc ->
  Forall (fun entry => (0 < snd entry)%nat) (PlaneTicketCreator.bump key acc).
Proof.
  induction 1 as [| [k n] rest Hn Hrest IH]; cbn [PlaneTicketCreator.bump].
  - repeat constructor.
  - destruct (String.eqb k key); constructor; cbn [snd] in *; auto.
Qed.

Lemma tally_positive (keys : list string) :
  forall acc,
    Forall (fun entry => (0 < snd entry)%nat) acc ->
    Forall (fun entry => (0 < snd entry)%nat)
      (fold_left (fun acc key => PlaneTicketCreator.bump key acc) keys acc).
Proof.
  induction keys as [| k rest IH]; intros acc H; [exact H |].
  cbn [fold_left]. apply IH, bump_positive, H.
Qed.

Lemma bump_keys (key : string) (acc : list (string * nat)) :
  map fst (PlaneTicketCreator.bump key acc) =
  if existsb (String.eqb key) (map fst acc) then map fst acc else map fst acc ++ [key].
Proof.
  induction acc as [| [k n] rest IH]; [reflexivity |].
  cbn [PlaneTicketCreator.bump map fst existsb]. rewrite (String.eqb_sym key k).
  destruct (String.eqb k key); [reflexivity |]. cbn [map fst orb]. rewrite IH.
  destruct (existsb _ _); reflexivity.
Qed.

Lemma bump_keeps_keys_distinct (key : string) (acc : list (string * nat)) :
  List.NoDup (map fst acc) -> List.NoDup (map fst (PlaneTicketCreator.bump key acc)).
Proof.
  intros Hnd. rewrite bump_keys. destruct (existsb _ _) eqn:E; [exact Hnd |].
  apply List.NoDup_app; [exact Hnd | repeat constructor; intros [] |].
  intros k Hk [Heq | []]. subst k.
  assert (existsb (String.eqb key) (map fst acc) = true); [| congruence].
  apply existsb_exists. exists key. split; [exact Hk | apply String.eqb_refl].
Qed.

Lemma tally_from (keys : list string) :
  forall acc,
    let result := fold_left (fun acc key => PlaneTicketCreator.bump key acc) keys acc in
    (forall key, recorded key result = (recorded key acc + occurrences key keys)%nat) /\
    total result = (total acc + length keys)%nat /\
    (List.NoDup (map fst acc) -> List.NoDup (map fst result)).
Proof.
  induction keys as [| k rest IH]; intros acc; cbn zeta.
  - cbn. repeat split; intros; auto; lia.
  - cbn [fold_left]. destruct (IH (PlaneTicketCreator.bump k acc)) as (Hrec & Htot & Hnd).
    cbn zeta in *. split; [| split].
    + intros key. rewrite Hrec, bump_recorded. unfold PlaneTicketCreator.occurrences.
      cbn [List.filter].
      destruct (String.eqb key k); cbn [length]; lia.
    + rewrite Htot, bump_total. cbn [length]. lia.
    + intros H. apply Hnd, bump_keeps_keys_distinct, H.
Qed.

Lemma bump_keys_from (key k : string) (acc : list (string * nat)) :
  In k (map fst (PlaneTicketCreator.bump key acc)) -> In k (map fst acc) \/ k = key.
Proof.
  rewrite bump_keys. destruct (existsb _ _); [auto |].
  rewrite in_app_iff. cbn. intuition.
Qed.

Lemma tally_keys (keys : list string) :
  forall acc k,
    In k (map fst (fold_left (fun acc key => PlaneTicketCreator.bump key acc) keys acc)) ->
    In k (map fst acc) \/ In k keys.
Proof.
  induction keys as [| key rest IH]; intros acc k; [auto |].
  cbn [fold_left]. intros H. destruct (IH _ _ H) as [H' | H']; [| right; right; exact H'].
  destruct (bump_keys_from _ _ _ H') as [H'' | ->]; [left; exact H'' | right; left; reflexivity].
Qed.

(** The facts about one summary object. *)
Lemma tally_counts (keys : list string) :
  (forall key, recorded key (PlaneTicketCreator.tally keys) = occurrences key keys) /\
  List.NoDup (map fst (PlaneTicketCreator.tally keys)) /\
  total (PlaneTicketCreator.tally keys) = length keys /\
  (forall key n, In (key, n) (PlaneTicketCreator.tally keys) -> (0 < n)%nat /\ In key keys).
Proof.
  unfold PlaneTicketCreator.tally.
  destruct (tally_from keys []) as (Hrec & Htot & Hnd). cbn zeta in *.
  split; [intros key; rewrite Hrec; reflexivity |].
  split; [apply Hnd; constructor |].
  split; [rewrite Htot; reflexivity |].
  intros key n Hin. split.
  - pose proof (tally_positive keys [] (List.Forall_nil _)) as Hpos.
    rewrite List.Forall_forall in Hpos. apply (Hpos (key, n) Hin).
  - destruct (tally_keys keys [] key) as [[] | H]; [| exact H].
    apply (in_map fst) in Hin. exact Hin.
Qed.

(** X26.  The summary of a bulk creation counts faithfully.  For every
    category the recorded count is the number of prompts classified in that
    category; each category is listed once, with a positive count, and is
    one of Bug, Feature, Enhancement and Task; the counts add up to the
    number of tickets.  The same holds for the priorities. *)
Theorem summary_counts_every_ticket (ticketList : list string) (s : Sys W) :
  exists tickets s',
    createBulkTickets ticketList s = (Ret tickets, s') /\
    ((forall key,
        recorded key (PlaneTicketCreator.categories tickets) =
        occurrences key
          (map (fun prompt => PlaneTicketCreator.category
                                (PlaneTicketCreator.analyzeTicket prompt)) ticketList)) /\
     List.NoDup (map fst (PlaneTicketCreator.categories tickets)) /\
     total (PlaneTicketCreator.categories tickets) = length ticketList /\
     (forall key n, In (key, n) (PlaneTicketCreator.categories tickets) ->
        (0 < n)%nat /\ In key ["Bug"; "Feature"; "Enhancement"; "Task"])) /\
    ((forall key,
        recorded key (PlaneTicketCreator.priorities tickets) =
        occurrences key
          (map (fun prompt => PlaneTicketCreator.priority
                                (PlaneTicketCreator.analyzeTicket prompt)) ticketList)) /\
     List.NoDup (map fst (PlaneTicketCreator.priorities tickets)) /\
     total (PlaneTicketCreator.priorities tickets) = length ticketList /\
     (forall key n, In (key, n) (PlaneTicketCreator.priorities tickets) ->
        (0 < n)%nat /\ In key ["Urgent"; "High"; "Medium"; "Low"])).
Proof.
  destruct (createBulkTickets_run ticketList s) as (tickets & s' & Hrun & _ & Hmap & _ & _).
  exists tickets, s'. split; [exact Hrun |].
  assert (Hcat : map (fun t => PlaneTicketCreator.category (PlaneTicketCreator.analysis t))
                   tickets
                 = map (fun prompt => PlaneTicketCreator.category
                                        (PlaneTicketCreator.analyzeTicket prompt)) ticketList).
  { rewrite <- (map_map PlaneTicketCreator.analysis PlaneTicketCreator.category), Hmap.
    apply map_map. }
  assert (Hpri : map (fun t => PlaneTicketCreator.priority (PlaneTicketCreator.analysis t))
                   tickets
                 = map (fun prompt => PlaneTicketCreator.priority
                                        (PlaneTicketCreator.analyzeTicket prompt)) ticketList).
  { rewrite <- (map_map PlaneTicketCreator.analysis PlaneTicketCreator.priority), Hmap.
    apply map_map. }
  unfold PlaneTicketCreator.categories, PlaneTicketCreator.priorities.
  rewrite Hcat, Hpri. split.
  - destruct (tally_counts (map (fun prompt => PlaneTicketCreator.category
                                   (PlaneTicketCreator.analyzeTicket prompt)) ticketList))
      as (Hrec & Hnd & Htot & Hin).
    rewrite length_map in Htot. repeat split; auto.
    + apply (Hin key n H).
    + destruct (Hin key n H) as [_ Hkey]. apply in_map_iff in Hkey.
      destruct Hkey as (prompt & <- & _). apply analyzeTicket_enumerations.
  - destruct (tally_counts (map (fun prompt => PlaneTicketCreator.priority
                                   (PlaneTicketCreator.analyzeTicket prompt)) ticketList))
      as (Hrec & Hnd & Htot & Hin).
    rewrite length_map in Htot. repeat split; auto.
    + apply (Hin key n H).
    + destruct (Hin key n H) as [_ Hkey]. apply in_map_iff in Hkey.
      destruct Hkey as (prompt & <- & _). apply analyzeTicket_enumerations.
Qed.

End LocalTickets.

(** *** The webhook registration script *)

Section SetupFacts.

Context {W : Type} (fetch : Request -> W -> FetchResult * W).

Local Abbreviation webhooks_loop := (WebhookSetup.webhooks_loop fetch).
Local Abbreviation setupPlaneWebhook := (WebhookSetup.setupPlaneWebhook fetch).

(** The loop only adds requests to the trace, one after the other. *)
Lemma webhooks_loop_extends (config : WebhookSetup.Config) (workspaces : list JSON)
    (s : Sys W) :
  exists more, trace (snd (webhooks_loop config workspaces s)) = trace s ++ more.
Proof.
  revert s. induction workspaces as [| workspace rest IH]; intros s.
  - exists []. cbn. symmetry. apply app_nil_r.
  - cbn [WebhookSetup.webhooks_loop]. unfold bind at 1, lift at 1.
    destruct (prop (Some workspace) "name") as [name | e];
      [| exists []; cbn; symmetry; apply app_nil_r].
    unfold bind at 1, lift at 1.
    destruct (toString name) as [name_text | e];
      [| exists []; cbn; symmetry; apply app_nil_r].
    unfold bind at 1, lift at 1.
    destruct (prop (Some workspace) "slug") as [slug_value | e];
      [| exists []; cbn; symmetry; apply app_nil_r].
    unfold bind at 1, lift at 1.
    destruct (toString slug_value) as [slug | e];
      [| exists []; cbn; symmetry; apply app_nil_r].
    unfold bind at 1, await_fetch.
    destruct (fetch (WebhookSetup.registration config slug) (world s)) as [[e | r] w'].
    + eexists. reflexivity.
    + set (s1 := mkSys w' (trace s ++ [EvFetch (WebhookSetup.registration config slug)])).
      unfold bind at 1.
      assert (Hinner : forall (m : M W unit),
        (forall st, snd (m st) = st) ->
        exists more,
          trace (snd (match m s1 with
                      | (Ret a, st) => webhooks_loop config rest st
                      | (Throw e, st) => (Throw e, st)
                      end)) = trace s ++ more).
      { intros m Hm. specialize (Hm s1). destruct (m s1) as [[[] | e] st]; cbn [snd] in Hm;
          subst st.
        - destruct (IH s1) as [more ->]. subst s1. cbn [trace]. rewrite <- app_assoc. eauto.
        - eexists. reflexivity. }
      destruct (ok r); apply Hinner.
      * intros st. unfold bind, await_json, lift, throw, ret.
        destruct (json r); [reflexivity |]. destruct (WebhookSetup.reads _ _); reflexivity.
      * intros st. reflexivity.
Qed.

(** X27.  The registration script never throws.  Without an API key it
    sends nothing; with one, its first request lists the workspaces, and
    when that request is answered with a status outside 2xx it is the only
    request. *)
Theorem setup_needs_a_key_and_never_throws (config : WebhookSetup.Config) (s : Sys W) :
  (exists s', setupPlaneWebhook config s = (Ret tt, s')) /\
  (WebhookSetup.plane_apiKey config = "" -> setupPlaneWebhook config s = (Ret tt, s)) /\
  (WebhookSetup.plane_apiKey config <> "" ->
   exists more,
     trace (snd (setupPlaneWebhook config s))
     = trace s ++ EvFetch (WebhookSetup.listing config) :: more) /\
  (WebhookSetup.plane_apiKey config <> "" ->
   forall r, answer fetch s (WebhookSetup.listing config) = Resolved r -> ok r = false ->
   setupPlaneWebhook config s = (Ret tt, after fetch s (WebhookSetup.listing config))).
Proof.
  unfold WebhookSetup.setupPlaneWebhook. split; [| split; [| split]].
  - destruct (String.eqb _ ""); [eexists; reflexivity |].
    unfold try_catch.
    match goal with |- context [match ?m s with _ => _ end] =>
      destruct (m s) as [[[] | e] s'] end; eexists; reflexivity.
  - intros ->. reflexivity.
  - intros Hkey. apply String.eqb_neq in Hkey. rewrite Hkey.
    unfold try_catch, bind at 1, await_fetch.
    destruct (fetch (WebhookSetup.listing config) (world s)) as [[e | r] w'].
    { exists []. reflexivity. }
    set (s1 := mkSys w' (trace s ++ [EvFetch (WebhookSetup.listing config)])).
    destruct (negb (ok r)); [exists []; reflexivity |].
    unfold bind at 1, await_json.
    destruct (json r) as [e | workspaces]; [exists []; reflexivity |].
    unfold ret at 1. unfold bind at 1, lift at 1.
    destruct (WebhookSetup.reads (Some workspaces) "length"); [| exists []; reflexivity].
    unfold bind at 1, lift at 1.
    destruct (WebhookSetup.iterate workspaces) as [items | e]; [| exists []; reflexivity].
    destruct (webhooks_loop_extends config items s1) as [more Hmore].
    destruct (webhooks_loop config items s1) as [[[] | e] s'] eqn:Hloop;
      unfold ret; cbv beta iota; cbn [snd] in *;
      exists more; rewrite Hmore; subst s1; cbn [trace]; rewrite <- app_assoc; reflexivity.
  - intros Hkey r Hans Hok. apply String.eqb_neq in Hkey. rewrite Hkey.
    unfold try_catch, bind at 1, await_fetch. unfold answer in Hans. unfold after.
    destruct (fetch (WebhookSetup.listing config) (world s)) as [a w']. cbn [fst snd] in *.
    subst a. rewrite Hok. reflexivity.
Qed.

Lemma webhooks_loop_all (config : WebhookSetup.Config) (workspaces : list JSON)
    (slugs : list string) (s : Sys W) :
  Forall2 (fun workspace slug =>
             workspace <> JNull /\
             printable (member (Some workspace) "name") = true /\
             toString (member (Some workspace) "slug") = Ret slug) workspaces slugs ->
  (forall req w, method req = Some "POST" ->
     exists r, fst (fetch req w) = Resolved r /\
               (ok r = false \/ exists v, json r = inr v /\ v <> JNull)) ->
  exists s',
    webhooks_loop config workspaces s = (Ret tt, s') /\
    trace s' = trace s ++
      map (fun slug => EvFetch (WebhookSetup.registration config slug)) slugs.
Proof.
  intros Hall Hposts. revert s.
  induction Hall as [| workspace slug rest slugs (Hworkspace & Hname & Hslug) _ IH]; intros s.
  - exists s. split; [reflexivity | symmetry; apply app_nil_r].
  - cbn [WebhookSetup.webhooks_loop].
    assert (Hread : forall key, prop (Some workspace) key = Ret (member (Some workspace) key)).
    { intros key. destruct workspace; try reflexivity. congruence. }
    unfold bind at 1, lift at 1. rewrite (Hread "name").
    unfold bind at 1, lift at 1. unfold printable in Hname.
    destruct (toString (member (Some workspace) "name")) as [name_text | e];
      [clear Hname | discriminate Hname].
    unfold bind at 1, lift at 1. rewrite (Hread "slug").
    unfold bind at 1, lift at 1. rewrite Hslug.
    unfold bind at 1, await_fetch.
    destruct (Hposts (WebhookSetup.registration config slug) (world s) eq_refl)
      as (r & Hr & Hcase).
    destruct (fetch (WebhookSetup.registration config slug) (world s)) as [a w'].
    cbn [fst] in Hr. subst a.
    set (s1 := mkSys w' (trace s ++ [EvFetch (WebhookSetup.registration config slug)])).
    destruct (IH s1) as (s' & Hloop & Ht).
    assert (Hstep : (if ok r
                     then (let* webhook := await_json r in
                           lift (WebhookSetup.reads (Some webhook) "id"))
                     else ret tt) s1 = (Ret tt, s1)).
    { destruct Hcase as [-> | (v & Hv & Hnn)]; [reflexivity |].
      destruct (ok r); [| reflexivity].
      unfold bind, await_json, lift, ret. rewrite Hv.
      unfold WebhookSetup.reads. destruct v; try reflexivity. congruence. }
    unfold bind at 1. rewrite Hstep, Hloop. exists s'. split; [reflexivity |].
    rewrite Ht. subst s1. cbn [trace map]. rewrite <- app_assoc. reflexivity.
Qed.

(** X28.  With an API key, a listing answered 2xx with an array of
    workspaces, none of them [null] and each with a [name] and a [slug]
    that have a text, and registrations that are each either refused or
    answered with a JSON value other than [null], the script sends the
    listing and then exactly one registration per workspace, in the order
    listed, to the URL built from the text of the workspace's [slug]: a
    refused registration does not stop the following ones. *)
Theorem one_registration_per_workspace
    (config : WebhookSetup.Config) (s : Sys W) (r : Response) (workspaces : list JSON)
    (slugs : list string) :
  WebhookSetup.plane_apiKey config <> "" ->
  answer fetch s (WebhookSetup.listing config) = Resolved r ->
  ok r = true ->
  json r = inr (JArr workspaces) ->
  Forall2 (fun workspace slug =>
             workspace <> JNull /\
             printable (member (Some workspace) "name") = true /\
             toString (member (Some workspace) "slug") = Ret slug) workspaces slugs ->
  (forall req w, method req = Some "POST" ->
     exists r', fst (fetch req w) = Resolved r' /\
                (ok r' = false \/ exists v, json r' = inr v /\ v <> JNull)) ->
  trace (snd (setupPlaneWebhook config s)) =
    trace s ++ EvFetch (WebhookSetup.listing config)
            :: map (fun slug => EvFetch (WebhookSetup.registration config slug)) slugs.
Proof.
  intros Hkey Hans Hok Hjson Hall Hposts.
  unfold WebhookSetup.setupPlaneWebhook. apply String.eqb_neq in Hkey. rewrite Hkey.
  unfold try_catch, bind at 1, await_fetch. unfold answer in Hans.
  destruct (fetch (WebhookSetup.listing config) (world s)) as [a w']. cbn [fst] in Hans.
  subst a. rewrite Hok. cbn [negb].
  unfold bind at 1, await_json. rewrite Hjson. unfold ret at 1.
  unfold bind at 1, lift at 1. cbn [WebhookSetup.reads prop member].
  unfold bind at 1, lift at 1. cbn [WebhookSetup.iterate].
  destruct (webhooks_loop_all config workspaces slugs
              (mkSys w' (trace s ++ [EvFetch (WebhookSetup.listing config)])) Hall Hposts)
    as (s' & Hloop & Ht).
  match goal with
  | |- context [WebhookSetup.webhooks_loop fetch config workspaces ?st] =>
      change (WebhookSetup.webhooks_loop fetch config workspaces st)
        with (webhooks_loop config workspaces
                (mkSys w' (trace s ++ [EvFetch (WebhookSetup.listing config)])))
  end.
  rewrite Hloop. cbn [snd]. rewrite Ht. cbn [trace]. rewrite <- app_assoc. reflexivity.
Qed.

End SetupFacts.

Section SetupScenarios.

Import Scenarios.

Lemma setup_needs_a_key_and_never_throws_witness :
  WebhookSetup.setupPlaneWebhook refuses_alpha
    (WebhookSetup.mkConfig base "" "http://webhooks.local:3000") start = (Ret tt, start).
Proof.
  exact (proj1 (proj2 (setup_needs_a_key_and_never_throws refuses_alpha
                         (WebhookSetup.mkConfig base "" "http://webhooks.local:3000") start))
           eq_refl).
Defined.

Lemma one_registration_per_workspace_witness :
  map mark (trace (snd (WebhookSetup.setupPlaneWebhook refuses_alpha setup_config start)))
    = [Called "https://plane.example/api/v1/workspaces/";
       Called "https://plane.example/api/v1/workspaces/alpha/webhooks/";
       Called "https://plane.example/api/v1/workspaces/beta/webhooks/"].
Proof.
  refine (f_equal (map mark)
    (one_registration_per_workspace refuses_alpha setup_config start _ two_workspaces
       ["alpha"; "beta"] _ eq_refl eq_refl eq_refl _ _)).
  - discriminate.
  - repeat constructor; discriminate.
  - intros req w _. unfold refuses_alpha.
    destruct (String.eqb (url req) _).
    + eexists. split; [reflexivity |]. right. eexists. split; [reflexivity | discriminate].
    + destruct (String.eqb (url req) _); eexists; (split; [reflexivity |]).
      * left. reflexivity.
      * right. eexists. split; [reflexivity | discriminate].
Defined.

End SetupScenarios.
